(** * rasterioxyz: the tile pipeline of [rasterioxyz/tile.py]

    A shallow embedding of the [Tiles] class (tile planning, tile
    construction, rescaling to 8-bit samples and writing) together with
    the properties of its specification.

    Python floats are IEEE 754 binary64 values; they are modelled with the
    executable specification of [SpecFloat] (mantissa and exponent as
    integers, rounding to nearest even), so every arithmetic step of the
    source can be evaluated exactly as the interpreter performs it. *)

From Stdlib Require Import ZArith Bool List Lia Ascii String Sorted.
From Stdlib Require Import Floats.SpecFloat.
From stdpp Require Import base option list gmap strings pretty.

Local Open Scope Z_scope.

Set Warnings "-register-all,-clear-no-such-hyp".

(** ** IEEE 754 arithmetic *)

Module IEEE.

(** A binary interchange format: [prec] bits of mantissa (hidden bit
    included) and [emax], the exponent of the infinities. *)
Record format : Set := Format { prec : Z; emax : Z }.

Definition binary64 : format := Format 53 1024.
Definition binary32 : format := Format 24 128.

Section Ops.
Variable fmt : format.

Let p := prec fmt.
Let E := emax fmt.

Definition add : spec_float -> spec_float -> spec_float := SFadd p E.
Definition sub : spec_float -> spec_float -> spec_float := SFsub p E.
Definition mul : spec_float -> spec_float -> spec_float := SFmul p E.
Definition div : spec_float -> spec_float -> spec_float := SFdiv p E.
Definition sqrt : spec_float -> spec_float := SFsqrt p E.

(** Nearest value of the format to the integer [n]. *)
Definition of_Z (n : Z) : spec_float := binary_normalize p E n 0 false.

(** Nearest value of the format to a value of another format. *)
Definition round (x : spec_float) : spec_float :=
  match x with
  | S754_finite s m e => binary_round p E s m e
  | _ => x
  end.

(** C [floor]: the largest integral value not above [x]. *)
Definition floor (x : spec_float) : spec_float :=
  match x with
  | S754_finite s m e =>
      if 0 <=? e then x
      else
        let n := Z.shiftr (cond_Zopp s (Zpos m)) (- e) in
        if n =? 0 then S754_zero s else of_Z n
  | _ => x
  end.

(** C [fmod]: the exact remainder of [x / y], with the sign of [x]. *)
Definition fmod (x y : spec_float) : spec_float :=
  match x, y with
  | S754_nan, _ | _, S754_nan => S754_nan
  | S754_infinity _, _ => S754_nan
  | _, S754_zero _ => S754_nan
  | _, S754_infinity _ => x
  | S754_zero _, _ => x
  | S754_finite sx mx ex, S754_finite _ my ey =>
      let ez := Z.min ex ey in
      let X := Z.shiftl (Zpos mx) (ex - ez) in
      let Y := Z.shiftl (Zpos my) (ey - ez) in
      binary_normalize p E (cond_Zopp sx (X mod Y)) ez sx
  end.

(** C [copysign]. *)
Definition sign_bit (x : spec_float) : bool :=
  match x with
  | S754_zero s | S754_infinity s | S754_finite s _ _ => s
  | S754_nan => false
  end.

Definition copysign (x y : spec_float) : spec_float :=
  if sign_bit y then SFopp (SFabs x) else SFabs x.
End Ops.

Global Instance spec_float_eq_dec : EqDecision spec_float.
Proof. solve_decision. Defined.

Definition is_zero (x : spec_float) : bool :=
  match x with S754_zero _ => true | _ => false end.

Definition is_nan (x : spec_float) : bool :=
  match x with S754_nan => true | _ => false end.

Definition is_finite (x : spec_float) : bool :=
  match x with S754_zero _ | S754_finite _ _ _ => true | _ => false end.

(** The integer part of [x] (towards zero); [None] for NaN and the
    infinities. *)
Definition trunc (x : spec_float) : option Z :=
  match x with
  | S754_zero _ => Some 0
  | S754_finite s m e =>
      Some (cond_Zopp s (if 0 <=? e then Z.shiftl (Zpos m) e
                         else Z.shiftr (Zpos m) (- e)))
  | _ => None
  end.


End IEEE.

Abbreviation float := spec_float (only parsing).

(** ** The Python runtime *)

Module Py.

(** Exceptions, by class.  Messages are not modelled. *)
Inductive exn : Set :=
| TypeError
| ValueError
| IndexError
| AttributeError
| ZeroDivisionError
| OverflowError
| FileNotFoundError
| FileExistsError
| NotADirectoryError
| CRSError
| RasterioError (code : Z).

Inductive outcome (A : Type) : Type :=
| Return (a : A)
| Raise (e : exn).
Global Arguments Return {A} a.
Global Arguments Raise {A} e.

Global Instance exn_eq_dec : EqDecision exn.
Proof. solve_decision. Defined.

Global Instance outcome_eq_dec {A : Type} `{EqDecision A} : EqDecision (outcome A).
Proof. solve_decision. Defined.

Global Instance outcome_ret : MRet outcome := @Return.
Global Instance outcome_bind : MBind outcome := fun A B f m =>
  match m with
  | Return a => f a
  | Raise e => Raise e
  end.

(** *** Arithmetic on floats (binary64) *)

Definition fadd := IEEE.add IEEE.binary64.
Definition fsub := IEEE.sub IEEE.binary64.
Definition fmul := IEEE.mul IEEE.binary64.
Definition fdiv_raw := IEEE.div IEEE.binary64.
Definition fneg := SFopp.
Definition fabs := SFabs.
Definition flt := SFltb.
Definition feq := SFeqb.

(** [float(n)] for an integer [n]. *)
Definition float_of_int (n : Z) : outcome float :=
  match IEEE.of_Z IEEE.binary64 n with
  | S754_infinity _ => Raise OverflowError
  | x => Return x
  end.

(** [x / y] *)
Definition truediv (x y : float) : outcome float :=
  if IEEE.is_zero y then Raise ZeroDivisionError else Return (fdiv_raw x y).

(** [x // y], after [float_floor_div] and [_float_div_mod] of the
    interpreter: the remainder comes from [fmod], the quotient
    [(x - mod) / y] is adjusted to the sign of [y] and snapped to the
    nearest integral value. *)
Definition floordiv (vx wx : float) : outcome float :=
  if IEEE.is_zero wx then Raise ZeroDivisionError
  else
    let mod_ := IEEE.fmod IEEE.binary64 vx wx in
    let div0 := fdiv_raw (fsub vx mod_) wx in
    let div :=
      if negb (feq mod_ (S754_zero false))
      then if negb (Bool.eqb (flt wx (S754_zero false))
                             (flt mod_ (S754_zero false)))
           then fsub div0 (IEEE.of_Z IEEE.binary64 1)
           else div0
      else div0 in
    if negb (feq div (S754_zero false))
    then
      let fl := IEEE.floor IEEE.binary64 div in
      if flt (fdiv_raw (IEEE.of_Z IEEE.binary64 1) (IEEE.of_Z IEEE.binary64 2))
             (fsub div fl)
      then Return (fadd fl (IEEE.of_Z IEEE.binary64 1))
      else Return fl
    else Return (IEEE.copysign (S754_zero false) (fdiv_raw vx wx)).

(** [int(x)] for a float [x]. *)
Definition int_of_float (x : float) : outcome Z :=
  match x with
  | S754_nan => Raise ValueError
  | S754_infinity _ => Raise OverflowError
  | _ => match IEEE.trunc x with
         | Some n => Return n
         | None => Raise ValueError
         end
  end.

(** Numbers: [int] and [float]. *)
Inductive num : Set :=
| Int (n : Z)
| Float (x : float).

(** [b ** e] for integers [b > 0] and [e]: an integer when [e >= 0];
    otherwise both operands are converted to floats and the result is
    the float power (here only for a base that is a power of two, whose
    powers are exact or underflow). *)
Definition int_pow (b e : Z) : outcome num :=
  if 0 <=? e then Return (Int (b ^ e))
  else
    if (0 <? b) && (2 ^ Z.log2 b =? b)
    then Return (Float (IEEE.round IEEE.binary64
                          (S754_finite false 1 (Z.log2 b * e))))
    else Raise ValueError.

(** [x ** .5]: an integer is converted to a float first; the power is
    the correctly rounded square root.  For a negative base Python
    gives a complex number, which nothing downstream accepts. *)
Definition pow_half (x : num) : outcome float :=
  x ← match x with Int n => float_of_int n | Float x => Return x end;
  match x with
  | S754_finite true _ _ | S754_infinity true => Raise TypeError
  | _ => Return (IEEE.sqrt IEEE.binary64 x)
  end.

(** *** [range] and [itertools.product] *)

(** The elements of [range(start, stop)]. *)
Definition range (start stop : Z) : list Z :=
  List.map (fun i : nat => start + Z.of_nat i)
           (List.seq 0 (Z.to_nat (stop - start))).

(** The elements of [range(start, stop, step)]. *)
Definition range_step (start stop step : Z) : list Z :=
  if 0 <? step then
    List.map (fun i : nat => start + Z.of_nat i * step)
             (List.seq 0 (Z.to_nat ((stop - start + step - 1) / step)))
  else if step <? 0 then
    List.map (fun i : nat => start + Z.of_nat i * step)
             (List.seq 0 (Z.to_nat ((start - stop - step - 1) / (- step))))
  else [].

(** [product(xs, ys)]: nested loops, the rightmost iterable advancing
    on every iteration. *)
Fixpoint product {A B : Type} (xs : list A) (ys : list B) : list (A * B) :=
  match xs with
  | [] => []
  | x :: xs' => List.map (fun y => (x, y)) ys ++ product xs' ys
  end.

(** *** Strings *)

Definition upper_ascii (c : Ascii.ascii) : Ascii.ascii :=
  let n := Ascii.N_of_ascii c in
  if ((97 <=? n) && (n <=? 122))%N then Ascii.ascii_of_N (n - 32) else c.

(** [s.upper()], on ASCII letters. *)
Fixpoint upper (s : string) : string :=
  match s with
  | EmptyString => EmptyString
  | String c s' => String (upper_ascii c) (upper s')
  end.

(** [str(n)] for an integer [n]. *)
Definition str_of_int (n : Z) : string := pretty n.

End Py.

(** ** NumPy arrays *)

Module Np.

(** The sample types of a raster, the complex ones apart. *)
Inductive dtype : Set :=
| UInt8 | Int8 | UInt16 | Int16 | UInt32 | Int32 | UInt64 | Int64
| Float32 | Float64.

Global Instance dtype_eq_dec : EqDecision dtype.
Proof. solve_decision. Defined.

(** Integer types: signedness and width; [None] for the float types. *)
Definition int_kind (d : dtype) : option (bool * Z) :=
  match d with
  | UInt8 => Some (false, 8) | Int8 => Some (true, 8)
  | UInt16 => Some (false, 16) | Int16 => Some (true, 16)
  | UInt32 => Some (false, 32) | Int32 => Some (true, 32)
  | UInt64 => Some (false, 64) | Int64 => Some (true, 64)
  | Float32 | Float64 => None
  end.

Definition float_format (d : dtype) : IEEE.format :=
  match d with Float32 => IEEE.binary32 | _ => IEEE.binary64 end.

(** One sample: an integer or a float, according to the type of the
    array that holds it. *)
Inductive scalar : Set :=
| SInt (n : Z)
| SFloat (x : float).

(** A three-dimensional array, indexed [band][row][column]. *)
Record ndarray : Set := NdArray {
  nd_dtype : dtype;
  nd_data : list (list (list scalar))
}.

(** A masked array: the data and, for each sample, whether it is
    masked. *)
Record MaskedArray : Set := Masked {
  ma_array : ndarray;
  ma_mask : list (list (list bool))
}.

(** The conversion of a float to an integer type is defined by C only
    when the truncated value is representable; otherwise the result is
    whatever the platform produces. *)
Class Platform := { cast_invalid : dtype -> float -> Z }.

(** Two's complement wrap-around into a [w]-bit integer. *)
Definition wrap (signed : bool) (w : Z) (n : Z) : Z :=
  let m := n mod 2 ^ w in
  if signed && (2 ^ (w - 1) <=? m) then m - 2 ^ w else m.

Definition in_range (signed : bool) (w : Z) (n : Z) : bool :=
  if signed then (- 2 ^ (w - 1) <=? n) && (n <? 2 ^ (w - 1))
  else (0 <=? n) && (n <? 2 ^ w).

Section Casts.
Context `{Platform}.

(** The value of one sample after [astype(d)]. *)
Definition cast (d : dtype) (s : scalar) : scalar :=
  match int_kind d with
  | Some (signed, w) =>
      match s with
      | SInt n => SInt (wrap signed w n)
      | SFloat x =>
          match IEEE.trunc x with
          | Some n => if in_range signed w n then SInt n
                      else SInt (wrap signed w (cast_invalid d x))
          | None => SInt (wrap signed w (cast_invalid d x))
          end
      end
  | None =>
      match s with
      | SInt n => SFloat (IEEE.of_Z (float_format d) n)
      | SFloat x => SFloat (IEEE.round (float_format d) x)
      end
  end.

Definition map3 {A B : Type} (f : A -> B) (xs : list (list (list A)))
  : list (list (list B)) :=
  List.map (List.map (List.map f)) xs.

(** [a.astype(d)] *)
Definition astype (a : ndarray) (d : dtype) : ndarray :=
  NdArray d (map3 (cast d) (nd_data a)).
End Casts.

(** The type of [array op scalar] for a Python float or int scalar:
    Python scalars are weakly typed, so a float array keeps its type
    and an integer array becomes [float64]. *)
Definition result_float (d : dtype) : dtype :=
  match d with Float32 => Float32 | _ => Float64 end.

(** The sample as a value of the float type [d]: an integer sample is
    converted; a float sample belongs to an array of type [d] and is a
    value of that type already. *)
Definition to_float (d : dtype) (s : scalar) : float :=
  match s with
  | SInt n => IEEE.of_Z (float_format d) n
  | SFloat x => x
  end.

(** [a op c], elementwise, for a Python float [c]; no exception is
    raised on division by zero or invalid operations. *)
Definition binop_pyfloat (op : IEEE.format -> float -> float -> float)
    (a : list (list (list scalar))) (d : dtype) (c : float)
  : list (list (list scalar)) :=
  let r := result_float d in
  let fmt := float_format r in
  List.map (List.map (List.map (fun s =>
    SFloat (op fmt (to_float r s) (IEEE.round fmt c))))) a.

(** [a op n], elementwise, for a Python int [n] and a float array. *)
Definition binop_pyint (op : IEEE.format -> float -> float -> float)
    (a : list (list (list scalar))) (d : dtype) (n : Z)
  : list (list (list scalar)) :=
  let r := result_float d in
  let fmt := float_format r in
  List.map (List.map (List.map (fun s =>
    SFloat (op fmt (to_float r s) (IEEE.of_Z fmt n))))) a.

(** [a[:-1]] and [a[-1]] on the first axis. *)
Definition all_but_last {A : Type} (xs : list A) : list A :=
  List.removelast xs.

(** [a[-1:]] *)
Definition last_slice {A : Type} (xs : list A) : list A :=
  List.skipn (length xs - 1) xs.

Definition last_item {A : Type} (xs : list A) : Py.outcome A :=
  match List.rev xs with
  | [] => Py.Raise Py.IndexError
  | x :: _ => Py.Return x
  end.

Definition first_item {A : Type} (xs : list A) : Py.outcome A :=
  match xs with
  | [] => Py.Raise Py.IndexError
  | x :: _ => Py.Return x
  end.


(** The shape of a band, when its rows have one length. *)
Definition band_shape {A : Type} (b : list (list A)) : option (Z * Z) :=
  match b with
  | [] => Some (0, 0)
  | r :: rs =>
      if forallb (fun r' => Nat.eqb (length r') (length r)) rs
      then Some (Z.of_nat (length b), Z.of_nat (length r))
      else None
  end.

(** The shape of a three-dimensional array, when it is rectangular. *)
Definition shape3 {A : Type} (xs : list (list (list A))) : option (Z * Z * Z) :=
  match xs with
  | [] => Some (0, 0, 0)
  | b :: bs =>
      match band_shape b with
      | Some (h, w) =>
          if forallb (fun b' => bool_decide (band_shape b' = Some (h, w))) bs
          then Some (Z.of_nat (length xs), h, w)
          else None
      | None => None
      end
  end.

(** [zeros((n, h, w), dtype=d)] *)
Definition zero_of (d : dtype) : scalar :=
  match int_kind d with
  | Some _ => SInt 0
  | None => SFloat (S754_zero false)
  end.

Definition zeros (n h w : Z) (d : dtype) : Py.outcome ndarray :=
  if (n <? 0) || (h <? 0) || (w <? 0) then Py.Raise Py.ValueError
  else Py.Return
         (NdArray d (List.repeat (List.repeat (List.repeat (zero_of d) (Z.to_nat w))
                                              (Z.to_nat h)) (Z.to_nat n))).

(** Rows of length [w] cut from a flat list. *)
Fixpoint chunks {A : Type} (w : nat) (n : nat) (xs : list A) : list (list A) :=
  match n with
  | O => []
  | S n' => List.firstn w xs :: chunks w n' (List.skipn w xs)
  end.

(** [where(mask, 0, 255).reshape((1, h, w))] for a two-dimensional
    [mask]: an [int64] array; the reshape fails unless the mask has
    [h * w] elements. *)
Definition where_0_255_reshape (mask : list (list bool)) (h w : Z)
  : Py.outcome ndarray :=
  let flat := List.concat mask in
  if (Z.of_nat (length flat) =? h * w) && (0 <=? h) && (0 <=? w)
  then Py.Return (NdArray Int64
         [chunks (Z.to_nat w) (Z.to_nat h)
            (List.map (fun m : bool => SInt (if m then 0 else 255)) flat)])
  else Py.Raise Py.ValueError.

(** [promote_types] *)
Definition promote (a b : dtype) : dtype :=
  if decide (a = b) then a else
  match int_kind a, int_kind b with
  | Some (sa, wa), Some (sb, wb) =>
      if Bool.eqb sa sb then (if wa <? wb then b else a)
      else
        let (ws, wu) := if sa then (wa, wb) else (wb, wa) in
        if wu <? ws then (if sa then a else b)
        else if wu <? 16 then Int16
        else if wu <? 32 then Int32
        else if wu <? 64 then Int64
        else Float64
  | Some (_, w), None =>
      match b with Float32 => if w <=? 16 then Float32 else Float64 | _ => Float64 end
  | None, Some (_, w) =>
      match a with Float32 => if w <=? 16 then Float32 else Float64 | _ => Float64 end
  | None, None => Float64
  end.

Section Append.
Context `{Platform}.

(** [append(a, b, axis=0)]: the bands of [b] after those of [a], in
    the promoted type; the other two dimensions must agree. *)
Definition append0 (a b : ndarray) : Py.outcome ndarray :=
  match shape3 (nd_data a), shape3 (nd_data b) with
  | Some (_, ha, wa), Some (_, hb, wb) =>
      if (ha =? hb) && (wa =? wb)
      then
        let d := promote (nd_dtype a) (nd_dtype b) in
        Py.Return (NdArray d (nd_data (astype a d) ++ nd_data (astype b d)))
      else Py.Raise Py.ValueError
  | _, _ => Py.Raise Py.ValueError
  end.
End Append.

(** [band.mean()]: the sum of the samples, each converted to
    [float64], divided by their number.  For integer samples the sum
    is exact. *)
Definition mean (band : list (list scalar)) : float :=
  let flat := List.concat band in
  let total :=
    List.fold_left (fun acc s => IEEE.add IEEE.binary64 acc (to_float Float64 s))
                   flat (S754_zero false) in
  IEEE.div IEEE.binary64 total (IEEE.of_Z IEEE.binary64 (Z.of_nat (length flat))).

(** The lengths of the rows of every band: the shape of an array, also
    when it is not rectangular. *)
Definition skeleton {A : Type} (xs : list (list (list A))) : list (list nat) :=
  List.map (List.map (@length A)) xs.

(** Whether [s] is a value of the type [d]: an integer within the range
    of an integer type, or a float for a float type (its format is not
    looked at). *)
Definition sample_of (d : dtype) (s : scalar) : bool :=
  match int_kind d, s with
  | Some (signed, w), SInt n => in_range signed w n
  | None, SFloat _ => true
  | _, _ => false
  end.

(** An array as NumPy keeps it: every sample is a value of the type of
    the array. *)
Definition well_typed (a : ndarray) : Prop :=
  Forall (Forall (Forall (fun s => sample_of (nd_dtype a) s = true))) (nd_data a).

End Np.

(** ** The file system *)

Module Fs.

(** A path, as the list of its components. *)
Definition path : Set := list string.

(** Components of a path written with [/] separators; empty components
    and [.] are dropped, as [pathlib] does. *)
Fixpoint split_path (s : string) (cur : string) : list string :=
  let flush cur := if decide (cur = "" \/ cur = ".") then [] else [cur] in
  match s with
  | EmptyString => flush cur
  | String c s' =>
      if decide (c = "/"%char) then flush cur ++ split_path s' ""
      else split_path s' (cur +:+ String c "")
  end.

(** [Path(s)] *)
Definition path_of_str (s : string) : path :=
  match s with
  | String "/"%char _ => "/" :: split_path s ""
  | _ => split_path s ""
  end.

(** [p.joinpath(c1, ..., cn)] for relative components. *)
Definition joinpath (p : path) (cs : list string) : path := p ++ cs.

(** What a raster file was created with, and the data written to it. *)
Record RasterFile : Set := {
  rf_driver : string;
  rf_width : Z;
  rf_height : Z;
  rf_count : Z;
  rf_dtype : Np.dtype;
  rf_data : Np.ndarray
}.

Record fs : Type := {
  dirs : gset path;
  files : gmap path RasterFile
}.

(** The empty path is the current directory, which exists. *)
Definition is_dir (p : path) (s : fs) : bool :=
  bool_decide (p = []) || bool_decide (p ∈ dirs s).

Definition is_file (p : path) (s : fs) : bool :=
  bool_decide (is_Some (files s !! p)).

Definition exists_ (p : path) (s : fs) : bool := is_dir p s || is_file p s.

Definition add_dir (p : path) (s : fs) : fs :=
  {| dirs := {[ p ]} ∪ dirs s; files := files s |}.

(** [p.mkdir(parents=True, exist_ok=True)], after [pathlib]: an existing
    directory is left alone; a file in the way is an error; a missing
    parent is made first, by the same rule.  [depth] bounds the number of
    parents, and is the length of the path. *)
Fixpoint mkdir_rec (depth : nat) (p : path) (s : fs) : Py.outcome fs :=
  if is_dir p s then Py.Return s
  else if is_file p s then Py.Raise Py.FileExistsError
  else
    let parent := List.removelast p in
    if is_dir parent s then Py.Return (add_dir p s)
    else if is_file parent s then Py.Raise Py.NotADirectoryError
    else match depth with
         | O => Py.Raise Py.FileNotFoundError
         | S depth' =>
             s' ← mkdir_rec depth' parent s;
             Py.Return (add_dir p s')
         end.

Definition mkdir_parents (p : path) (s : fs) : Py.outcome fs :=
  mkdir_rec (length p) p s.

(** Every directory but the current one lies in a directory. *)
Definition closed (s : fs) : Prop :=
  forall p, p ∈ dirs s -> is_dir (List.removelast p) s = true.

(** The file at [p] is created or replaced. *)
Definition put_file (p : path) (f : RasterFile) (s : fs) : fs :=
  {| dirs := dirs s; files := <[ p := f ]> (files s) |}.

End Fs.

(** ** Rasterio *)

Module Rio.

(** [Affine(a, b, c, d, e, f)]: [x = a*col + b*row + c],
    [y = d*col + e*row + f]. *)
Record Affine : Set := MkAffine {
  af_a : float; af_b : float; af_c : float;
  af_d : float; af_e : float; af_f : float
}.

(** [t[i]]: an [Affine] is the tuple of its nine coefficients. *)
Definition affine_item (t : Affine) (i : Z) : Py.outcome float :=
  let i := if i <? 0 then i + 9 else i in
  match i with
  | 0 => Py.Return (af_a t) | 1 => Py.Return (af_b t) | 2 => Py.Return (af_c t)
  | 3 => Py.Return (af_d t) | 4 => Py.Return (af_e t) | 5 => Py.Return (af_f t)
  | 6 | 7 => Py.Return (S754_zero false)
  | 8 => Py.Return (IEEE.of_Z IEEE.binary64 1)
  | _ => Py.Raise Py.IndexError
  end.

(** [Window(col_off, row_off, width, height)] *)
Record Window : Set := MkWindow {
  col_off : float; row_off : float; win_width : float; win_height : float
}.

(** [Statistics(min, max, mean, std)] *)
Record Statistics : Set := MkStatistics {
  st_min : float; st_max : float; st_mean : float; st_std : float
}.

(** [BoundingBox(left, bottom, right, top)] *)
Record BoundingBox : Set := MkBoundingBox {
  left : float; bottom : float; right : float; top : float
}.

(** The library functions the pipeline calls, and the types it only
    passes around. *)
Class Rasterio := {
  CRS : Type;
  (** [crs == code] for an EPSG code *)
  crs_eq_epsg : CRS -> Z -> bool;
  Profile : Type;
  (** [p == q] for two profiles *)
  profile_eq : Profile -> Profile -> bool;
  (** [warp.calculate_default_transform(src_crs, dst_epsg, width,
      height, left, bottom, right, top)] *)
  calculate_default_transform :
    CRS -> Z -> Z -> Z -> float -> float -> float -> float ->
    Py.outcome (Affine * Z * Z);
  (** [transform.from_bounds(west, south, east, north, width, height)] *)
  transform_from_bounds :
    float -> float -> float -> float -> Z -> Z -> Py.outcome Affine;
  (** [windows.from_bounds(left, bottom, right, top, transform)] *)
  windows_from_bounds :
    float -> float -> float -> float -> Affine -> Py.outcome Window;
  (** Whether a dataset with these creation options and data can be
      written by the driver; [None] when it can. *)
  write_error : Fs.RasterFile -> option Py.exn
}.

Section Dataset.
Context `{Rasterio}.

(** An opened dataset: its attributes and the two methods used. *)
Record DatasetReader : Type := {
  crs : option CRS;
  transform : Affine;
  bounds : BoundingBox;
  width : Z;
  height : Z;
  count : Z;
  dtypes : list Np.dtype;
  profile : Profile;
  (** [statistics(bidx)] *)
  statistics : Z -> Py.outcome Statistics;
  (** [read(out_shape=(n, h, w), window=win, masked=True,
      boundless=True, resampling=r)] *)
  read : Z * Z * Z -> Window -> Z -> Py.outcome Np.MaskedArray
}.

(** [Band(ds, bidx, dtype, shape)] *)
Record Band : Type := MkBand {
  band_ds : DatasetReader;
  band_bidx : list Z;
  band_dtype : Np.dtype;
  band_shape : float * float
}.
End Dataset.

(** [warp.reproject(source, destination, src_transform, src_crs,
    dst_transform, dst_crs, dst_alpha, resampling)]: the filled
    destination and the destination transform. *)
Class Warp `{Rasterio} := {
  reproject :
    Band -> Np.ndarray -> Affine -> option CRS -> Affine -> Z -> Z -> Z ->
    Py.outcome (Np.ndarray * Affine)
}.

End Rio.

(** ** Python values passed to the pipeline *)

Module Obj.

(** The values the arguments of the constructor and of [write] can be:
    [None], integers, floats, strings, lists, tuples, ranges and
    [pathlib] paths. *)
Inductive pyobj : Set :=
| PyNone
| PyInt (n : Z)
| PyFloat (x : float)
| PyStr (s : string)
| PyList (xs : list pyobj)
| PyTuple (xs : list pyobj)
| PyRange (start stop step : Z)
| PyPath (p : Fs.path).

(** [n == x] for an integer and a float: equal when [x] is integral
    and has the value [n]. *)
Definition int_eq_float (n : Z) (x : float) : bool :=
  match x with
  | S754_zero _ => n =? 0
  | S754_finite s m e =>
      if 0 <=? e then n =? cond_Zopp s (Z.shiftl (Zpos m) e)
      else (Z.land (Zpos m) (Z.ones (- e)) =? 0)
           && (n =? cond_Zopp s (Z.shiftr (Zpos m) (- e)))
  | _ => false
  end.

(** [a == b] *)
Fixpoint py_eq (a b : pyobj) {struct a} : bool :=
  let fix all_eq (xs ys : list pyobj) {struct xs} : bool :=
    match xs, ys with
    | [], [] => true
    | x :: xs', y :: ys' => py_eq x y && all_eq xs' ys'
    | _, _ => false
    end in
  match a, b with
  | PyNone, PyNone => true
  | PyInt m, PyInt n => m =? n
  | PyInt m, PyFloat x => int_eq_float m x
  | PyFloat x, PyInt n => int_eq_float n x
  | PyFloat x, PyFloat y => Py.feq x y
  | PyStr s, PyStr t => bool_decide (s = t)
  | PyList xs, PyList ys => all_eq xs ys
  | PyTuple xs, PyTuple ys => all_eq xs ys
  | PyRange s1 e1 k1, PyRange s2 e2 k2 =>
      bool_decide (Py.range_step s1 e1 k1 = Py.range_step s2 e2 k2)
  | PyPath p, PyPath q => bool_decide (p = q)
  | _, _ => false
  end.

(** [isinstance(o, Sequence)] *)
Definition is_sequence (o : pyobj) : bool :=
  match o with
  | PyStr _ | PyList _ | PyTuple _ | PyRange _ _ _ => true
  | _ => false
  end.

Fixpoint chars (s : string) : list pyobj :=
  match s with
  | EmptyString => []
  | String c s' => PyStr (String c "") :: chars s'
  end.

(** The elements [iter(o)] yields, for a sequence. *)
Definition seq_items (o : pyobj) : list pyobj :=
  match o with
  | PyStr s => chars s
  | PyList xs | PyTuple xs => xs
  | PyRange s e k => List.map PyInt (Py.range_step s e k)
  | _ => []
  end.

(** [isinstance(o, int)] *)
Definition is_int (o : pyobj) : bool :=
  match o with PyInt _ => true | _ => false end.

Definition int_value (o : pyobj) : Z :=
  match o with PyInt n => n | _ => 0 end.

End Obj.

(** ** [rasterioxyz._utils] *)

Module Utils.

Record _Bounds : Set := Build_Bounds {
  minx : float; miny : float; maxx : float; maxy : float
}.

Record _ImageProperties : Set := Build_ImageProperties {
  ip_transform : Rio.Affine;
  ip_bounds : _Bounds
}.

Record _Tile : Set := Build_Tile {
  zoom : Z;
  column : Z;
  row : Z;
  bounds : _Bounds;
  transform : Rio.Affine;
  window : Rio.Window;
  data : Np.ndarray
}.

(** [tile_indices] is the [product] iterator, given by the pairs it
    yields, in order. *)
Record _Zoom : Set := Build_Zoom {
  z_zoom : Z;
  tile_dims : float;
  tile_indices : list (Z * Z)
}.

End Utils.

(** ** [rasterioxyz.tile]: the class [Tiles] *)

Module Tiles.
Import Py Obj Utils.

(** The diagnostics of category [TileWarning]. *)
Inductive Warning : Set :=
| SourceCRSWarning
| SourceDtypeWarning (d : Np.dtype)
| TileResolutionWarning (zoom : Z).

(** What a call can change outside the instance: the warnings issued so
    far and the file system. *)
Record World : Type := {
  warnings : list Warning;
  filesystem : Fs.fs
}.

(** Computations that may issue warnings, change the file system, and
    raise. *)
Definition M (A : Type) : Type := World -> outcome A * World.

Global Instance M_ret : MRet M := fun A a w => (Return a, w).
Global Instance M_bind : MBind M := fun A B f m w =>
  match m w with
  | (Return a, w') => f a w'
  | (Raise e, w') => (Raise e, w')
  end.

Definition lift {A : Type} (o : outcome A) : M A := fun w => (o, w).
Definition raise {A : Type} (e : exn) : M A := fun w => (Raise e, w).

(** [warnings.warn(..., TileWarning)] *)
Definition warn (x : Warning) : M unit := fun w =>
  (Return tt, {| warnings := warnings w ++ [x]; filesystem := filesystem w |}).

(** The world after [if c: warnings.warn(x)]. *)
Definition warned (c : bool) (x : Warning) (w : World) : World :=
  if c then {| warnings := warnings w ++ [x]; filesystem := filesystem w |} else w.

Definition _valid_resampling : list (string * Z) :=
  [ ("nearest", 0); ("bilinear", 1); ("cubic", 2); ("cubic_spline", 3);
    ("lanczos", 4); ("average", 5); ("mode", 6); ("gauss", 7); ("max", 8);
    ("min", 9); ("med", 10); ("q1", 11); ("q3", 12); ("sum", 13);
    ("rms", 14) ]%string.

(** [d.get(k)] *)
Fixpoint dict_get {V : Type} (d : list (string * V)) (k : string) : option V :=
  match d with
  | [] => None
  | (k', v) :: d' => if decide (k' = k) then Some v else dict_get d' k
  end.

(** 20037508.342789244 as a float *)
Definition _origin : float := S754_finite false 5378777689100435 (-28).

(** [max(xs)] and [min(xs)] for a list of floats: the first element
    that no later one exceeds (resp. is below), by [>] (resp. [<]). *)
Definition py_max (xs : list float) : outcome float :=
  match xs with
  | [] => Raise ValueError
  | x :: xs' => Return (List.fold_left (fun m y => if flt m y then y else m) xs' x)
  end.

Definition py_min (xs : list float) : outcome float :=
  match xs with
  | [] => Raise ValueError
  | x :: xs' => Return (List.fold_left (fun m y => if flt y m then y else m) xs' x)
  end.

(** [[f(x) for x in xs]] for an [f] that may raise *)
Fixpoint map_outcome {A B : Type} (f : A -> outcome B) (xs : list A)
  : outcome (list B) :=
  match xs with
  | [] => Return []
  | x :: xs' => y ← f x; ys ← map_outcome f xs'; Return (y :: ys)
  end.

(** The state of the generator [_tile()]: created and not yet started;
    suspended at its [yield], with the zoom levels still to come, the
    current level, its tile size and the index pairs its [product] has
    not yielded yet; or finished. *)
Inductive generator : Set :=
| GenCreated
| GenSuspended (zooms_left : list Z) (zoom : Z) (dims : float)
               (indices_left : list (Z * Z))
| GenFinished.

Section WithRasterio.
Context {PL : Np.Platform} {RR : Rio.Rasterio} {RW : @Rio.Warp RR}.

(** An instance; [_img_max] and [_img_min] are slots that stay
    unset for an 8-bit source. *)
Record Tiles : Type := {
  img : Rio.DatasetReader;
  zooms : pyobj;
  pixels : Z;
  resampling : Z;
  _img_dtype : Np.dtype;
  _img_is_3857 : bool;
  _img_properties : _ImageProperties;
  _tile_bands : Z;
  _img_max : option float;
  _img_min : option float;
  tiles : generator
}.

(** Any object: a plain value, a dataset or an instance of [Tiles]. *)
Inductive object : Type :=
| Value (v : pyobj)
| Dataset (d : Rio.DatasetReader)
| Instance (t : Tiles).

Definition _get_mercator_properties (img : Rio.DatasetReader)
    (_img_is_3857 : bool) : outcome _ImageProperties :=
  if _img_is_3857 then
    let b := Rio.bounds img in
    Return (Build_ImageProperties (Rio.transform img)
              (Build_Bounds (Rio.left b) (Rio.bottom b) (Rio.right b) (Rio.top b)))
  else
    src_crs ← match Rio.crs img with
              | Some c => Return c
              | None => Raise CRSError
              end;
    let b := Rio.bounds img in
    '(transform, width, height) ←
      Rio.calculate_default_transform src_crs 3857 (Rio.width img)
        (Rio.height img) (Rio.left b) (Rio.bottom b) (Rio.right b) (Rio.top b);
    minx ← Rio.affine_item transform 2;
    a ← Rio.affine_item transform 0;
    fwidth ← float_of_int width;
    let maxx := fadd minx (fmul a fwidth) in
    maxy ← Rio.affine_item transform 5;
    e ← Rio.affine_item transform 4;
    fheight ← float_of_int height;
    let miny := fadd maxy (fmul e fheight) in
    Return (Build_ImageProperties transform (Build_Bounds minx miny maxx maxy)).

Definition _get_image_statistics (img : Rio.DatasetReader)
    (_tile_bands : Z) : outcome (float * float) :=
  band_statistics ← map_outcome (Rio.statistics img)
                                (range 1 (_tile_bands + 1));
  img_max ← py_max (List.map Rio.st_max band_statistics);
  img_min ← py_min (List.map Rio.st_min band_statistics);
  Return (img_max, img_min).

Definition __init__ (image : object) (zooms pixels resampling : pyobj)
  : M Tiles :=
  img ← match image with
        | Dataset d => mret d
        | _ => raise TypeError
        end;
  _ ← match Rio.crs img with
      | None => raise CRSError
      | Some _ => mret tt
      end;
  _ ← (if negb (is_sequence zooms) then raise TypeError
       else if negb (forallb is_int (seq_items zooms)) then raise TypeError
       else if negb (forallb (fun z => (int_value z <=? 25) && (int_value z >=? 0))
                             (seq_items zooms))
            then raise ValueError
            else mret tt);
  pixels ← match pixels with
           | PyInt p => if (p =? 256) || (p =? 512) then mret p
                        else raise ValueError
           | _ => raise TypeError
           end;
  resampling ← match resampling with
               | PyStr s => match dict_get _valid_resampling s with
                            | Some code => mret code
                            | None => raise ValueError
                            end
               | _ => raise TypeError
               end;
  let _img_is_3857 :=
    match Rio.crs img with
    | Some c => Rio.crs_eq_epsg c 3857
    | None => false
    end in
  _ ← (if negb _img_is_3857 then warn SourceCRSWarning else mret tt);
  _img_properties ← lift (_get_mercator_properties img _img_is_3857);
  let _tile_bands := if Rio.count img <=? 3 then Rio.count img else 3 in
  _img_dtype ← lift (Np.first_item (Rio.dtypes img));
  stats ← (if negb (bool_decide (_img_dtype = Np.UInt8)) then
             _ ← warn (SourceDtypeWarning _img_dtype);
             '(img_max, img_min) ← lift (_get_image_statistics img _tile_bands);
             mret (Some img_max, Some img_min)
           else mret (None, None));
  mret {| img := img; zooms := zooms; pixels := pixels;
          resampling := resampling; _img_dtype := _img_dtype;
          _img_is_3857 := _img_is_3857;
          _img_properties := _img_properties;
          _tile_bands := _tile_bands;
          _img_max := fst stats; _img_min := snd stats;
          tiles := GenCreated |}.

Definition __eq__ (self : Tiles) (other : object) : bool :=
  match other with
  | Instance other =>
      let dataset_eq := Rio.profile_eq (Rio.profile (img self))
                                       (Rio.profile (img other)) in
      let zooms_eq := py_eq (zooms self) (zooms other) in
      let pixels_eq := pixels self =? pixels other in
      let resampling_eq := resampling self =? resampling other in
      if forallb id [dataset_eq; zooms_eq; pixels_eq; resampling_eq]
      then true else false
  | _ => false
  end.

Definition _build_zoom (self : Tiles) (zoom : Z) : M _Zoom :=
  zoom_ntiles ← lift (int_pow 4 zoom);
  zoom_dims ← lift (pow_half zoom_ntiles);
  two ← lift (float_of_int 2);
  tile_dims ← lift (truediv (fmul _origin two) zoom_dims);
  fpixels ← lift (float_of_int (pixels self));
  tile_res ← lift (truediv tile_dims fpixels);
  a ← lift (Rio.affine_item (ip_transform (_img_properties self)) 0);
  _ ← (if flt tile_res a then warn (TileResolutionWarning zoom) else mret tt);
  let b := ip_bounds (_img_properties self) in
  q ← lift (floordiv (fsub (minx b) (fneg _origin)) tile_dims);
  start_col ← lift (int_of_float q);
  q ← lift (floordiv (fsub (maxx b) (fneg _origin)) tile_dims);
  end_col ← lift (int_of_float q);
  q ← lift (floordiv (fabs (fsub (maxy b) _origin)) tile_dims);
  start_row ← lift (int_of_float q);
  q ← lift (floordiv (fabs (fsub (miny b) _origin)) tile_dims);
  end_row ← lift (int_of_float q);
  let tile_indices :=
    product (range start_col (end_col + 1)) (range start_row (end_row + 1)) in
  mret (Build_Zoom zoom tile_dims tile_indices).

Definition _reproject_tile_data (self : Tiles) (tile_window : Rio.Window)
    (tile_transform : Rio.Affine) : outcome Np.ndarray :=
  destination ← Np.zeros (_tile_bands self + 1) (pixels self) (pixels self)
                         (_img_dtype self);
  r ← Rio.reproject
        (Rio.MkBand (img self) (range 1 (_tile_bands self + 1)) (_img_dtype self)
           (Rio.win_height tile_window, Rio.win_width tile_window))
        destination (Rio.transform (img self)) (Rio.crs (img self))
        tile_transform 3857 (_tile_bands self + 1) (resampling self);
  Return (fst r).

(** The masked read with the alpha band appended.  [append] puts the
    data of the masked array and the alpha band in one array and does
    not carry the mask over.  The result is modelled as the plain array
    of these data; in NumPy it is an instance of [MaskedArray] without a
    mask, which matters to the arithmetic of [_array_to_uint8] only. *)
Definition _read_tile_data (self : Tiles) (tile_window : Rio.Window)
  : outcome Np.ndarray :=
  tile_array ← Rio.read (img self)
                 (_tile_bands self, pixels self, pixels self)
                 tile_window (resampling self);
  mask0 ← Np.first_item (Np.ma_mask tile_array);
  alpha ← Np.where_0_255_reshape mask0 (pixels self) (pixels self);
  let tile_alpha := Np.astype alpha (_img_dtype self) in
  Np.append0 (Np.ma_array tile_array) tile_alpha.

(** [((s - img_min) / (img_max - img_min)) * (255 - 0) + 0] for one
    sample [s] of an array of type [d], in the float type of the
    operation. *)
Definition scaled (d : Np.dtype) (img_max img_min : float) (s : Np.scalar)
  : float :=
  let r := Np.result_float d in
  let fmt := Np.float_format r in
  let x := IEEE.sub fmt (Np.to_float r s) (IEEE.round fmt img_min) in
  let x := IEEE.div fmt x (IEEE.round fmt (fsub img_max img_min)) in
  let x := IEEE.mul fmt x (IEEE.of_Z fmt (255 - 0)) in
  IEEE.add fmt x (IEEE.of_Z fmt 0).

(** The value the assignment to [tile_array[:-1]] stores for the
    sample, in the type [d] of the array. *)
Definition rescaled (d : Np.dtype) (img_max img_min : float) (s : Np.scalar)
  : Np.scalar :=
  Np.cast d (Np.SFloat (scaled d img_max img_min s)).

(** The arithmetic is that of [ndarray], the class of the array on the
    reprojection branch.  On the direct-read branch the array is a
    [MaskedArray], for which [numpy.ma] masks a sample whose divisor is
    zero or whose quotient is not finite and keeps its numerator; for
    every other sample the data are the same.  Either way the result is
    cast to [uint8]. *)
Definition _array_to_uint8 (self : Tiles) (tile_array : Np.ndarray)
  : outcome Np.ndarray :=
  img_min ← match _img_min self with
            | Some x => Return x
            | None => Raise AttributeError
            end;
  img_max ← match _img_max self with
            | Some x => Return x
            | None => Raise AttributeError
            end;
  let d := Np.nd_dtype tile_array in
  let x := Np.binop_pyfloat IEEE.sub (Np.all_but_last (Np.nd_data tile_array))
                            d img_min in
  let x := Np.binop_pyfloat IEEE.div x (Np.result_float d) (fsub img_max img_min) in
  let x := Np.binop_pyint IEEE.mul x (Np.result_float d) (255 - 0) in
  let x := Np.binop_pyint IEEE.add x (Np.result_float d) 0 in
  let tile_array :=
    Np.NdArray d (Np.map3 (Np.cast d) x ++ Np.last_slice (Np.nd_data tile_array)) in
  Return (Np.astype tile_array Np.UInt8).

Definition _build_tile (self : Tiles) (zoom col row : Z) (dims : float)
  : outcome _Tile :=
  minus_one ← float_of_int (-1);
  fcol ← float_of_int col;
  let minx := fadd (fmul _origin minus_one) (fmul fcol dims) in
  let maxx := fadd minx dims in
  frow ← float_of_int row;
  let maxy := fsub _origin (fmul frow dims) in
  let miny := fsub maxy dims in
  let bounds := Build_Bounds minx miny maxx maxy in
  affine ← Rio.transform_from_bounds minx miny maxx maxy
             (pixels self) (pixels self);
  window ← Rio.windows_from_bounds minx miny maxx maxy
             (ip_transform (_img_properties self));
  tile_data ← (if _img_is_3857 self then _read_tile_data self window
               else _reproject_tile_data self window affine);
  tile_data ← (if negb (bool_decide (Np.nd_dtype tile_data = Np.UInt8))
               then _array_to_uint8 self tile_data
               else Return tile_data);
  Return {| zoom := zoom; column := col; row := row; bounds := bounds;
            transform := affine; window := window; data := tile_data |}.

(** *** The generator [_tile] *)

(** What [next] on the generator gives: a tile, the end of the
    iteration ([None]) or an exception; with the state the generator
    is left in. *)
Definition step : Type := outcome (option _Tile) * generator * World.

(** From the head of the loop over the zoom levels [zs]. *)
Fixpoint resume_zooms (self : Tiles) (zs : list Z) (w : World) : step :=
  match zs with
  | [] => (Return None, GenFinished, w)
  | zoom :: zs' =>
      match _build_zoom self zoom w with
      | (Raise e, w') => (Raise e, GenFinished, w')
      | (Return zoom_properties, w') =>
          match tile_indices zoom_properties with
          | [] => resume_zooms self zs' w'
          | (col, row) :: rest =>
              match _build_tile self zoom col row (tile_dims zoom_properties) with
              | Raise e => (Raise e, GenFinished, w')
              | Return tile =>
                  (Return (Some tile),
                   GenSuspended zs' zoom (tile_dims zoom_properties) rest, w')
              end
          end
      end
  end.

(** [next(g)] *)
Definition next (self : Tiles) (g : generator) (w : World) : step :=
  match g with
  | GenCreated =>
      resume_zooms self (List.map int_value (seq_items (zooms self))) w
  | GenSuspended zs zoom dims [] => resume_zooms self zs w
  | GenSuspended zs zoom dims ((col, row) :: rest) =>
      match _build_tile self zoom col row dims with
      | Raise e => (Raise e, GenFinished, w)
      | Return tile => (Return (Some tile), GenSuspended zs zoom dims rest, w)
      end
  | GenFinished => (Return None, GenFinished, w)
  end.

(** *** [for tile in g: body(tile)] *)

Definition loop_result : Type := outcome unit * generator * World.

Fixpoint for_indices (self : Tiles) (body : _Tile -> M unit)
    (k : World -> loop_result) (zs : list Z) (zoom : Z) (dims : float)
    (indices : list (Z * Z)) (w : World) : loop_result :=
  match indices with
  | [] => k w
  | (col, row) :: rest =>
      match _build_tile self zoom col row dims with
      | Raise e => (Raise e, GenFinished, w)
      | Return tile =>
          match body tile w with
          | (Raise e, w') => (Raise e, GenSuspended zs zoom dims rest, w')
          | (Return _, w') => for_indices self body k zs zoom dims rest w'
          end
      end
  end.

Fixpoint for_zooms (self : Tiles) (body : _Tile -> M unit) (zs : list Z)
    (w : World) : loop_result :=
  match zs with
  | [] => (Return tt, GenFinished, w)
  | zoom :: zs' =>
      match _build_zoom self zoom w with
      | (Raise e, w') => (Raise e, GenFinished, w')
      | (Return zoom_properties, w') =>
          for_indices self body (for_zooms self body zs') zs' zoom
            (tile_dims zoom_properties) (tile_indices zoom_properties) w'
      end
  end.

(** The loop, from whatever state the generator is in. *)
Definition for_each (self : Tiles) (body : _Tile -> M unit) (g : generator)
    (w : World) : loop_result :=
  match g with
  | GenCreated =>
      for_zooms self body (List.map int_value (seq_items (zooms self))) w
  | GenSuspended zs zoom dims indices =>
      for_indices self body (for_zooms self body zs) zs zoom dims indices w
  | GenFinished => (Return tt, GenFinished, w)
  end.

(** One turn of a [for] loop over the generator [g]: [next], then the
    body on the tile it yields, then the rest of the loop. *)
Definition unfold_for (self : Tiles) (body : _Tile -> M unit)
    (rest : generator -> World -> loop_result) (g : generator) (w : World)
  : loop_result :=
  match next self g w with
  | (Raise e, g', w') => (Raise e, g', w')
  | (Return None, g', w') => (Return tt, g', w')
  | (Return (Some tile), g', w') =>
      match body tile w' with
      | (Raise e, w'') => (Raise e, g', w'')
      | (Return _, w'') => rest g' w''
      end
  end.

(** *** [write] *)

(** [mkdir(parents=True, exist_ok=True)] in the world's file system *)
Definition mkdir (p : Fs.path) : M unit := fun w =>
  match Fs.mkdir_parents p (filesystem w) with
  | Return s => (Return tt, {| warnings := warnings w; filesystem := s |})
  | Raise e => (Raise e, w)
  end.

(** [with ropen(path, "w", ...) as dst: dst.write(data)] *)
Definition write_dataset (p : Fs.path) (f : Fs.RasterFile) : M unit := fun w =>
  match Rio.write_error f with
  | Some e => (Raise e, w)
  | None => (Return tt, {| warnings := warnings w;
                           filesystem := Fs.put_file p f (filesystem w) |})
  end.

(** The body of the loop of [write]. *)
Definition write_tile (self : Tiles) (out_dir : Fs.path) (driver : string)
    (tile : _Tile) : M unit :=
  let img_dir := Fs.joinpath out_dir [str_of_int (zoom tile);
                                      str_of_int (column tile)] in
  _ ← mkdir img_dir;
  let img_path := Fs.joinpath img_dir [str_of_int (row tile) +:+ "." +:+ driver] in
  alpha ← lift (Np.last_item (Np.nd_data (data tile)));
  if feq (Np.mean alpha) (IEEE.of_Z IEEE.binary64 0) then mret tt
  else
    write_dataset img_path
      {| Fs.rf_driver := driver; Fs.rf_width := pixels self;
         Fs.rf_height := pixels self;
         Fs.rf_count := Z.of_nat (length (Np.nd_data (data tile)));
         Fs.rf_dtype := Np.UInt8; Fs.rf_data := data tile |}.

(** The checks [write] makes before its loop: the driver and the
    output directory. *)
Definition write_checks (directory driver : pyobj) (w : World)
  : outcome (Fs.path * string) :=
  driver ← match driver with
           | PyStr s => Return s
           | PyPath _ => Raise AttributeError
           | _ => Raise TypeError
           end;
  _ ← (if negb (bool_decide (upper driver ∈ ["PNG"; "JPEG"]))
       then Raise ValueError else Return tt);
  out_dir ← match directory with
            | PyPath p => Return p
            | PyStr s => Return (Fs.path_of_str s)
            | _ => Raise TypeError
            end;
  _ ← (if negb (Fs.exists_ out_dir (filesystem w))
          || negb (Fs.is_dir out_dir (filesystem w))
       then Raise FileNotFoundError else Return tt);
  Return (out_dir, driver).

Definition set_tiles (self : Tiles) (g : generator) : Tiles :=
  {| img := img self; zooms := zooms self; pixels := pixels self;
     resampling := resampling self; _img_dtype := _img_dtype self;
     _img_is_3857 := _img_is_3857 self;
     _img_properties := _img_properties self;
     _tile_bands := _tile_bands self;
     _img_max := _img_max self; _img_min := _img_min self;
     tiles := g |}.

(** [self.write(directory, driver)]: the result, the instance with
    its generator advanced, and the world.  The filter [write] installs
    first silences a warning of rasterio's, which is not among the
    warnings of the model. *)
Definition write (self : Tiles) (directory driver : pyobj) (w : World)
  : outcome unit * Tiles * World :=
  match write_checks directory driver w with
  | Raise e => (Raise e, self, w)
  | Return (out_dir, driver) =>
      let '(r, g, w') :=
        for_each self (write_tile self out_dir driver) (tiles self) w in
      (r, set_tiles self g, w')
  end.

(** *** [__repr__] and [__setattr__] *)

(** [xs[i]] for a list: a negative index counts from the end. *)
Definition list_item {A : Type} (xs : list A) (i : Z) : outcome A :=
  let i := if i <? 0 then i + Z.of_nat (length xs) else i in
  if i <? 0 then Raise IndexError
  else match nth_error xs (Z.to_nat i) with
       | Some x => Return x
       | None => Raise IndexError
       end.

(** The first statement of [__repr__]: the name of the resampling
    method, between quotes, found in the table by its code. *)
Definition resampling_str (self : Tiles) : outcome string :=
  name ← list_item (List.map fst _valid_resampling) (resampling self);
  Return ("'" +:+ name +:+ "'").

Definition __slots__ : list string :=
  [ "img"; "zooms"; "pixels"; "resampling"; "_img_dtype"; "_img_is_3857";
    "_img_properties"; "_tile_bands"; "_img_max"; "_img_min"; "tiles" ]%string.

(** [self.name = value] on an instance the constructor has returned,
    for a float [value].  [hasattr] holds for a slot that is set and for
    the attributes of the class; the assignment is then refused.
    Otherwise [object.__setattr__] stores the value if [name] is a slot,
    which after construction can only be one of the two statistics, left
    unset for an 8-bit source, and raises [AttributeError] if it is
    not. *)
Definition __setattr__ (self : Tiles) (name : string) (value : float)
  : outcome Tiles :=
  if bool_decide (name = "_img_max") then
    match _img_max self with
    | Some _ => Raise AttributeError
    | None =>
        Return {| img := img self; zooms := zooms self; pixels := pixels self;
                  resampling := resampling self; _img_dtype := _img_dtype self;
                  _img_is_3857 := _img_is_3857 self;
                  _img_properties := _img_properties self;
                  _tile_bands := _tile_bands self;
                  _img_max := Some value; _img_min := _img_min self;
                  tiles := tiles self |}
    end
  else if bool_decide (name = "_img_min") then
    match _img_min self with
    | Some _ => Raise AttributeError
    | None =>
        Return {| img := img self; zooms := zooms self; pixels := pixels self;
                  resampling := resampling self; _img_dtype := _img_dtype self;
                  _img_is_3857 := _img_is_3857 self;
                  _img_properties := _img_properties self;
                  _tile_bands := _tile_bands self;
                  _img_max := _img_max self; _img_min := Some value;
                  tiles := tiles self |}
    end
  else Raise AttributeError.

(** The instances a program reaches from [self] by assignments that
    [__setattr__] accepts, when it deletes no attribute. *)
Inductive assigned (self : Tiles) : Tiles -> Prop :=
| assigned_none : assigned self self
| assigned_more (self1 self2 : Tiles) (name : string) (value : float) :
    assigned self self1 ->
    __setattr__ self1 name value = Return self2 ->
    assigned self self2.

(** *** States of the generator a program can reach *)

(** The generator of an instance starts as created and changes only by
    [next]. *)
Inductive reachable (self : Tiles) : generator -> Prop :=
| reach_created : reachable self GenCreated
| reach_next (g g' : generator) (w w' : World) (r : outcome (option _Tile)) :
    reachable self g -> next self g w = (r, g', w') -> reachable self g'.

(** The directory and the file of a tile under [out_dir]. *)
Definition tile_dir (out_dir : Fs.path) (zoom column : Z) : Fs.path :=
  Fs.joinpath out_dir [str_of_int zoom; str_of_int column].

Definition tile_path (out_dir : Fs.path) (driver : string) (zoom column row : Z)
  : Fs.path :=
  Fs.joinpath (tile_dir out_dir zoom column) [str_of_int row +:+ "." +:+ driver].

(** *** Predicates on the plan and on the file system *)

(** A tile of the plan of its zoom level, one of the configured ones. *)
Definition in_plan (self : Tiles) (tile : _Tile) : Prop :=
  In (zoom tile) (List.map int_value (seq_items (zooms self))) /\
  exists w0 w1 zp,
    _build_zoom self (zoom tile) w0 = (Return zp, w1) /\
    In (column tile, row tile) (tile_indices zp) /\
    _build_tile self (zoom tile) (column tile) (row tile) (tile_dims zp) = Return tile.

(** A suspended generator is within the plan of a configured zoom
    level, with configured levels left. *)
Definition within_plan (self : Tiles) (g : generator) : Prop :=
  match g with
  | GenSuspended zs z dims indices =>
      (exists before, List.map int_value (seq_items (zooms self)) = before ++ z :: zs) /\
      exists w0 w1 zp done,
        _build_zoom self z w0 = (Return zp, w1) /\
        dims = tile_dims zp /\ tile_indices zp = done ++ indices
  | _ => True
  end.

(** The file [write] makes for a tile. *)
Definition tile_file (self : Tiles) (driver : string) (tile : _Tile) : Fs.RasterFile :=
  {| Fs.rf_driver := driver; Fs.rf_width := pixels self;
     Fs.rf_height := pixels self;
     Fs.rf_count := Z.of_nat (length (Np.nd_data (data tile)));
     Fs.rf_dtype := Np.UInt8; Fs.rf_data := data tile |}.

(** The file system [s'] is [s] with directories of tiles and files of
    tiles of the instance added under [out_dir], and nothing removed. *)
Definition tiles_added (self : Tiles) (out_dir : Fs.path) (driver : string)
    (s s' : Fs.fs) : Prop :=
  Fs.dirs s ⊆ Fs.dirs s' /\
  (forall q, q ∈ Fs.dirs s' ->
     q ∈ Fs.dirs s \/
     exists z c, q = Fs.joinpath out_dir [str_of_int z] \/ q = tile_dir out_dir z c) /\
  (forall p, is_Some (Fs.files s !! p) -> is_Some (Fs.files s' !! p)) /\
  (forall p f, Fs.files s' !! p = Some f ->
     Fs.files s !! p = Some f \/
     exists tile dims,
       _build_tile self (zoom tile) (column tile) (row tile) dims = Return tile /\
       p = tile_path out_dir driver (zoom tile) (column tile) (row tile) /\
       f = tile_file self driver tile).

(** The tile of the indices is built, and its file is there unless it
    is transparent. *)
Definition tile_written (self : Tiles) (out_dir : Fs.path) (driver : string)
    (s : Fs.fs) (z c r : Z) (dims : float) : Prop :=
  exists tile alpha,
    _build_tile self z c r dims = Return tile /\
    Np.last_item (Np.nd_data (data tile)) = Return alpha /\
    (feq (Np.mean alpha) (IEEE.of_Z IEEE.binary64 0) = false ->
     Fs.files s !! tile_path out_dir driver z c r = Some (tile_file self driver tile)).

(** Tiles of the plan that are written stay written. *)
Definition keeps_tiles (self : Tiles) (out_dir : Fs.path) (driver : string)
    (s s' : Fs.fs) : Prop :=
  forall z c r zp w0 w1,
    _build_zoom self z w0 = (Return zp, w1) ->
    tile_written self out_dir driver s z c r (tile_dims zp) ->
    tile_written self out_dir driver s' z c r (tile_dims zp).

End WithRasterio.
End Tiles.

(** ** What the collaborators promise *)

Module Contract.
Section Contract.
Context {RR : Rio.Rasterio} {RW : @Rio.Warp RR}.

(** [read(out_shape=(n, h, w), ...)] returns an array of [n] bands. *)
Definition read_shape (ds : Rio.DatasetReader) : Prop :=
  forall n h w win r ma,
    Rio.read ds (n, h, w) win r = Py.Return ma ->
    Z.of_nat (length (Np.nd_data (Np.ma_array ma))) = n.

(** [reproject] returns the destination it was given, filled: an array
    with as many bands. *)
Definition reproject_shape : Prop :=
  forall src dst st sc dt dc alpha r out t,
    Rio.reproject src dst st sc dt dc alpha r = Py.Return (out, t) ->
    length (Np.nd_data out) = length (Np.nd_data dst).

(** [reproject] fills the destination: given an array that holds
    samples of its type, it returns one that does. *)
Definition reproject_samples : Prop :=
  forall src dst st sc dt dc alpha r out t,
    Np.well_typed dst ->
    Rio.reproject src dst st sc dt dc alpha r = Py.Return (out, t) ->
    Np.well_typed out.

End Contract.
End Contract.

(** ** A test double for the collaborators

    A platform and a rasterio on which the pipeline can be run: CRSs are
    EPSG codes, transforms are axis-aligned, and a dataset holds one
    constant value per band, masked outside its extent. *)

Module Double.
Import Py.

(** Conversions of unrepresentable values give 0. *)
Definition platform : Np.Platform := {| Np.cast_invalid := fun _ _ => 0 |}.

(** [Affine.translation(west, north) * Affine.scale((east - west) /
    width, (south - north) / height)], by the product of [affine]. *)
Definition from_bounds (west south east north : float) (width height : Z)
  : outcome Rio.Affine :=
  fw ← float_of_int width;
  sx ← truediv (fsub east west) fw;
  fh ← float_of_int height;
  sy ← truediv (fsub south north) fh;
  let one := IEEE.of_Z IEEE.binary64 1 in
  let zero := S754_zero false in
  Return (Rio.MkAffine
            (fadd (fmul one sx) (fmul zero zero))
            (fadd (fmul one zero) (fmul zero sy))
            (fadd (fadd (fmul one zero) (fmul zero zero)) west)
            (fadd (fmul zero sx) (fmul one zero))
            (fadd (fmul zero zero) (fmul one sy))
            (fadd (fadd (fmul zero zero) (fmul one zero)) north)).

(** The window of the bounds, for an axis-aligned north-up transform:
    columns [(x - c) / a], rows [(y - f) / e]. *)
Definition window_from_bounds (left bottom right top : float)
    (t : Rio.Affine) : outcome Rio.Window :=
  c0 ← truediv (fsub left (Rio.af_c t)) (Rio.af_a t);
  c1 ← truediv (fsub right (Rio.af_c t)) (Rio.af_a t);
  r0 ← truediv (fsub top (Rio.af_f t)) (Rio.af_e t);
  r1 ← truediv (fsub bottom (Rio.af_f t)) (Rio.af_e t);
  Return (Rio.MkWindow c0 r0 (fsub c1 c0) (fsub r1 r0)).

Definition rasterio : Rio.Rasterio := {|
  Rio.CRS := Z;
  Rio.crs_eq_epsg := Z.eqb;
  Rio.Profile := string * Z * Z * Z;
  Rio.profile_eq := fun p q => bool_decide (p = q);
  Rio.calculate_default_transform := fun _ _ _ _ _ _ _ _ => Raise (RasterioError 1);
  Rio.transform_from_bounds := from_bounds;
  Rio.windows_from_bounds := window_from_bounds;
  Rio.write_error := fun _ => None
|}.

(** A reprojection that leaves the destination as it is. *)
Definition warp : @Rio.Warp rasterio :=
  {| Rio.reproject := fun _ dst _ _ t _ _ _ => Return (dst, t) |}.

(** Whether a window meets the pixel grid of a [width] by [height]
    image. *)
Definition meets (width height : Z) (win : Rio.Window) : bool :=
  flt (Rio.col_off win) (IEEE.of_Z IEEE.binary64 width)
  && flt (S754_zero false) (fadd (Rio.col_off win) (Rio.win_width win))
  && flt (Rio.row_off win) (IEEE.of_Z IEEE.binary64 height)
  && flt (S754_zero false) (fadd (Rio.row_off win) (Rio.win_height win)).

(** A 256 by 256 dataset in EPSG:3857 over the given bounds, every
    sample of every band equal to [value]. *)
Definition dataset (b : Rio.BoundingBox) (bands : Z) (d : Np.dtype)
    (value : Np.scalar) (lo hi : float)
  : @Rio.DatasetReader rasterio :=
  let t := match from_bounds (Rio.left b) (Rio.bottom b) (Rio.right b)
                             (Rio.top b) 256 256 with
           | Return t => t
           | Raise _ => Rio.MkAffine S754_nan S754_nan S754_nan
                                     S754_nan S754_nan S754_nan
           end in
  @Rio.Build_DatasetReader rasterio
    (Some 3857) t b 256 256 bands
    (List.repeat d (Z.to_nat bands))
    ("GTiff"%string, 256, 256, bands)
    (fun bidx =>
       if (1 <=? bidx) && (bidx <=? bands)
       then Return (Rio.MkStatistics lo hi lo (S754_zero false))
       else Raise IndexError)
    (fun '(n, h, w) win _ =>
       let fill {A : Type} (x : A) :=
         List.repeat (List.repeat (List.repeat x (Z.to_nat w)) (Z.to_nat h))
                     (Z.to_nat n) in
       if (n <? 0) || (h <? 0) || (w <? 0) then Raise ValueError
       else Return (Np.Masked (Np.NdArray d (fill value))
                              (fill (negb (meets 256 256 win))))).

Definition f64 (n : Z) : float := IEEE.of_Z IEEE.binary64 n.

(** The bounds of the test fixture of the repository. *)
Definition fixture_bounds : Rio.BoundingBox :=
  Rio.MkBoundingBox (f64 (-244781)) (f64 6545838) (f64 (-191809)) (f64 6599779).

(** The whole Mercator square. *)
Definition full_extent : Rio.BoundingBox :=
  Rio.MkBoundingBox (SFopp Tiles._origin) (SFopp Tiles._origin)
                    Tiles._origin Tiles._origin.

(** A world with the directory [out] and nothing else. *)
Definition empty_world : Tiles.World :=
  {| Tiles.warnings := []; Tiles.filesystem := {| Fs.dirs := {[ ["out"%string] ]}; Fs.files := ∅ |} |}.

(** [Tiles(ds, zooms)], with the default pixel size and resampling. *)
Definition construct (ds : @Rio.DatasetReader rasterio) (zooms : list Z)
  : outcome (@Tiles.Tiles rasterio) * Tiles.World :=
  @Tiles.__init__ rasterio (Tiles.Dataset ds)
    (Obj.PyList (List.map Obj.PyInt zooms)) (Obj.PyInt 256)
    (Obj.PyStr "nearest") empty_world.

(** The instance [construct] returns, for arguments it accepts. *)
Definition instance (ds : @Rio.DatasetReader rasterio) (zooms : list Z)
  : @Tiles.Tiles rasterio :=
  match fst (construct ds zooms) with
  | Return t => t
  | Raise _ =>
      {| Tiles.img := ds; Tiles.zooms := Obj.PyNone; Tiles.pixels := 0;
         Tiles.resampling := 0; Tiles._img_dtype := Np.UInt8;
         Tiles._img_is_3857 := false;
         Tiles._img_properties :=
           Utils.Build_ImageProperties (Rio.transform ds)
             (Utils.Build_Bounds S754_nan S754_nan S754_nan S754_nan);
         Tiles._tile_bands := 0; Tiles._img_max := None; Tiles._img_min := None;
         Tiles.tiles := Tiles.GenFinished |}
  end.

(** The world [construct] leaves. *)
Definition constructed_world (ds : @Rio.DatasetReader rasterio) (zooms : list Z)
  : Tiles.World := snd (construct ds zooms).

(** A tile buffer of 256 by 256 pixels: [bands] bands of the sample
    [value] and an alpha band of the sample [alpha]. *)
Definition constant_buffer (d : Np.dtype) (bands : nat) (value alpha : Np.scalar)
  : Np.ndarray :=
  Np.NdArray d (List.repeat (List.repeat (List.repeat value 256) 256) bands
                ++ [List.repeat (List.repeat alpha 256) 256]).

(** An 8-bit, three-band image over the bounds [b]. *)
Definition byte_image (b : Rio.BoundingBox) : @Rio.DatasetReader rasterio :=
  dataset b 3 Np.UInt8 (Np.SInt 7) (f64 0) (f64 255).

(** A 16-bit image whose samples are all 1, with statistics 0 and 4. *)
Definition quarter_image : @Rio.DatasetReader rasterio :=
  dataset fixture_bounds 3 Np.UInt16 (Np.SInt 1) (f64 0) (f64 4).

(** Bounds reaching far north of the Mercator square (latitudes from
    about 79.6 to 89.8 degrees). *)
Definition polar_bounds : Rio.BoundingBox :=
  Rio.MkBoundingBox (f64 0) (f64 15000000) (f64 1000000) (f64 41000000).

End Double.

(** ** The formulas of the specification

    Written after the words of the specification, to be compared with
    what the source computes.  [floor(a / b)] is the floor division of
    the two floats, converted to an integer. *)

Module Spec.
Import Py Utils.

Definition ORIGIN : float := Tiles._origin.

(** [floor(a / b)] *)
Definition floor_div (a b : float) : outcome Z :=
  q ← floordiv a b; int_of_float q.

(** [tile_dims = 2*ORIGIN / sqrt(4^z)] *)
Definition tile_dims (z : Z) : outcome float :=
  tile_count ← int_pow 4 z;
  grid_side ← pow_half tile_count;
  two ← float_of_int 2;
  truediv (fmul two ORIGIN) grid_side.

(** [start_col = floor((bounds.minx + ORIGIN) / tile_dims)] *)
Definition start_col (b : _Bounds) (tile_dims : float) : outcome Z :=
  floor_div (fadd (minx b) ORIGIN) tile_dims.

(** [end_col = floor((bounds.maxx + ORIGIN) / tile_dims)] *)
Definition end_col (b : _Bounds) (tile_dims : float) : outcome Z :=
  floor_div (fadd (maxx b) ORIGIN) tile_dims.

(** [start_row = floor(|bounds.maxy - ORIGIN| / tile_dims)] *)
Definition start_row (b : _Bounds) (tile_dims : float) : outcome Z :=
  floor_div (fabs (fsub (maxy b) ORIGIN)) tile_dims.

(** [end_row = floor(|bounds.miny - ORIGIN| / tile_dims)] *)
Definition end_row (b : _Bounds) (tile_dims : float) : outcome Z :=
  floor_div (fabs (fsub (miny b) ORIGIN)) tile_dims.


(** Column-major order on index pairs: by column, then by row. *)
Definition col_major_lt (p q : Z * Z) : Prop :=
  fst p < fst q \/ (fst p = fst q /\ snd p < snd q).


End Spec.

(** * Properties *)

Import Py Obj Utils Tiles.

(** ** Floats, ranges and products *)

Module PyFacts.

Lemma sub_opp_add prec emax (x y : float) :
  SFsub prec emax x (SFopp y) = SFadd prec emax x y.
Proof.
  destruct x as [sx|sx| |sx mx ex], y as [sy|sy| |sy my ey]; simpl; try reflexivity;
    try (destruct sx, sy; reflexivity).
Qed.

Lemma fsub_fneg (x y : float) : fsub x (fneg y) = fadd x y.
Proof. apply sub_opp_add. Qed.

Lemma length_range (a b : Z) : Z.of_nat (length (range a b)) = Z.max 0 (b - a).
Proof. unfold range. rewrite length_map, length_seq. lia. Qed.

Lemma in_range (a b x : Z) : In x (range a b) <-> a <= x < b.
Proof.
  unfold range. rewrite in_map_iff. split.
  - intros (i & <- & Hi). apply in_seq in Hi. lia.
  - intros Hx. exists (Z.to_nat (x - a)). split; [lia|]. apply in_seq. lia.
Qed.

Lemma length_product {A B} (xs : list A) (ys : list B) :
  length (product xs ys) = (length xs * length ys)%nat.
Proof.
  induction xs as [|x xs IH]; simpl; [reflexivity|].
  rewrite length_app, length_map, IH. reflexivity.
Qed.

Lemma in_product {A B} (xs : list A) (ys : list B) (x : A) (y : B) :
  In (x, y) (product xs ys) <-> In x xs /\ In y ys.
Proof.
  induction xs as [|x' xs IH]; simpl; [tauto|].
  rewrite in_app_iff, in_map_iff, IH. split.
  - intros [(y' & Heq & Hy) | [Hx Hy]]; [inversion Heq; subst; auto | auto].
  - intros [[-> | Hx] Hy]; [left; exists y; auto | right; auto].
Qed.
End PyFacts.

Import PyFacts.

Lemma outcome_bind_return {A B} (m : outcome A) (k : A -> outcome B) (b : B) :
  (m ≫= k) = Return b <-> exists a, m = Return a /\ k a = Return b.
Proof.
  destruct m as [a|e]; simpl; split.
  - intros Hk. exists a. auto.
  - intros (a' & Ha & Hk). inversion Ha; subst. exact Hk.
  - discriminate.
  - intros (a' & Ha & _). discriminate.
Qed.

Lemma tile_dims_defined (z : Z) :
  0 <= z <= 25 ->
  Spec.tile_dims z = Return (S754_finite false 5378777689100435 (-27 - z)).
Proof.
  intros Hz.
  assert (Hall : forallb (fun z => bool_decide
            (Spec.tile_dims z = Return (S754_finite false 5378777689100435 (-27 - z))))
            (range 0 26) = true) by (vm_compute; reflexivity).
  rewrite forallb_forall in Hall.
  specialize (Hall z). rewrite bool_decide_eq_true in Hall.
  apply Hall, in_range. lia.
Qed.

Section Planner.
Context {PL : Np.Platform} {RR : Rio.Rasterio} {RW : @Rio.Warp RR}.

Lemma bind_lift_return {A B} (a : A) (o : outcome A) (k : A -> M B) (w : World) :
  o = Return a -> (lift o ≫= k) w = k a w.
Proof. intros ->. reflexivity. Qed.

Lemma bind_if_warn {B} (c : bool) (x : Warning) (k : unit -> M B) (w : World) :
  ((if c then warn x else mret tt) ≫= k) w = k tt (warned c x w).
Proof. destruct c; reflexivity. Qed.

Lemma build_zoom_returns (self : Tiles) (z : Z) (w : World) (td : float)
    (sc ec sr er : Z) :
  let b := ip_bounds (_img_properties self) in
  pixels self = 256 \/ pixels self = 512 ->
  Spec.tile_dims z = Return td ->
  Spec.start_col b td = Return sc ->
  Spec.end_col b td = Return ec ->
  Spec.start_row b td = Return sr ->
  Spec.end_row b td = Return er ->
  exists w',
    _build_zoom self z w =
      (Return (Build_Zoom z td (product (range sc (ec + 1)) (range sr (er + 1)))), w').
Proof.
  intros b Hp Htd Hsc Hec Hsr Her.
  unfold Spec.tile_dims in Htd.
  apply outcome_bind_return in Htd as (n & Hn & Htd).
  apply outcome_bind_return in Htd as (side & Hside & Htd).
  apply outcome_bind_return in Htd as (two & Htwo & Htd).
  assert (Htwo' : two = S754_finite false 4503599627370496 (-51)).
  { vm_compute in Htwo. congruence. }
  subst two.
  replace (fmul (S754_finite false 4503599627370496 (-51)) Spec.ORIGIN)
    with (fmul _origin (S754_finite false 4503599627370496 (-51))) in Htd
    by (vm_compute; reflexivity).
  unfold Spec.start_col, Spec.floor_div in Hsc.
  apply outcome_bind_return in Hsc as (q1 & Hq1 & Hsc).
  unfold Spec.end_col, Spec.floor_div in Hec.
  apply outcome_bind_return in Hec as (q2 & Hq2 & Hec).
  unfold Spec.start_row, Spec.floor_div in Hsr.
  apply outcome_bind_return in Hsr as (q3 & Hq3 & Hsr).
  unfold Spec.end_row, Spec.floor_div in Her.
  apply outcome_bind_return in Her as (q4 & Hq4 & Her).
  unfold _build_zoom.
  rewrite (bind_lift_return n) by exact Hn.
  rewrite (bind_lift_return side) by exact Hside.
  rewrite (bind_lift_return (S754_finite false 4503599627370496 (-51)))
    by (vm_compute; reflexivity).
  rewrite (bind_lift_return td) by exact Htd.
  assert (Hfp : exists fp, float_of_int (pixels self) = Return fp /\ IEEE.is_zero fp = false).
  { destruct Hp as [-> | ->]; eexists; split; vm_compute; reflexivity. }
  destruct Hfp as (fp & Hfp & Hnz).
  rewrite (bind_lift_return fp) by exact Hfp.
  rewrite (bind_lift_return (fdiv_raw td fp))
    by (unfold truediv; rewrite Hnz; reflexivity).
  rewrite (bind_lift_return (Rio.af_a (ip_transform (_img_properties self))))
    by reflexivity.
  fold b. rewrite !fsub_fneg.
  rewrite bind_if_warn.
  unfold Spec.ORIGIN in *.
  rewrite (bind_lift_return q1) by exact Hq1.
  rewrite (bind_lift_return sc) by exact Hsc.
  rewrite (bind_lift_return q2) by exact Hq2.
  rewrite (bind_lift_return ec) by exact Hec.
  rewrite (bind_lift_return q3) by exact Hq3.
  rewrite (bind_lift_return sr) by exact Hsr.
  rewrite (bind_lift_return q4) by exact Hq4.
  rewrite (bind_lift_return er) by exact Her.
  eexists. reflexivity.
Qed.

Lemma M_bind_return {A B} (m : M A) (k : A -> M B) (w w' : World) (b : B) :
  (m ≫= k) w = (Return b, w') ->
  exists a w1, m w = (Return a, w1) /\ k a w1 = (Return b, w').
Proof.
  unfold mbind, M_bind. destruct (m w) as [[a|e] w1]; [eauto | discriminate].
Qed.

Lemma lift_return {A} (o : outcome A) (w w' : World) (a : A) :
  lift o w = (Return a, w') -> o = Return a /\ w' = w.
Proof. unfold lift. intros Heq. inversion Heq; subst. auto. Qed.

Ltac bind_inv H :=
  let a := fresh "a" in
  let w1 := fresh "w" in
  let Hm := fresh "Hm" in
  apply M_bind_return in H as (a & w1 & Hm & H);
  try (apply lift_return in Hm as [Hm ->]).

Lemma two_is : float_of_int 2 = Return (S754_finite false 4503599627370496 (-51)).
Proof. vm_compute. reflexivity. Qed.

Lemma twice_origin :
  fmul (S754_finite false 4503599627370496 (-51)) Spec.ORIGIN =
  fmul _origin (S754_finite false 4503599627370496 (-51)).
Proof. vm_compute. reflexivity. Qed.

Lemma build_zoom_inv (self : Tiles) (z : Z) (w w' : World) (zp : _Zoom) :
  _build_zoom self z w = (Return zp, w') ->
  let b := ip_bounds (_img_properties self) in
  exists td sc ec sr er,
    Spec.tile_dims z = Return td /\
    Spec.start_col b td = Return sc /\
    Spec.end_col b td = Return ec /\
    Spec.start_row b td = Return sr /\
    Spec.end_row b td = Return er /\
    zp = Build_Zoom z td (product (range sc (ec + 1)) (range sr (er + 1))).
Proof.
  intros Hz b. unfold _build_zoom in Hz. fold b in Hz.
  rewrite !fsub_fneg in Hz.
  bind_inv Hz. rename a into n, Hm into Hn.
  bind_inv Hz. rename a into side, Hm into Hside.
  bind_inv Hz. rename a into two, Hm into Htwo.
  bind_inv Hz. rename a into td, Hm into Htd.
  bind_inv Hz. bind_inv Hz. bind_inv Hz.
  apply M_bind_return in Hz as (u & w2 & _ & Hz).
  bind_inv Hz. rename a2 into q1, Hm2 into Hq1.
  bind_inv Hz. rename a2 into sc, Hm2 into Hsc.
  bind_inv Hz. rename a2 into q2, Hm2 into Hq2.
  bind_inv Hz. rename a2 into ec, Hm2 into Hec.
  bind_inv Hz. rename a2 into q3, Hm2 into Hq3.
  bind_inv Hz. rename a2 into sr, Hm2 into Hsr.
  bind_inv Hz. rename a2 into q4, Hm2 into Hq4.
  bind_inv Hz. rename a2 into er, Hm2 into Her.
  inversion Hz; subst zp w'. clear Hz.
  rewrite two_is in Htwo. inversion Htwo; subst two. clear Htwo.
  exists td, sc, ec, sr, er.
  unfold Spec.tile_dims, Spec.start_col, Spec.end_col, Spec.start_row,
    Spec.end_row, Spec.floor_div, Spec.ORIGIN.
  rewrite Hn, Hq1, Hq2, Hq3, Hq4. cbn [mbind outcome_bind].
  rewrite Hside. cbn [mbind outcome_bind].
  rewrite two_is. cbn [mbind outcome_bind].
  change (fmul (S754_finite false 4503599627370496 (-51)) _origin)
    with (fmul (S754_finite false 4503599627370496 (-51)) Spec.ORIGIN).
  rewrite twice_origin. auto 10.
Qed.

Lemma sorted_app {A} (R : A -> A -> Prop) (xs ys : list A) :
  StronglySorted R xs -> StronglySorted R ys ->
  (forall x y, In x xs -> In y ys -> R x y) ->
  StronglySorted R (xs ++ ys).
Proof.
  intros Hxs Hys Hcross. induction Hxs as [|x xs Hxs IH Hx]; simpl; [exact Hys|].
  constructor.
  - apply IH. intros a b Ha Hb. apply Hcross; [right; exact Ha | exact Hb].
  - apply List.Forall_forall. intros b Hb. apply in_app_iff in Hb as [Hb|Hb].
    + apply (proj1 (List.Forall_forall _ _) Hx). exact Hb.
    + apply Hcross; [left; reflexivity | exact Hb].
Qed.

Lemma sorted_range (a b : Z) : StronglySorted Z.lt (range a b).
Proof.
  unfold range. generalize (Z.to_nat (b - a)) as n. intros n.
  generalize 0%nat as k. induction n as [|n IH]; intros k; simpl; constructor.
  - apply IH.
  - apply List.Forall_forall. intros x Hx.
    apply in_map_iff in Hx as (i & <- & Hi). apply in_seq in Hi. lia.
Qed.

Lemma sorted_row (c : Z) (rows : list Z) :
  StronglySorted Z.lt rows ->
  StronglySorted Spec.col_major_lt (List.map (fun r => (c, r)) rows).
Proof.
  induction 1 as [|r rows Hrows IH Hr]; simpl; constructor; [exact IH|].
  apply List.Forall_forall. intros p Hp.
  apply in_map_iff in Hp as (r' & <- & Hr'). right. simpl. split; [reflexivity|].
  apply (proj1 (List.Forall_forall _ _) Hr). exact Hr'.
Qed.

Lemma sorted_product (cols rows : list Z) :
  StronglySorted Z.lt cols -> StronglySorted Z.lt rows ->
  StronglySorted Spec.col_major_lt (product cols rows).
Proof.
  intros Hcols Hrows. induction Hcols as [|c cols Hcols IH Hc]; simpl; [constructor|].
  apply sorted_app; [apply sorted_row; exact Hrows | exact IH |].
  intros [c1 r1] [c2 r2] H1 H2.
  apply in_map_iff in H1 as (r & Heq & _). inversion Heq; subst c1 r1.
  apply in_product in H2 as [H2 _]. left. simpl.
  apply (proj1 (List.Forall_forall _ _) Hc). exact H2.
Qed.

(** C1 (as amended).  For a zoom level in [[0,25]] the planner returns,
    whenever the four index formulas of the specification are defined:
    the tile size is [2*ORIGIN / sqrt(4^z)], the planned indices are
    those between [start_col] and [end_col], [start_row] and [end_row],
    and their number is [max(0, end_col - start_col + 1) * max(0, end_row
    - start_row + 1)]: an empty range contributes the factor 0. *)
Theorem planned_tile_count (self : Tiles) (z : Z) (w : World) (td : float)
    (sc ec sr er : Z) :
  0 <= z <= 25 ->
  pixels self = 256 \/ pixels self = 512 ->
  Spec.tile_dims z = Return td ->
  Spec.start_col (ip_bounds (_img_properties self)) td = Return sc ->
  Spec.end_col (ip_bounds (_img_properties self)) td = Return ec ->
  Spec.start_row (ip_bounds (_img_properties self)) td = Return sr ->
  Spec.end_row (ip_bounds (_img_properties self)) td = Return er ->
  exists zp w',
    _build_zoom self z w = (Return zp, w') /\
    z_zoom zp = z /\
    tile_dims zp = td /\
    td = S754_finite false 5378777689100435 (-27 - z) /\
    (forall c r, In (c, r) (tile_indices zp) <-> sc <= c <= ec /\ sr <= r <= er) /\
    Z.of_nat (length (tile_indices zp)) =
      Z.max 0 (ec - sc + 1) * Z.max 0 (er - sr + 1).
Proof.
  intros Hz Hp Htd Hsc Hec Hsr Her.
  destruct (build_zoom_returns self z w td sc ec sr er Hp Htd Hsc Hec Hsr Her)
    as (w' & Hrun).
  eexists. exists w'. split; [exact Hrun|]. simpl.
  split; [reflexivity|]. split; [reflexivity|]. split.
  - rewrite tile_dims_defined in Htd by exact Hz. congruence.
  - split.
    + intros c r. rewrite in_product, !in_range. lia.
    + rewrite length_product, Nat2Z.inj_mul, !length_range. f_equal; lia.
Qed.

(** C8.  Whenever the planner returns, the sequence of planned indices is
    the product of the columns [start_col .. end_col] and the rows
    [start_row .. end_row], both ends included, in column-major order:
    strictly increasing by column and, within a column, by row. *)
Theorem planned_indices_column_major (self : Tiles) (z : Z) (w w' : World)
    (zp : _Zoom) :
  _build_zoom self z w = (Return zp, w') ->
  exists sc ec sr er,
    Spec.start_col (ip_bounds (_img_properties self)) (tile_dims zp) = Return sc /\
    Spec.end_col (ip_bounds (_img_properties self)) (tile_dims zp) = Return ec /\
    Spec.start_row (ip_bounds (_img_properties self)) (tile_dims zp) = Return sr /\
    Spec.end_row (ip_bounds (_img_properties self)) (tile_dims zp) = Return er /\
    (forall c r, In (c, r) (tile_indices zp) <-> sc <= c <= ec /\ sr <= r <= er) /\
    StronglySorted Spec.col_major_lt (tile_indices zp) /\
    tile_indices zp =
      List.flat_map (fun c => List.map (fun r => (c, r)) (range sr (er + 1)))
                    (range sc (ec + 1)).
Proof.
  intros Hrun. apply build_zoom_inv in Hrun.
  destruct Hrun as (td & sc & ec & sr & er & Htd & Hsc & Hec & Hsr & Her & ->).
  exists sc, ec, sr, er. simpl.
  split; [exact Hsc|]. split; [exact Hec|]. split; [exact Hsr|].
  split; [exact Her|]. split; [|split].
  - intros c r. rewrite in_product, !in_range. lia.
  - apply sorted_product; apply sorted_range.
  - generalize (range sc (ec + 1)) as cols. induction cols as [|c cols IH]; simpl;
      [reflexivity | rewrite IH; reflexivity].
Qed.

End Planner.

(** ** The planner on concrete images *)

Section PlannerExamples.
Local Existing Instances Double.platform Double.rasterio Double.warp.

(** C1, witness: the fixture image at zoom 10 is planned on columns
    505 to 507 and rows 343 to 344, six tiles. *)
Lemma planned_tile_count_witness :
  let self := Double.instance (Double.byte_image Double.fixture_bounds) [10] in
  exists zp w',
    _build_zoom self 10 Double.empty_world = (Return zp, w') /\
    (forall c r, In (c, r) (tile_indices zp) <-> 505 <= c <= 507 /\ 343 <= r <= 344) /\
    Z.of_nat (length (tile_indices zp)) = Z.max 0 (507 - 505 + 1) * Z.max 0 (344 - 343 + 1).
Proof.
  intros self.
  destruct (planned_tile_count self 10 Double.empty_world
              (S754_finite false 5378777689100435 (-37)) 505 507 343 344)
    as (zp & w' & Hrun & _ & _ & _ & Hin & Hlen);
    [lia | left; reflexivity | vm_compute; reflexivity | vm_compute; reflexivity
    | vm_compute; reflexivity | vm_compute; reflexivity | vm_compute; reflexivity |].
  exists zp, w'. split; [exact Hrun|]. split; [exact Hin | exact Hlen].
Defined.

(** C1, counterexample: an image reaching far north of the Mercator
    square, at zoom 2.  The formulas give columns 2 to 2 and rows 2 to 0;
    no index is planned, while [(end_col - start_col + 1) * (end_row -
    start_row + 1)] is -1. *)
Lemma planned_tile_count_not_product :
  let self := Double.instance (Double.byte_image Double.polar_bounds) [2] in
  let b := ip_bounds (_img_properties self) in
  exists td zp w',
    Double.construct (Double.byte_image Double.polar_bounds) [2]
      = (Return self, Double.empty_world) /\
    Spec.tile_dims 2 = Return td /\
    Spec.start_col b td = Return 2 /\
    Spec.end_col b td = Return 2 /\
    Spec.start_row b td = Return 2 /\
    Spec.end_row b td = Return 0 /\
    _build_zoom self 2 Double.empty_world = (Return zp, w') /\
    tile_indices zp = [] /\
    Z.of_nat (length (tile_indices zp)) <> (2 - 2 + 1) * (0 - 2 + 1).
Proof.
  intros self b.
  exists (S754_finite false 5378777689100435 (-29)),
         (Build_Zoom 2 (S754_finite false 5378777689100435 (-29)) []),
         Double.empty_world.
  repeat split; try (vm_compute; reflexivity).
  vm_compute. discriminate.
Qed.

(** C8, witness: the fixture image at zoom 10. *)
Lemma planned_indices_column_major_witness :
  let self := Double.instance (Double.byte_image Double.fixture_bounds) [10] in
  exists zp w',
    _build_zoom self 10 Double.empty_world = (Return zp, w') /\
    StronglySorted Spec.col_major_lt (tile_indices zp) /\
    tile_indices zp =
      [(505, 343); (505, 344); (506, 343); (506, 344); (507, 343); (507, 344)].
Proof.
  intros self.
  destruct (_build_zoom self 10 Double.empty_world) as [[zp|e] w'] eqn:Hrun;
    [| vm_compute in Hrun; discriminate].
  destruct (planned_indices_column_major self 10 Double.empty_world w' zp Hrun)
    as (sc & ec & sr & er & _ & _ & _ & _ & _ & Hsorted & _).
  exists zp, w'. split; [reflexivity|]. split; [exact Hsorted|].
  vm_compute in Hrun. injection Hrun as <- _. reflexivity.
Defined.

End PlannerExamples.

(** ** Building one tile *)

Section Builder.
Context {PL : Np.Platform} {RR : Rio.Rasterio} {RW : @Rio.Warp RR}.

Lemma minus_origin :
  forall m, float_of_int (-1) = Return m -> fmul _origin m = fneg Spec.ORIGIN.
Proof. intros m Hm. vm_compute in Hm. injection Hm as <-. vm_compute. reflexivity. Qed.

(** What a call of [_build_tile] that returns has computed. *)
Lemma build_tile_inv (self : Tiles) (zoom col row : Z) (dims : float) (tile : _Tile) :
  _build_tile self zoom col row dims = Return tile ->
  exists fcol frow affine window raw,
    float_of_int col = Return fcol /\
    float_of_int row = Return frow /\
    let minx := fadd (fneg Spec.ORIGIN) (fmul fcol dims) in
    let maxx := fadd minx dims in
    let maxy := fsub Spec.ORIGIN (fmul frow dims) in
    let miny := fsub maxy dims in
    Rio.transform_from_bounds minx miny maxx maxy (pixels self) (pixels self)
      = Return affine /\
    Rio.windows_from_bounds minx miny maxx maxy
      (ip_transform (_img_properties self)) = Return window /\
    (if _img_is_3857 self then _read_tile_data self window
     else _reproject_tile_data self window affine) = Return raw /\
    (if negb (bool_decide (Np.nd_dtype raw = Np.UInt8))
     then _array_to_uint8 self raw else Return raw) = Return (data tile) /\
    tile = Build_Tile zoom col row (Build_Bounds minx miny maxx maxy) affine window
             (data tile).
Proof.
  intros Hrun. unfold _build_tile in Hrun.
  apply outcome_bind_return in Hrun as (m & Hm & Hrun).
  apply outcome_bind_return in Hrun as (fcol & Hfcol & Hrun).
  apply outcome_bind_return in Hrun as (frow & Hfrow & Hrun).
  apply outcome_bind_return in Hrun as (affine & Haffine & Hrun).
  apply outcome_bind_return in Hrun as (window & Hwindow & Hrun).
  apply outcome_bind_return in Hrun as (raw & Hraw & Hrun).
  apply outcome_bind_return in Hrun as (final & Hfinal & Hrun).
  rewrite (minus_origin m Hm) in *.
  injection Hrun as <-. simpl.
  exists fcol, frow, affine, window, raw. auto 10.
Qed.

(** C2.  A tile built at [(zoom, column, row)] with edge length [dims]
    carries those indices; its bounds are [minx = -ORIGIN + column*dims],
    [maxx = minx + dims], [maxy = ORIGIN - row*dims], [miny = maxy -
    dims]; and its transform is what [transform.from_bounds] gives for
    those bounds and a grid of [pixels] by [pixels]. *)
Theorem tile_bounds_and_transform (self : Tiles) (zoom col row : Z) (dims : float)
    (tile : _Tile) :
  _build_tile self zoom col row dims = Return tile ->
  exists fcol frow,
    float_of_int col = Return fcol /\
    float_of_int row = Return frow /\
    Utils.zoom tile = zoom /\ column tile = col /\ Utils.row tile = row /\
    minx (bounds tile) = fadd (fneg Spec.ORIGIN) (fmul fcol dims) /\
    maxx (bounds tile) = fadd (minx (bounds tile)) dims /\
    maxy (bounds tile) = fsub Spec.ORIGIN (fmul frow dims) /\
    miny (bounds tile) = fsub (maxy (bounds tile)) dims /\
    Rio.transform_from_bounds (minx (bounds tile)) (miny (bounds tile))
      (maxx (bounds tile)) (maxy (bounds tile)) (pixels self) (pixels self)
      = Return (transform tile).
Proof.
  intros Hrun. apply build_tile_inv in Hrun.
  destruct Hrun as (fcol & frow & affine & window & raw & Hfcol & Hfrow & Haffine
                    & _ & _ & _ & ->).
  exists fcol, frow. simpl. auto 10.
Qed.

End Builder.

Section BuilderExamples.
Local Existing Instances Double.platform Double.rasterio Double.warp.

(** C2, witness: the tile (0, 0, 0) of the fixture image spans the whole
    Mercator square, and its transform has the pixel size [2*ORIGIN/256]. *)
Lemma tile_bounds_and_transform_witness :
  let self := Double.instance (Double.byte_image Double.fixture_bounds) [0] in
  let dims := S754_finite false 5378777689100435 (-27) in
  exists tile,
    _build_tile self 0 0 0 dims = Return tile /\
    bounds tile = Build_Bounds (fneg Spec.ORIGIN) (fneg Spec.ORIGIN)
                               Spec.ORIGIN Spec.ORIGIN /\
    Rio.af_a (transform tile) = S754_finite false 5378777689100435 (-35).
Proof.
  intros self dims.
  assert (Hok : match _build_tile self 0 0 0 dims with
                | Return _ => true
                | Raise _ => false
                end = true) by (vm_compute; reflexivity).
  destruct (_build_tile self 0 0 0 dims) as [tile|e] eqn:Hrun; [|discriminate Hok].
  destruct (tile_bounds_and_transform self 0 0 0 dims tile Hrun)
    as (fcol & frow & Hfcol & Hfrow & _ & _ & _ & Hminx & Hmaxx & Hmaxy & Hminy & Ht).
  exists tile. split; [reflexivity|].
  vm_compute in Hfcol. injection Hfcol as <-.
  vm_compute in Hfrow. injection Hfrow as <-.
  split.
  - destruct (bounds tile) as [a b c d]. simpl in *. subst. vm_compute. reflexivity.
  - rewrite Hmaxx, Hminy, Hmaxy, Hminx in Ht.
    remember (transform tile) as t eqn:Et. clear Et.
    vm_compute in Ht. injection Ht as <-. reflexivity.
Defined.

End BuilderExamples.

(** ** The constructor *)

Section Constructor.
Context {PL : Np.Platform} {RR : Rio.Rasterio} {RW : @Rio.Warp RR}.

(** What an instance that [__init__] returned was made from. *)
Lemma init_inv (image : object) (zs px rs : pyobj) (w w' : World) (self : Tiles) :
  __init__ image zs px rs w = (Return self, w') ->
  exists d p name code,
    image = Dataset d /\ px = PyInt p /\ rs = PyStr name /\
    (p = 256 \/ p = 512) /\
    dict_get _valid_resampling name = Some code /\
    is_sequence zs = true /\
    forallb is_int (seq_items zs) = true /\
    forallb (fun z => (int_value z <=? 25) && (int_value z >=? 0)) (seq_items zs)
      = true /\
    img self = d /\ zooms self = zs /\ pixels self = p /\ resampling self = code /\
    _tile_bands self = Z.min (Rio.count d) 3 /\
    Np.first_item (Rio.dtypes d) = Return (_img_dtype self) /\
    tiles self = GenCreated /\
    (_img_dtype self <> Np.UInt8 ->
     exists img_max img_min,
       _get_image_statistics d (_tile_bands self) = Return (img_max, img_min) /\
       _img_max self = Some img_max /\ _img_min self = Some img_min).
Proof.
  intros Hinit. unfold __init__ in Hinit.
  apply M_bind_return in Hinit as (d & w1 & Hd & Hinit).
  destruct image as [v|d'|t]; try discriminate. injection Hd as -> ->.
  apply M_bind_return in Hinit as (u1 & w2 & Hcrs & Hinit).
  apply M_bind_return in Hinit as (u2 & w3 & Hzs & Hinit).
  destruct (is_sequence zs) eqn:Hseq; simpl in Hzs; [|discriminate].
  destruct (forallb is_int (seq_items zs)) eqn:Hints; simpl in Hzs; [|discriminate].
  apply M_bind_return in Hinit as (p & w4 & Hp & Hinit).
  destruct px as [|p'| | | | | |]; try discriminate.
  destruct ((p' =? 256) || (p' =? 512)) eqn:Hp'; [|discriminate].
  injection Hp as -> ->.
  apply M_bind_return in Hinit as (code & w5 & Hcode & Hinit).
  destruct rs as [| | |name| | | |]; try discriminate.
  destruct (dict_get _valid_resampling name) as [code'|] eqn:Hname; [|discriminate].
  injection Hcode as -> ->.
  apply M_bind_return in Hinit as (u3 & w6 & _ & Hinit).
  apply M_bind_return in Hinit as (props & w7 & _ & Hinit).
  apply M_bind_return in Hinit as (dt & w8 & Hdt & Hinit).
  injection Hdt as Hdt _.
  apply M_bind_return in Hinit as (stats & w9 & Hstats & Hinit).
  injection Hinit as <- _.
  exists d, p, name, code. simpl.
  split_and!; try reflexivity; try assumption.
  - lia.
  - destruct (forallb (fun z => (int_value z <=? 25) && (int_value z >=? 0))
                      (seq_items zs)); [reflexivity | discriminate].
  - destruct (Rio.count d <=? 3) eqn:Hc; lia.
  - intros Hne.
    destruct (bool_decide (dt = Np.UInt8)) eqn:Hdec.
    + apply bool_decide_eq_true in Hdec. contradiction.
    + simpl in Hstats.
      apply M_bind_return in Hstats as (u4 & w10 & _ & Hstats).
      apply M_bind_return in Hstats as ([mx mn] & w11 & Hst & Hstats).
      injection Hst as Hst _. injection Hstats as <- _.
      exists mx, mn. simpl. auto.
Qed.



End Constructor.

Section ConstructorExamples.
Local Existing Instances Double.platform Double.rasterio Double.warp.



End ConstructorExamples.

(** ** The tile stream *)

Section Stream.
Context {PL : Np.Platform} {RR : Rio.Rasterio} {RW : @Rio.Warp RR}.

(** Every tile the generator yields was made by [_build_tile]. *)
Lemma resume_zooms_tile (self : Tiles) (zs : list Z) (w w' : World)
    (tile : _Tile) (g : generator) :
  resume_zooms self zs w = (Return (Some tile), g, w') ->
  exists zoom col row dims, _build_tile self zoom col row dims = Return tile.
Proof.
  revert w. induction zs as [|z zs IH]; intros w Hrun; simpl in Hrun; [discriminate|].
  destruct (_build_zoom self z w) as [[zp|e] w1]; [|discriminate].
  destruct (tile_indices zp) as [|[col row] rest]; [exact (IH _ Hrun)|].
  destruct (_build_tile self z col row (tile_dims zp)) as [t|e] eqn:Hb; [|discriminate].
  injection Hrun as <- _ _. eauto.
Qed.

Lemma next_tile (self : Tiles) (g g' : generator) (w w' : World) (tile : _Tile) :
  next self g w = (Return (Some tile), g', w') ->
  exists zoom col row dims, _build_tile self zoom col row dims = Return tile.
Proof.
  destruct g as [|zs z dims [|[col row] rest]|]; simpl; intros Hrun.
  - exact (resume_zooms_tile _ _ _ _ _ _ Hrun).
  - exact (resume_zooms_tile _ _ _ _ _ _ Hrun).
  - destruct (_build_tile self z col row dims) as [t|e] eqn:Hb; [|discriminate].
    injection Hrun as <- _ _. eauto.
  - discriminate.
Qed.

Lemma for_zooms_next (self : Tiles) (body : _Tile -> M unit) (zs : list Z) (w : World) :
  for_zooms self body zs w =
  match resume_zooms self zs w with
  | (Raise e, g', w') => (Raise e, g', w')
  | (Return None, g', w') => (Return tt, g', w')
  | (Return (Some tile), g', w') =>
      match body tile w' with
      | (Raise e, w'') => (Raise e, g', w'')
      | (Return _, w'') => for_each self body g' w''
      end
  end.
Proof.
  revert w. induction zs as [|z zs IH]; intros w; simpl; [reflexivity|].
  destruct (_build_zoom self z w) as [[zp|e] w1]; [|reflexivity].
  destruct (tile_indices zp) as [|[col row] rest]; simpl; [apply IH|].
  destruct (_build_tile self z col row (tile_dims zp)) as [t|e]; [|reflexivity].
  destruct (body t w1) as [[u|e] w2]; reflexivity.
Qed.

(** The loop of the model is the [for] loop over [next]. *)
Lemma for_each_next (self : Tiles) (body : _Tile -> M unit) (g : generator)
    (w : World) :
  for_each self body g w = unfold_for self body (for_each self body) g w.
Proof.
  unfold unfold_for.
  destruct g as [|zs z dims [|[col row] rest]|]; simpl.
  - apply for_zooms_next.
  - apply for_zooms_next.
  - destruct (_build_tile self z col row dims) as [t|e]; [|reflexivity].
    destruct (body t w) as [[u|e] w2]; reflexivity.
  - reflexivity.
Qed.

(** A loop that ends without an exception leaves the generator
    finished. *)
Lemma for_indices_finished (self : Tiles) (body : _Tile -> M unit)
    (k : World -> loop_result) (zs : list Z) (z : Z) (dims : float)
    (indices : list (Z * Z)) :
  (forall w g w', k w = (Return tt, g, w') -> g = GenFinished) ->
  forall w g w',
    for_indices self body k zs z dims indices w = (Return tt, g, w') ->
    g = GenFinished.
Proof.
  intros Hk. induction indices as [|[col row] rest IH]; intros w g w' Hrun;
    simpl in Hrun; [exact (Hk _ _ _ Hrun)|].
  destruct (_build_tile self z col row dims) as [t|e]; [|discriminate].
  destruct (body t w) as [[u|e] w1]; [exact (IH _ _ _ Hrun) | discriminate].
Qed.

Lemma for_zooms_finished (self : Tiles) (body : _Tile -> M unit) (zs : list Z) :
  forall w g w', for_zooms self body zs w = (Return tt, g, w') -> g = GenFinished.
Proof.
  induction zs as [|z zs IH]; intros w g w' Hrun; simpl in Hrun.
  - injection Hrun as <- _. reflexivity.
  - destruct (_build_zoom self z w) as [[zp|e] w1]; [|discriminate].
    exact (for_indices_finished _ _ _ _ _ _ _ IH _ _ _ Hrun).
Qed.

Lemma for_each_finished (self : Tiles) (body : _Tile -> M unit) (g g' : generator)
    (w w' : World) :
  for_each self body g w = (Return tt, g', w') -> g' = GenFinished.
Proof.
  destruct g as [|zs z dims indices|]; simpl; intros Hrun.
  - exact (for_zooms_finished _ _ _ _ _ _ Hrun).
  - exact (for_indices_finished _ _ _ _ _ _ _ (for_zooms_finished _ _ zs) _ _ _ Hrun).
  - injection Hrun as <- _. reflexivity.
Qed.

End Stream.

(** ** Writing *)

Section Writing.
Context {PL : Np.Platform} {RR : Rio.Rasterio} {RW : @Rio.Warp RR}.

Lemma set_tiles_same (self : Tiles) (g : generator) :
  tiles self = g -> set_tiles self g = self.
Proof. intros <-. destruct self. reflexivity. Qed.

(** On an instance whose generator is finished, [write] only makes its
    checks. *)
Lemma write_finished (self : Tiles) (directory driver : pyobj) (w : World) :
  tiles self = GenFinished ->
  write self directory driver w =
    (match write_checks directory driver w with
     | Return _ => Return tt
     | Raise e => Raise e
     end, self, w).
Proof.
  intros Hfin. unfold write.
  destruct (write_checks directory driver w) as [[out_dir drv]|e]; [|reflexivity].
  rewrite Hfin. simpl. rewrite set_tiles_same by exact Hfin. reflexivity.
Qed.

(** C10.  The generator is stored on the instance and only ever
    advanced.  After a [write] that ran to its end the generator is
    finished: [next] gives nothing more, and any later [write] on that
    instance, in any world, makes its checks of the driver and the
    directory (and fails as they fail), pulls no tile, leaves the world
    as it is and, when the checks pass, returns without error. *)
Theorem write_after_exhaustion (self self1 : Tiles) (directory driver : pyobj)
    (w w1 : World) :
  write self directory driver w = (Return tt, self1, w1) ->
  tiles self1 = GenFinished /\
  forall (directory2 driver2 : pyobj) (w2 : World),
    next self1 (tiles self1) w2 = (Return None, GenFinished, w2) /\
    write self1 directory2 driver2 w2 =
      (match write_checks directory2 driver2 w2 with
       | Return _ => Return tt
       | Raise e => Raise e
       end, self1, w2).
Proof.
  intros Hrun. unfold write in Hrun.
  destruct (write_checks directory driver w) as [[out_dir drv]|e]; [|discriminate].
  destruct (for_each self (write_tile self out_dir drv) (tiles self) w)
    as [[r g] w'] eqn:Hloop.
  injection Hrun as -> <- <-.
  apply for_each_finished in Hloop. subst g.
  split; [reflexivity|]. intros directory2 driver2 w2. split; [reflexivity|].
  apply write_finished. reflexivity.
Qed.

(** What a [mkdir] that succeeds does: the directory exists afterwards,
    no file is touched, no directory is lost, an existing directory costs
    nothing, and directories stay inside directories. *)
Lemma mkdir_rec_spec (depth : nat) :
  forall (p : Fs.path) (s s' : Fs.fs),
    Fs.mkdir_rec depth p s = Return s' ->
    Fs.is_dir p s' = true /\
    Fs.files s' = Fs.files s /\
    Fs.dirs s ⊆ Fs.dirs s' /\
    (Fs.is_dir p s = true -> s' = s) /\
    (Fs.closed s -> Fs.closed s').
Proof.
  induction depth as [|depth IH]; intros p s s' Hrun; simpl in Hrun.
  - destruct (Fs.is_dir p s) eqn:Hp.
    { injection Hrun as <-. split_and!; auto. }
    destruct (Fs.is_file p s); [discriminate|].
    destruct (Fs.is_dir (removelast p) s) eqn:Hparent.
    + injection Hrun as <-. unfold Fs.is_dir, Fs.add_dir, Fs.closed in *. simpl.
      split_and!; try reflexivity.
      * apply orb_true_iff. right. apply bool_decide_eq_true. set_solver.
      * set_solver.
      * discriminate.
      * intros Hc q Hq. simpl. apply elem_of_union in Hq as [Hq|Hq].
        -- apply elem_of_singleton in Hq. subst q.
           apply orb_true_iff in Hparent as [H|H]; apply orb_true_iff;
             [left; exact H | right].
           apply bool_decide_eq_true in H. apply bool_decide_eq_true. set_solver.
        -- specialize (Hc q Hq). apply orb_true_iff in Hc as [H|H]; apply orb_true_iff;
             [left; exact H | right].
           apply bool_decide_eq_true in H. apply bool_decide_eq_true. set_solver.
    + destruct (Fs.is_file (removelast p) s); discriminate.
  - destruct (Fs.is_dir p s) eqn:Hp.
    { injection Hrun as <-. split_and!; auto. }
    destruct (Fs.is_file p s); [discriminate|].
    destruct (Fs.is_dir (removelast p) s) eqn:Hparent.
    + injection Hrun as <-. unfold Fs.is_dir, Fs.add_dir, Fs.closed in *. simpl.
      split_and!; try reflexivity.
      * apply orb_true_iff. right. apply bool_decide_eq_true. set_solver.
      * set_solver.
      * discriminate.
      * intros Hc q Hq. simpl. apply elem_of_union in Hq as [Hq|Hq].
        -- apply elem_of_singleton in Hq. subst q.
           apply orb_true_iff in Hparent as [H|H]; apply orb_true_iff;
             [left; exact H | right].
           apply bool_decide_eq_true in H. apply bool_decide_eq_true. set_solver.
        -- specialize (Hc q Hq). apply orb_true_iff in Hc as [H|H]; apply orb_true_iff;
             [left; exact H | right].
           apply bool_decide_eq_true in H. apply bool_decide_eq_true. set_solver.
    + destruct (Fs.is_file (removelast p) s); [discriminate|].
      apply outcome_bind_return in Hrun as (s1 & Hs1 & Hrun).
      injection Hrun as <-.
      apply IH in Hs1 as (Hdir1 & Hfiles1 & Hsub1 & _ & Hclosed1).
      unfold Fs.is_dir, Fs.add_dir, Fs.closed in *. simpl.
      split_and!.
      * apply orb_true_iff. right. apply bool_decide_eq_true. set_solver.
      * exact Hfiles1.
      * set_solver.
      * discriminate.
      * intros Hc q Hq. simpl. apply elem_of_union in Hq as [Hq|Hq].
        -- apply elem_of_singleton in Hq. subst q.
           apply orb_true_iff in Hdir1 as [H|H]; apply orb_true_iff;
             [left; exact H | right].
           apply bool_decide_eq_true in H. apply bool_decide_eq_true. set_solver.
        -- specialize (Hclosed1 Hc q Hq).
           apply orb_true_iff in Hclosed1 as [H|H]; apply orb_true_iff;
             [left; exact H | right].
           apply bool_decide_eq_true in H. apply bool_decide_eq_true. set_solver.
Qed.

(** C4 (as amended).  For a tile pulled during [write], once
    [{out_dir}/{zoom}/{column}] is made (with its parents; an existing
    directory is left as it is, and no file is touched), the directory
    exists whatever the tile holds.  If the mean of the alpha channel is
    exactly zero nothing else happens: no file is written.  Otherwise the
    file [{row}.{driver}] is written in that directory, as an 8-bit image
    of [pixels] by [pixels] with as many bands as the tile has channels,
    when the driver accepts it. *)
Theorem write_tile_effect (self : Tiles) (out_dir : Fs.path) (driver : string)
    (tile : _Tile) (w : World) (fs1 : Fs.fs) (alpha : list (list Np.scalar)) :
  let img_dir := Fs.joinpath out_dir [str_of_int (zoom tile);
                                      str_of_int (column tile)] in
  let img_path := Fs.joinpath img_dir [str_of_int (row tile) +:+ "." +:+ driver] in
  let file := {| Fs.rf_driver := driver; Fs.rf_width := pixels self;
                 Fs.rf_height := pixels self;
                 Fs.rf_count := Z.of_nat (length (Np.nd_data (data tile)));
                 Fs.rf_dtype := Np.UInt8; Fs.rf_data := data tile |} in
  Fs.mkdir_parents img_dir (filesystem w) = Return fs1 ->
  Np.last_item (Np.nd_data (data tile)) = Return alpha ->
  (Fs.is_dir img_dir fs1 = true /\
   Fs.files fs1 = Fs.files (filesystem w) /\
   Fs.dirs (filesystem w) ⊆ Fs.dirs fs1 /\
   (Fs.is_dir img_dir (filesystem w) = true -> fs1 = filesystem w) /\
   (Fs.closed (filesystem w) -> Fs.closed fs1)) /\
  (feq (Np.mean alpha) (IEEE.of_Z IEEE.binary64 0) = true ->
   write_tile self out_dir driver tile w =
     (Return tt, {| warnings := warnings w; filesystem := fs1 |})) /\
  (feq (Np.mean alpha) (IEEE.of_Z IEEE.binary64 0) = false ->
   Rio.write_error file = None ->
   write_tile self out_dir driver tile w =
     (Return tt, {| warnings := warnings w;
                    filesystem := Fs.put_file img_path file fs1 |})).
Proof.
  intros img_dir img_path file Hmk Halpha.
  split; [exact (mkdir_rec_spec _ _ _ _ Hmk)|].
  assert (Hbody : write_tile self out_dir driver tile w =
                  (if feq (Np.mean alpha) (IEEE.of_Z IEEE.binary64 0) then mret tt
                   else write_dataset img_path file)
                    {| warnings := warnings w; filesystem := fs1 |}).
  { unfold write_tile, mbind, M_bind, mkdir, lift.
    fold img_dir. rewrite Hmk, Halpha. reflexivity. }
  rewrite Hbody. split.
  - intros ->. reflexivity.
  - intros -> Hok. unfold write_dataset. rewrite Hok. reflexivity.
Qed.

End Writing.

Section WritingExamples.
Local Existing Instances Double.platform Double.rasterio Double.warp.

(** C10, witness: the fixture image at zoom 0 is written once; a second
    [write] with the same arguments returns at once, and one with an
    unknown driver is still refused. *)
Lemma write_after_exhaustion_witness :
  let self := Double.instance (Double.byte_image Double.fixture_bounds) [0] in
  exists self1 w1,
    write self (PyStr "out") (PyStr "PNG") Double.empty_world = (Return tt, self1, w1) /\
    tiles self = GenCreated /\
    tiles self1 = GenFinished /\
    write self1 (PyStr "out") (PyStr "PNG") Double.empty_world
      = (Return tt, self1, Double.empty_world) /\
    write self1 (PyStr "out") (PyStr "TIF") Double.empty_world
      = (Raise ValueError, self1, Double.empty_world).
Proof.
  intros self.
  assert (Hr : fst (fst (write self (PyStr "out") (PyStr "PNG") Double.empty_world))
               = Return tt) by (vm_compute; reflexivity).
  destruct (write self (PyStr "out") (PyStr "PNG") Double.empty_world)
    as [[r self1] w1] eqn:Hw.
  simpl in Hr. subst r.
  destruct (write_after_exhaustion _ _ _ _ _ _ Hw) as [Hfin Hlater].
  exists self1, w1. split; [reflexivity|]. split; [reflexivity|].
  split; [exact Hfin|]. split.
  - destruct (Hlater (PyStr "out") (PyStr "PNG") Double.empty_world) as [_ ->].
    reflexivity.
  - destruct (Hlater (PyStr "out") (PyStr "TIF") Double.empty_world) as [_ ->].
    reflexivity.
Defined.

(** C4, witness: the tile (0, 0, 0) of the fixture image has data under
    it; its directory is made and its file written. *)
Lemma write_tile_effect_witness :
  let self := Double.instance (Double.byte_image Double.fixture_bounds) [0] in
  let dims := S754_finite false 5378777689100435 (-27) in
  exists tile w',
    _build_tile self 0 0 0 dims = Return tile /\
    write_tile self ["out"] "PNG" tile Double.empty_world = (Return tt, w') /\
    Fs.is_dir ["out"; "0"; "0"] (filesystem w') = true /\
    is_Some (Fs.files (filesystem w') !! ["out"; "0"; "0"; "0.PNG"]).
Proof.
  intros self dims.
  assert (Hobs : (t ← _build_tile self 0 0 0 dims;
                  a ← Np.last_item (Np.nd_data (data t));
                  Return (feq (Np.mean a) (IEEE.of_Z IEEE.binary64 0)))
                 = Return false) by (vm_compute; reflexivity).
  destruct (_build_tile self 0 0 0 dims) as [tile|e] eqn:Hrun; [|discriminate Hobs].
  apply build_tile_inv in Hrun as (fc & fr & af & win & raw & _ & _ & _ & _ & _ & _ & Et).
  destruct tile as [z c r b t wn dat]. simpl in Et. injection Et as -> -> -> _ _ _.
  cbn [mbind outcome_bind data] in Hobs.
  destruct (Np.last_item (Np.nd_data dat)) as [alpha|e] eqn:Halpha; [|discriminate Hobs].
  cbn [mbind outcome_bind] in Hobs. injection Hobs as Hmean.
  set (tile := Build_Tile 0 0 0 b t wn dat).
  set (fs1 := Fs.add_dir ["out"; "0"; "0"]
                (Fs.add_dir ["out"; "0"] (filesystem Double.empty_world))).
  assert (Hmk : Fs.mkdir_parents
                  (Fs.joinpath ["out"] [str_of_int (zoom tile); str_of_int (column tile)])
                  (filesystem Double.empty_world) = Return fs1)
    by (vm_compute; reflexivity).
  destruct (write_tile_effect self ["out"] "PNG" tile Double.empty_world fs1 alpha
              Hmk Halpha) as (_ & _ & Hwrite).
  specialize (Hwrite Hmean eq_refl).
  exists tile. eexists. split; [reflexivity|]. split; [exact Hwrite|]. split.
  - reflexivity.
  - simpl. rewrite lookup_insert_eq. eauto.
Defined.

(** C4, counterexample: the image that covers the whole Mercator square,
    at zoom 0, tile (1, 0).  The tile lies outside the image and the mean
    of its alpha channel is zero; no file is written for it, but its
    directory [out/0/1], which did not exist, is created. *)
Lemma empty_tile_directory_created :
  let self := Double.instance (Double.byte_image Double.full_extent) [0] in
  let dims := S754_finite false 5378777689100435 (-27) in
  exists tile alpha w',
    _build_tile self 0 1 0 dims = Return tile /\
    Np.last_item (Np.nd_data (data tile)) = Return alpha /\
    feq (Np.mean alpha) (IEEE.of_Z IEEE.binary64 0) = true /\
    write_tile self ["out"] "PNG" tile Double.empty_world = (Return tt, w') /\
    Fs.files (filesystem w') = ∅ /\
    Fs.is_dir ["out"; "0"; "1"] (filesystem Double.empty_world) = false /\
    Fs.is_dir ["out"; "0"; "1"] (filesystem w') = true.
Proof.
  intros self dims.
  assert (Hobs : (t ← _build_tile self 0 1 0 dims;
                  a ← Np.last_item (Np.nd_data (data t));
                  let r := write_tile self ["out"] "PNG" t Double.empty_world in
                  Return (feq (Np.mean a) (IEEE.of_Z IEEE.binary64 0),
                          fst r,
                          bool_decide (Fs.files (filesystem (snd r)) = ∅),
                          Fs.is_dir ["out"; "0"; "1"] (filesystem (snd r))))
                 = Return (true, Return tt, true, true)) by (vm_compute; reflexivity).
  destruct (_build_tile self 0 1 0 dims) as [tile|e] eqn:Hrun; [|discriminate Hobs].
  cbn [mbind outcome_bind] in Hobs.
  destruct (Np.last_item (Np.nd_data (data tile))) as [alpha|e] eqn:Halpha;
    [|discriminate Hobs].
  cbn [mbind outcome_bind] in Hobs.
  destruct (write_tile self ["out"] "PNG" tile Double.empty_world) as [r w'] eqn:Hw.
  cbn [fst snd] in Hobs. injection Hobs as Hmean -> Hfiles Hdir.
  exists tile, alpha, w'. split_and!; try reflexivity; try assumption.
  apply bool_decide_eq_true in Hfiles. exact Hfiles.
Qed.

(** C5, on the code: the image that covers the whole Mercator square
    meets it, and at zoom 0 it is planned on four index pairs, three of
    them outside the one-tile grid of that level. *)
Lemma zoom0_full_extent_plans_four :
  let self := Double.instance (Double.byte_image Double.full_extent) [0] in
  Double.construct (Double.byte_image Double.full_extent) [0]
    = (Return self, Double.empty_world) /\
  ip_bounds (_img_properties self)
    = Build_Bounds (fneg _origin) (fneg _origin) _origin _origin /\
  _build_zoom self 0 Double.empty_world
    = (Return (Build_Zoom 0 (S754_finite false 5378777689100435 (-27))
                 [(0, 0); (0, 1); (1, 0); (1, 1)]),
       Double.empty_world).
Proof.
  intros self. split; [reflexivity|]. split; vm_compute; reflexivity.
Qed.

End WritingExamples.

(** ** Rescaling to 8-bit samples *)

Section Rescaling.
Context {PL : Np.Platform} {RR : Rio.Rasterio} {RW : @Rio.Warp RR}.

Lemma length_map3 {A B} (f : A -> B) (xs : list (list (list A))) :
  length (Np.map3 f xs) = length xs.
Proof. unfold Np.map3. apply length_map. Qed.

Lemma map3_app {A B} (f : A -> B) (xs ys : list (list (list A))) :
  Np.map3 f (xs ++ ys) = Np.map3 f xs ++ Np.map3 f ys.
Proof. unfold Np.map3. apply map_app. Qed.

Lemma map3_map3 {A B C} (f : A -> B) (g : B -> C) (xs : list (list (list A))) :
  Np.map3 g (Np.map3 f xs) = Np.map3 (fun x => g (f x)) xs.
Proof.
  unfold Np.map3. rewrite List.map_map. apply List.map_ext. intros band.
  rewrite List.map_map. apply List.map_ext. intros r. apply List.map_map.
Qed.

Lemma map3_ext {A B} (f g : A -> B) (xs : list (list (list A))) :
  (forall x, f x = g x) -> Np.map3 f xs = Np.map3 g xs.
Proof.
  intros Hfg. unfold Np.map3. apply List.map_ext. intros band.
  apply List.map_ext. intros r. apply List.map_ext. exact Hfg.
Qed.

(** [a[:-1]] followed by [a[-1:]] is [a]. *)
Lemma all_but_last_last_slice {A} (xs : list A) :
  Np.all_but_last xs ++ Np.last_slice xs = xs.
Proof.
  unfold Np.all_but_last, Np.last_slice.
  rewrite removelast_firstn_len.
  replace (Init.Nat.pred (length xs)) with (length xs - 1)%nat by lia.
  apply firstn_skipn.
Qed.

Lemma result_float_idem (d : Np.dtype) :
  Np.result_float (Np.result_float d) = Np.result_float d.
Proof. destruct d; reflexivity. Qed.

(** The four array operations of [_array_to_uint8] compute [scaled] on
    every sample. *)
Lemma scaled_elementwise (d : Np.dtype) (img_max img_min : float)
    (xs : list (list (list Np.scalar))) :
  Np.binop_pyint IEEE.add
    (Np.binop_pyint IEEE.mul
       (Np.binop_pyfloat IEEE.div
          (Np.binop_pyfloat IEEE.sub xs d img_min)
          (Np.result_float d) (fsub img_max img_min))
       (Np.result_float d) (255 - 0))
    (Np.result_float d) 0
  = Np.map3 (fun s => Np.SFloat (scaled d img_max img_min s)) xs.
Proof.
  unfold Np.binop_pyint, Np.binop_pyfloat, Np.map3. rewrite !result_float_idem.
  rewrite !List.map_map. apply List.map_ext. intros band.
  rewrite !List.map_map. apply List.map_ext. intros r.
  rewrite !List.map_map. apply List.map_ext. intros s. reflexivity.
Qed.

(** What [_array_to_uint8] returns. *)
Lemma array_to_uint8_inv (self : Tiles) (a out : Np.ndarray) :
  _array_to_uint8 self a = Return out ->
  exists img_max img_min,
    _img_max self = Some img_max /\ _img_min self = Some img_min /\
    out = Np.NdArray Np.UInt8
            (Np.map3 (fun s => Np.cast Np.UInt8
                                 (rescaled (Np.nd_dtype a) img_max img_min s))
                     (Np.all_but_last (Np.nd_data a))
             ++ Np.map3 (Np.cast Np.UInt8) (Np.last_slice (Np.nd_data a))).
Proof.
  unfold _array_to_uint8. intros Hrun.
  destruct (_img_min self) as [mn|]; [|discriminate].
  destruct (_img_max self) as [mx|]; [|discriminate].
  cbn [mbind outcome_bind] in Hrun. injection Hrun as <-.
  exists mx, mn. split; [reflexivity|]. split; [reflexivity|].
  rewrite scaled_elementwise. unfold Np.astype. cbn [Np.nd_data].
  rewrite map3_app, !map3_map3. reflexivity.
Qed.




Lemma sub_self_zero (fmt : IEEE.format) (y : float) :
  IEEE.is_finite y = true -> IEEE.sub fmt y y = S754_zero false.
Proof.
  destruct y as [s|s| |s m e]; try discriminate; intros _.
  - destruct s; reflexivity.
  - unfold IEEE.sub, SFsub. rewrite Z.sub_diag. reflexivity.
Qed.

(** C6, on the code.  When [img_max] equals [img_min] (a finite value)
    and a sample has that value, the scaled value is [0/0], a NaN; it is
    then converted to the integer types, where the conversion of a NaN is
    not defined: the sample that comes out is whatever the platform's
    conversion produces.  No exception is raised and no fallback is
    chosen by the program. *)
Theorem degenerate_rescale_is_nan (d : Np.dtype) (m : float) (s : Np.scalar) :
  IEEE.is_finite m = true ->
  IEEE.is_finite (IEEE.round (Np.float_format (Np.result_float d)) m) = true ->
  Np.to_float (Np.result_float d) s
    = IEEE.round (Np.float_format (Np.result_float d)) m ->
  scaled d m m s = S754_nan /\
  Np.cast Np.UInt8 (rescaled d m m s) =
    match Np.int_kind d with
    | Some (signed, width) =>
        Np.SInt (Np.wrap false 8 (Np.wrap signed width (Np.cast_invalid d S754_nan)))
    | None => Np.SInt (Np.wrap false 8 (Np.cast_invalid Np.UInt8 S754_nan))
    end.
Proof.
  intros Hm Hr Hs.
  assert (Hnan : scaled d m m s = S754_nan).
  { unfold scaled. rewrite Hs, (sub_self_zero _ _ Hr).
    unfold fsub. rewrite (sub_self_zero _ _ Hm). reflexivity. }
  split; [exact Hnan|]. unfold rescaled. rewrite Hnan.
  destruct d; reflexivity.
Qed.

End Rescaling.

Section RescalingExamples.
Local Existing Instances Double.platform Double.rasterio Double.warp.



(** C6, witness and failing input: a 16-bit image whose samples are all
    7, so that [img_min = img_max = 7]; the sample 7 scales to a NaN. *)
Lemma degenerate_rescale_is_nan_witness :
  scaled Np.UInt16 (Double.f64 7) (Double.f64 7) (Np.SInt 7) = S754_nan /\
  Np.cast Np.UInt8 (rescaled Np.UInt16 (Double.f64 7) (Double.f64 7) (Np.SInt 7))
    = Np.SInt (Np.wrap false 8
                 (Np.wrap false 16 (Np.cast_invalid Np.UInt16 S754_nan))).
Proof.
  exact (degenerate_rescale_is_nan Np.UInt16 (Double.f64 7) (Np.SInt 7)
           eq_refl eq_refl eq_refl).
Defined.

End RescalingExamples.

(** ** Sample type and channels of the emitted tiles *)

Section Emitted.
Context {PL : Np.Platform} {RR : Rio.Rasterio} {RW : @Rio.Warp RR}.

Lemma array_to_uint8_bands (self : Tiles) (a out : Np.ndarray) :
  _array_to_uint8 self a = Return out ->
  Np.nd_dtype out = Np.UInt8 /\ length (Np.nd_data out) = length (Np.nd_data a).
Proof.
  intros Hrun. apply array_to_uint8_inv in Hrun as (mx & mn & _ & _ & ->).
  split; [reflexivity|]. cbn [Np.nd_data].
  rewrite length_app, !length_map3, <- length_app, all_but_last_last_slice.
  reflexivity.
Qed.

Lemma read_tile_bands (self : Tiles) (win : Rio.Window) (raw : Np.ndarray) :
  Contract.read_shape (img self) ->
  _read_tile_data self win = Return raw ->
  Z.of_nat (length (Np.nd_data raw)) = _tile_bands self + 1.
Proof.
  intros Hread Hrun. unfold _read_tile_data in Hrun.
  apply outcome_bind_return in Hrun as (ma & Hma & Hrun).
  apply outcome_bind_return in Hrun as (mask0 & _ & Hrun).
  apply outcome_bind_return in Hrun as (alpha & Halpha & Hrun).
  apply Hread in Hma.
  unfold Np.where_0_255_reshape in Halpha.
  destruct (_ && _) in Halpha; [|discriminate]. injection Halpha as <-.
  unfold Np.append0 in Hrun.
  destruct (Np.shape3 (Np.nd_data (Np.ma_array ma))) as [[[n1 h1] w1]|]; [|discriminate].
  destruct (Np.shape3 _) as [[[n2 h2] w2]|] in Hrun; [|discriminate].
  destruct (_ && _) in Hrun; [|discriminate]. injection Hrun as <-.
  cbn [Np.nd_data Np.astype]. rewrite length_app, !length_map3. simpl length. lia.
Qed.

Lemma reproject_tile_bands (self : Tiles) (win : Rio.Window) (t : Rio.Affine)
    (raw : Np.ndarray) :
  Contract.reproject_shape ->
  _reproject_tile_data self win t = Return raw ->
  Z.of_nat (length (Np.nd_data raw)) = _tile_bands self + 1.
Proof.
  intros Hwarp Hrun. unfold _reproject_tile_data in Hrun.
  apply outcome_bind_return in Hrun as (dst & Hdst & Hrun).
  apply outcome_bind_return in Hrun as ([out t'] & Hout & Hrun).
  injection Hrun as <-. apply Hwarp in Hout. simpl. rewrite Hout.
  unfold Np.zeros in Hdst.
  destruct (_ || _) eqn:Hneg in Hdst; [discriminate|]. injection Hdst as <-.
  cbn [Np.nd_data]. rewrite repeat_length.
  apply orb_false_iff in Hneg as [Hneg _]. apply orb_false_iff in Hneg as [Hneg _].
  lia.
Qed.

Lemma wrap_in_range (signed : bool) (w n : Z) :
  0 < w -> Np.in_range signed w (Np.wrap signed w n) = true.
Proof.
  intros Hw. unfold Np.in_range, Np.wrap.
  assert (Hpow : 2 ^ w = 2 * 2 ^ (w - 1)).
  { replace w with (1 + (w - 1)) at 1 by lia. rewrite Z.pow_add_r by lia. reflexivity. }
  assert (Hpos : 0 < 2 ^ (w - 1)) by (apply Z.pow_pos_nonneg; lia).
  pose proof (Z.mod_pos_bound n (2 ^ w) ltac:(lia)) as Hm.
  destruct signed; simpl.
  - destruct (2 ^ (w - 1) <=? n mod 2 ^ w) eqn:Hhigh; lia.
  - lia.
Qed.

Lemma cast_sample_of (d : Np.dtype) (s : Np.scalar) :
  Np.sample_of d (Np.cast d s) = true.
Proof.
  unfold Np.sample_of, Np.cast.
  destruct (Np.int_kind d) as [[signed w]|] eqn:Hkind.
  - assert (Hw : 0 < w) by (destruct d; simpl in Hkind; inversion Hkind; lia).
    destruct s as [n|x].
    + apply wrap_in_range. exact Hw.
    + destruct (IEEE.trunc x) as [n|]; [|apply wrap_in_range; exact Hw].
      destruct (Np.in_range signed w n) eqn:Hr; [exact Hr | apply wrap_in_range; exact Hw].
  - destruct s; reflexivity.
Qed.

Lemma sample_of_uint8 (s : Np.scalar) :
  Np.sample_of Np.UInt8 s = true -> exists n, s = Np.SInt n /\ 0 <= n <= 255.
Proof.
  destruct s as [n|x]; [|discriminate]. unfold Np.sample_of, Np.in_range. simpl.
  intros Hr. exists n. split; [reflexivity | lia].
Qed.

Lemma Forall_map3 {A B} (P : B -> Prop) (f : A -> B) (xs : list (list (list A))) :
  (forall x, P (f x)) -> Forall (Forall (Forall P)) (Np.map3 f xs).
Proof.
  intros Hf. unfold Np.map3.
  apply List.Forall_map, List.Forall_forall. intros band _.
  apply List.Forall_map, List.Forall_forall. intros r _.
  apply List.Forall_map, List.Forall_forall. intros x _. apply Hf.
Qed.

Lemma astype_well_typed (a : Np.ndarray) (d : Np.dtype) : Np.well_typed (Np.astype a d).
Proof. apply Forall_map3. intros s. apply cast_sample_of. Qed.

Lemma array_to_uint8_typed (self : Tiles) (a out : Np.ndarray) :
  _array_to_uint8 self a = Return out -> Np.well_typed out.
Proof.
  intros Hrun. apply array_to_uint8_inv in Hrun as (mx & mn & _ & _ & ->).
  unfold Np.well_typed. cbn [Np.nd_data Np.nd_dtype].
  apply List.Forall_app. split; apply Forall_map3; intros s; apply cast_sample_of.
Qed.

Lemma read_tile_typed (self : Tiles) (win : Rio.Window) (raw : Np.ndarray) :
  _read_tile_data self win = Return raw -> Np.well_typed raw.
Proof.
  intros Hrun. unfold _read_tile_data in Hrun.
  apply outcome_bind_return in Hrun as (ma & _ & Hrun).
  apply outcome_bind_return in Hrun as (mask0 & _ & Hrun).
  apply outcome_bind_return in Hrun as (alpha & _ & Hrun).
  unfold Np.append0 in Hrun.
  destruct (Np.shape3 (Np.nd_data (Np.ma_array ma))) as [[[n1 h1] w1]|]; [|discriminate].
  destruct (Np.shape3 _) as [[[n2 h2] w2]|] in Hrun; [|discriminate].
  destruct (_ && _) in Hrun; [|discriminate]. injection Hrun as <-.
  unfold Np.well_typed. cbn [Np.nd_data Np.nd_dtype].
  apply List.Forall_app. split; apply Forall_map3; intros s; apply cast_sample_of.
Qed.

Lemma zeros_well_typed (n h w : Z) (d : Np.dtype) (a : Np.ndarray) :
  Np.zeros n h w d = Return a -> Np.well_typed a.
Proof.
  unfold Np.zeros. destruct (_ || _); [discriminate|]. intros Ha. injection Ha as <-.
  unfold Np.well_typed. cbn [Np.nd_data Np.nd_dtype].
  apply List.Forall_forall. intros band Hband. apply repeat_spec in Hband. subst band.
  apply List.Forall_forall. intros r Hr. apply repeat_spec in Hr. subst r.
  apply List.Forall_forall. intros s Hs. apply repeat_spec in Hs. subst s.
  unfold Np.sample_of, Np.zero_of. destruct d; reflexivity.
Qed.

Lemma reproject_tile_typed (self : Tiles) (win : Rio.Window) (t : Rio.Affine)
    (raw : Np.ndarray) :
  Contract.reproject_samples ->
  _reproject_tile_data self win t = Return raw -> Np.well_typed raw.
Proof.
  intros Hwarp Hrun. unfold _reproject_tile_data in Hrun.
  apply outcome_bind_return in Hrun as (dst & Hdst & Hrun).
  apply outcome_bind_return in Hrun as ([out t'] & Hout & Hrun).
  injection Hrun as <-. simpl.
  exact (Hwarp _ _ _ _ _ _ _ _ _ _ (zeros_well_typed _ _ _ _ _ Hdst) Hout).
Qed.

(** C7.  For an instance made by the constructor, with a dataset whose
    [read] returns as many bands as asked and a [reproject] that returns
    its destination's bands and keeps samples within their type, every
    tile the stream yields holds 8-bit unsigned samples, whatever the
    sample type of the source: its array has the type [uint8] and every
    sample of it is an integer between 0 and 255; and it has
    [min(source_bands, 3) + 1] channels. *)
Theorem emitted_tile_samples_and_channels (image : object) (zs px rs : pyobj)
    (w0 w0' : World) (self : Tiles) (g g' : generator) (w w' : World) (tile : _Tile) :
  __init__ image zs px rs w0 = (Return self, w0') ->
  Contract.read_shape (img self) ->
  Contract.reproject_shape ->
  Contract.reproject_samples ->
  next self g w = (Return (Some tile), g', w') ->
  Np.nd_dtype (data tile) = Np.UInt8 /\
  Forall (Forall (Forall (fun s => exists n, s = Np.SInt n /\ 0 <= n <= 255)))
         (Np.nd_data (data tile)) /\
  Z.of_nat (length (Np.nd_data (data tile))) = Z.min (Rio.count (img self)) 3 + 1.
Proof.
  intros Hinit Hread Hwarp Htyped Hnext.
  apply init_inv in Hinit
    as (d & p & name & code & _ & _ & _ & _ & _ & _ & _ & _ & Himg & _ & _ & _ & Hbands
        & _).
  rewrite Himg, <- Hbands.
  apply next_tile in Hnext as (zoom & col & row & dims & Hbuild).
  apply build_tile_inv in Hbuild
    as (fc & fr & af & win & raw & _ & _ & _ & _ & Hraw & Hfinal & _).
  assert (Hn : Z.of_nat (length (Np.nd_data raw)) = _tile_bands self + 1).
  { destruct (_img_is_3857 self);
      [exact (read_tile_bands _ _ _ Hread Hraw)
      | exact (reproject_tile_bands _ _ _ _ Hwarp Hraw)]. }
  assert (Hwt : Np.well_typed raw).
  { destruct (_img_is_3857 self);
      [exact (read_tile_typed _ _ _ Hraw)
      | exact (reproject_tile_typed _ _ _ _ Htyped Hraw)]. }
  assert (Hout : Np.nd_dtype (data tile) = Np.UInt8 /\ Np.well_typed (data tile) /\
                 length (Np.nd_data (data tile)) = length (Np.nd_data raw)).
  { destruct (bool_decide (Np.nd_dtype raw = Np.UInt8)) eqn:Hdt; simpl in Hfinal.
    - injection Hfinal as <-. apply bool_decide_eq_true in Hdt. auto.
    - pose proof (array_to_uint8_typed _ _ _ Hfinal) as Hty.
      apply array_to_uint8_bands in Hfinal as [Hd Hlen]. auto. }
  destruct Hout as (Hd & Hty & Hlen). split; [exact Hd|]. split; [|rewrite Hlen; exact Hn].
  unfold Np.well_typed in Hty. rewrite Hd in Hty.
  eapply List.Forall_impl; [|exact Hty]. intros band Hband.
  eapply List.Forall_impl; [|exact Hband]. intros r Hr.
  eapply List.Forall_impl; [|exact Hr]. intros s Hs. apply sample_of_uint8. exact Hs.
Qed.

End Emitted.

Section EmittedExamples.
Local Existing Instances Double.platform Double.rasterio Double.warp.

Lemma double_read_shape (b : Rio.BoundingBox) (bands : Z) (d : Np.dtype)
    (value : Np.scalar) (lo hi : float) :
  Contract.read_shape (Double.dataset b bands d value lo hi).
Proof.
  intros n h w win r ma. simpl.
  destruct (_ || _) eqn:Hneg; [discriminate|]. intros Hma. injection Hma as <-.
  cbn [Np.nd_data Np.ma_array]. rewrite repeat_length.
  apply orb_false_iff in Hneg as [Hneg _]. apply orb_false_iff in Hneg as [Hneg _].
  lia.
Qed.

Lemma double_reproject_shape : Contract.reproject_shape.
Proof.
  intros src dst st sc dt dc alpha r out t. simpl. intros Hrun.
  injection Hrun as <- _. reflexivity.
Qed.

Lemma double_reproject_samples : Contract.reproject_samples.
Proof.
  intros src dst st sc dt dc alpha r out t Hdst. simpl. intros Hrun.
  injection Hrun as <- _. exact Hdst.
Qed.

(** C7, witness: the first tile of the 16-bit, three-band image holds
    8-bit samples in four channels. *)
Lemma emitted_tile_samples_and_channels_witness :
  let self := Double.instance Double.quarter_image [0] in
  exists tile g' w',
    next self (tiles self) Double.empty_world = (Return (Some tile), g', w') /\
    Rio.dtypes (img self) = [Np.UInt16; Np.UInt16; Np.UInt16] /\
    Np.nd_dtype (data tile) = Np.UInt8 /\
    Forall (Forall (Forall (fun s => exists n, s = Np.SInt n /\ 0 <= n <= 255)))
           (Np.nd_data (data tile)) /\
    Z.of_nat (length (Np.nd_data (data tile))) = 4.
Proof.
  intros self.
  assert (Hinit : __init__ (Dataset Double.quarter_image) (PyList (List.map PyInt [0]))
                    (PyInt 256) (PyStr "nearest") Double.empty_world
                  = (Return self, Double.constructed_world Double.quarter_image [0]))
    by reflexivity.
  assert (Hobs : match fst (fst (next self (tiles self) Double.empty_world)) with
                 | Return (Some _) => true
                 | _ => false
                 end = true) by (lazy; reflexivity).
  destruct (next self (tiles self) Double.empty_world) as [[r g'] w'] eqn:Hnext.
  destruct r as [[tile|]|e]; try discriminate Hobs.
  destruct (emitted_tile_samples_and_channels _ _ _ _ _ _ _ _ _ _ _ _
              Hinit (double_read_shape _ _ _ _ _ _) double_reproject_shape
              double_reproject_samples Hnext)
    as (Hd & Hsamples & Hlen).
  exists tile, g', w'. split; [reflexivity|]. split; [reflexivity|].
  split; [exact Hd|]. split; [exact Hsamples | exact Hlen].
Defined.

End EmittedExamples.

(** * Further properties *)

(** ** Comparisons of floats, [max] and [min] *)

Lemma compare_cont_eq (a b : positive) :
  PosDef.Pos.compare_cont Eq a b = (a ?= b)%positive.
Proof. reflexivity. Qed.

Lemma flt_irrefl (x : float) : flt x x = false.
Proof.
  unfold flt, SFltb, SFcompare.
  destruct x as [s|s| |s m e]; try destruct s; try reflexivity;
    rewrite Z.compare_refl, compare_cont_eq, Pos.compare_refl; reflexivity.
Qed.

Lemma flt_trans (x y z : float) : flt x y = true -> flt y z = true -> flt x z = true.
Proof.
  unfold flt, SFltb, SFcompare.
  destruct x as [sx|sx| |sx mx ex], y as [sy|sy| |sy my ey], z as [sz|sz| |sz mz ez];
    try destruct sx; try destruct sy; try destruct sz; simpl;
    try discriminate; try reflexivity;
    destruct (Z.compare_spec ex ey), (Z.compare_spec ey ez), (Z.compare_spec ex ez);
    try discriminate; try reflexivity; try lia; simpl;
    repeat match goal with
           | |- context [PosDef.Pos.compare_cont Eq ?a ?b] =>
               change (PosDef.Pos.compare_cont Eq a b) with (Pos.compare a b);
               destruct (Pos.compare_spec a b)
           end; simpl; try discriminate; try reflexivity; try lia.
Qed.

(** [max] returns an element that no element exceeds. *)
Lemma py_max_spec (xs : list float) (m : float) :
  py_max xs = Return m -> In m xs /\ forall x, In x xs -> flt m x = false.
Proof.
  destruct xs as [|x0 xs]; [discriminate|]. simpl. intros Hm. injection Hm as <-.
  assert (Hgen : forall ys acc,
             In (fold_left (fun m y => if flt m y then y else m) ys acc) (acc :: ys) /\
             (forall seen, (forall x, In x seen -> flt acc x = false) ->
                forall x, In x (seen ++ ys) ->
                  flt (fold_left (fun m y => if flt m y then y else m) ys acc) x = false)).
  { induction ys as [|y ys IH]; intros acc; simpl.
    - split; [auto|]. intros seen Hseen x Hx. rewrite app_nil_r in Hx. auto.
    - destruct (IH (if flt acc y then y else acc)) as [Hin Hle]. split.
      + destruct Hin as [Hin|Hin]; [|auto].
        destruct (flt acc y); [right; left; exact Hin | left; exact Hin].
      + intros seen Hseen x Hx.
        apply (Hle (seen ++ [y])); [|rewrite <- app_assoc; exact Hx].
        intros x' Hx'. apply in_app_iff in Hx' as [Hx'|[<-|[]]].
        * destruct (flt acc y) eqn:Hay; [|auto].
          apply not_true_is_false. intros Hyx.
          pose proof (flt_trans _ _ _ Hay Hyx) as Hc. rewrite (Hseen _ Hx') in Hc.
          discriminate.
        * destruct (flt acc y) eqn:Hay; [apply flt_irrefl | exact Hay]. }
  destruct (Hgen xs x0) as [Hin Hle]. split; [exact Hin|].
  intros x Hx. apply (Hle [x0]); [|exact Hx].
  intros x' [<-|[]]. apply flt_irrefl.
Qed.

Lemma py_min_spec (xs : list float) (m : float) :
  py_min xs = Return m -> In m xs /\ forall x, In x xs -> flt x m = false.
Proof.
  destruct xs as [|x0 xs]; [discriminate|]. simpl. intros Hm. injection Hm as <-.
  assert (Hgen : forall ys acc,
             In (fold_left (fun m y => if flt y m then y else m) ys acc) (acc :: ys) /\
             (forall seen, (forall x, In x seen -> flt x acc = false) ->
                forall x, In x (seen ++ ys) ->
                  flt x (fold_left (fun m y => if flt y m then y else m) ys acc) = false)).
  { induction ys as [|y ys IH]; intros acc; simpl.
    - split; [auto|]. intros seen Hseen x Hx. rewrite app_nil_r in Hx. auto.
    - destruct (IH (if flt y acc then y else acc)) as [Hin Hle]. split.
      + destruct Hin as [Hin|Hin]; [|auto].
        destruct (flt y acc); [right; left; exact Hin | left; exact Hin].
      + intros seen Hseen x Hx.
        apply (Hle (seen ++ [y])); [|rewrite <- app_assoc; exact Hx].
        intros x' Hx'. apply in_app_iff in Hx' as [Hx'|[<-|[]]].
        * destruct (flt y acc) eqn:Hay; [|auto].
          apply not_true_is_false. intros Hyx.
          pose proof (flt_trans _ _ _ Hyx Hay) as Hc. rewrite (Hseen _ Hx') in Hc.
          discriminate.
        * destruct (flt y acc) eqn:Hay; [apply flt_irrefl | exact Hay]. }
  destruct (Hgen xs x0) as [Hin Hle]. split; [exact Hin|].
  intros x Hx. apply (Hle [x0]); [|exact Hx].
  intros x' [<-|[]]. apply flt_irrefl.
Qed.

Lemma map_outcome_spec {A B} (f : A -> outcome B) (xs : list A) (ys : list B) :
  map_outcome f xs = Return ys -> Forall2 (fun x y => f x = Return y) xs ys.
Proof.
  revert ys. induction xs as [|x xs IH]; intros ys Hrun; simpl in Hrun.
  - injection Hrun as <-. constructor.
  - destruct (f x) as [y|e] eqn:Hx; [|discriminate]. cbn [mbind outcome_bind] in Hrun.
    destruct (map_outcome f xs) as [ys'|e]; [|discriminate].
    cbn [mbind outcome_bind] in Hrun. injection Hrun as <-.
    constructor; [exact Hx | apply IH; reflexivity].
Qed.

Lemma Forall2_in_r {A B} (P : A -> B -> Prop) (xs : list A) (ys : list B) (y : B) :
  Forall2 P xs ys -> In y ys -> exists x, In x xs /\ P x y.
Proof.
  induction 1 as [|x y' xs ys Hxy _ IH]; intros Hin; [destruct Hin|].
  destruct Hin as [<-|Hin].
  - exists x. split; [left; reflexivity | exact Hxy].
  - destruct (IH Hin) as (x' & Hx' & HP). exists x'. split; [right; exact Hx' | exact HP].
Qed.

Lemma Forall2_in_l {A B} (P : A -> B -> Prop) (xs : list A) (ys : list B) (x : A) :
  Forall2 P xs ys -> In x xs -> exists y, In y ys /\ P x y.
Proof.
  induction 1 as [|x' y xs ys Hxy _ IH]; intros Hin; [destruct Hin|].
  destruct Hin as [<-|Hin].
  - exists y. split; [left; reflexivity | exact Hxy].
  - destruct (IH Hin) as (y' & Hy' & HP). exists y'. split; [right; exact Hy' | exact HP].
Qed.

(** ** The statistics of the image *)

Section Statistics.
Context {RR : Rio.Rasterio}.

(** X5.  When [_get_image_statistics] returns, there is at least one
    band to tile; the maximum it returns is the maximum of one of the
    bands [1..bands] and the minimum the minimum of one of them; and no
    band among them has a maximum above the first or a minimum below the
    second, by the comparisons [>] and [<] of Python. *)
Theorem image_statistics_bound (img : Rio.DatasetReader) (bands : Z)
    (img_max img_min : float) :
  _get_image_statistics img bands = Return (img_max, img_min) ->
  0 < bands /\
  (exists b s, 1 <= b <= bands /\
     Rio.statistics img b = Return s /\ Rio.st_max s = img_max) /\
  (exists b s, 1 <= b <= bands /\
     Rio.statistics img b = Return s /\ Rio.st_min s = img_min) /\
  forall b, 1 <= b <= bands ->
    exists s, Rio.statistics img b = Return s /\
      flt img_max (Rio.st_max s) = false /\ flt (Rio.st_min s) img_min = false.
Proof.
  unfold _get_image_statistics. intros Hrun.
  destruct (map_outcome (Rio.statistics img) (range 1 (bands + 1))) as [stats|e] eqn:Hst;
    [|discriminate].
  cbn [mbind outcome_bind] in Hrun.
  destruct (py_max (List.map Rio.st_max stats)) as [mx|e] eqn:Hmax; [|discriminate].
  cbn [mbind outcome_bind] in Hrun.
  destruct (py_min (List.map Rio.st_min stats)) as [mn|e] eqn:Hmin; [|discriminate].
  cbn [mbind outcome_bind] in Hrun. injection Hrun as <- <-.
  apply map_outcome_spec in Hst.
  pose proof (py_max_spec _ _ Hmax) as [Hmax_in Hmax_le].
  pose proof (py_min_spec _ _ Hmin) as [Hmin_in Hmin_le].
  assert (Hback : forall s, In s stats ->
            exists b, 1 <= b <= bands /\ Rio.statistics img b = Return s).
  { intros s Hs. destruct (Forall2_in_r _ _ _ _ Hst Hs) as (b & Hb & Hbs).
    apply in_range in Hb. exists b. split; [lia | exact Hbs]. }
  split; [|split; [|split]].
  - apply in_map_iff in Hmax_in as (s & _ & Hs).
    destruct (Hback _ Hs) as (b & Hb & _). lia.
  - apply in_map_iff in Hmax_in as (s & Heq & Hs).
    destruct (Hback _ Hs) as (b & Hb & Hbs). exists b, s. auto.
  - apply in_map_iff in Hmin_in as (s & Heq & Hs).
    destruct (Hback _ Hs) as (b & Hb & Hbs). exists b, s. auto.
  - intros b Hb.
    assert (Hin : In b (range 1 (bands + 1))) by (apply in_range; lia).
    destruct (Forall2_in_l _ _ _ _ Hst Hin) as (s & Hs & Hbs).
    exists s. split; [exact Hbs|]. split.
    + apply Hmax_le. apply in_map. exact Hs.
    + apply Hmin_le. apply in_map. exact Hs.
Qed.

End Statistics.

Section StatisticsExamples.
Local Existing Instances Double.platform Double.rasterio Double.warp.

(** X5, witness: the three bands of the 16-bit image have the
    statistics 0 and 4. *)
Lemma image_statistics_bound_witness :
  _get_image_statistics Double.quarter_image 3 = Return (Double.f64 4, Double.f64 0) /\
  forall b, 1 <= b <= 3 ->
    exists s, Rio.statistics Double.quarter_image b = Return s /\
      flt (Double.f64 4) (Rio.st_max s) = false /\
      flt (Rio.st_min s) (Double.f64 0) = false.
Proof.
  assert (Hrun : _get_image_statistics Double.quarter_image 3
                 = Return (Double.f64 4, Double.f64 0)) by (vm_compute; reflexivity).
  split; [exact Hrun|].
  exact (proj2 (proj2 (proj2 (image_statistics_bound _ _ _ _ Hrun)))).
Defined.

End StatisticsExamples.

(** ** The constructor and the planner, and the world *)

Section Effects.
Context {PL : Np.Platform} {RR : Rio.Rasterio} {RW : @Rio.Warp RR}.

Lemma init_effect (image : object) (zs px rs : pyobj) (w w' : World)
    (r : outcome Tiles) :
  __init__ image zs px rs w = (r, w') ->
  filesystem w' = filesystem w /\
  exists c1 c2 dt,
    w' = warned c2 (SourceDtypeWarning dt) (warned c1 SourceCRSWarning w).
Proof.
  unfold __init__, mbind, M_bind, mret, M_ret, raise, lift. intros Hrun.
  repeat (let E := fresh "E" in
          match type of Hrun with
          | context [let '(_, _) := ?o in _] => is_var o; destruct o
          | context [match ?o with Return _ => _ | Raise _ => _ end] =>
              destruct o eqn:E
          | context [match ?o with Some _ => _ | None => _ end] =>
              destruct o eqn:E
          | context [match ?o with Value _ => _ | _ => _ end] => destruct o eqn:E
          | context [match ?o with PyInt _ => _ | _ => _ end] => destruct o eqn:E
          | context [match ?o with PyStr _ => _ | _ => _ end] => destruct o eqn:E
          | context [if ?b then _ else _] => destruct b eqn:E
          end; cbn [warn negb] in Hrun).
  all: injection Hrun as <- <-.
  all: split; [reflexivity|].
  all: first [ exists false, false, Np.UInt8; reflexivity
             | exists true, false, Np.UInt8; reflexivity
             | eexists false, true, _; reflexivity
             | eexists true, true, _; reflexivity ].
Qed.

Lemma build_zoom_effect (self : Tiles) (z : Z) (w w' : World) (r : outcome _Zoom) :
  _build_zoom self z w = (r, w') ->
  filesystem w' = filesystem w /\
  (w' = w \/ w' = warned true (TileResolutionWarning z) w) /\
  forall zp, r = Return zp ->
    exists fp, float_of_int (pixels self) = Return fp /\
      w' = warned (flt (fdiv_raw (tile_dims zp) fp)
                       (Rio.af_a (ip_transform (_img_properties self))))
                  (TileResolutionWarning z) w.
Proof.
  unfold _build_zoom, mbind, M_bind, mret, M_ret, lift. intros Hrun.
  repeat (let E := fresh "E" in
          match type of Hrun with
          | context [match ?o with Return _ => _ | Raise _ => _ end] =>
              destruct o eqn:E
          | context [if ?b then _ else _] => destruct b eqn:E
          end; cbn [warn] in Hrun).
  all: injection Hrun as <- <-.
  all: split; [reflexivity|]; split; [auto|].
  all: intros zp Hzp; try discriminate.
  all: injection Hzp as <-; cbn [tile_dims].
  all: exists a3; split; [reflexivity|].
  all: unfold truediv in E4; destruct (IEEE.is_zero a3); [discriminate|].
  all: injection E4 as <-; injection E5 as <-.
  all: rewrite E14; reflexivity.
Qed.

(** X1.  For a dataset with a coordinate reference system, a sequence
    of integers between 0 and 25, 256 or 512 pixels and the name of a
    resampling method, the constructor returns, provided the Mercator
    properties, the first sample type and, for a source that is not
    8-bit, the statistics can be computed.  The instance holds the
    arguments, the code of the method, at most three bands to tile, and
    the statistics only for a source that is not 8-bit; the generator
    is not started.  A warning on the reference system is issued when it
    is not EPSG:3857, then one on the sample type when it is not 8-bit,
    and nothing else changes. *)
Theorem init_returns (d : Rio.DatasetReader) (c : Rio.CRS) (zs : pyobj) (p : Z)
    (name : string) (code : Z) (props : _ImageProperties) (dt : Np.dtype)
    (stats : option (float * float)) (w : World) :
  Rio.crs d = Some c ->
  is_sequence zs = true ->
  forallb is_int (seq_items zs) = true ->
  forallb (fun z => (int_value z <=? 25) && (int_value z >=? 0)) (seq_items zs) = true ->
  p = 256 \/ p = 512 ->
  dict_get _valid_resampling name = Some code ->
  _get_mercator_properties d (Rio.crs_eq_epsg c 3857) = Return props ->
  Np.first_item (Rio.dtypes d) = Return dt ->
  (if bool_decide (dt = Np.UInt8) then stats = None
   else exists pair, stats = Some pair /\
          _get_image_statistics d (if Rio.count d <=? 3 then Rio.count d else 3)
            = Return pair) ->
  __init__ (Dataset d) zs (PyInt p) (PyStr name) w =
    (Return {| img := d; zooms := zs; pixels := p; resampling := code;
               _img_dtype := dt; _img_is_3857 := Rio.crs_eq_epsg c 3857;
               _img_properties := props;
               _tile_bands := if Rio.count d <=? 3 then Rio.count d else 3;
               _img_max := fst <$> stats; _img_min := snd <$> stats;
               tiles := GenCreated |},
     warned (negb (bool_decide (dt = Np.UInt8))) (SourceDtypeWarning dt)
       (warned (negb (Rio.crs_eq_epsg c 3857)) SourceCRSWarning w)).
Proof.
  intros Hcrs Hseq Hints Hrange Hp Hname Hprops Hdt Hstats.
  unfold __init__, mbind, M_bind, mret, M_ret, raise, lift.
  rewrite Hcrs, Hseq, Hints, Hrange. cbn [negb].
  replace ((p =? 256) || (p =? 512)) with true
    by (symmetry; apply orb_true_iff; lia).
  rewrite Hname, Hprops, Hdt.
  destruct (Rio.crs_eq_epsg c 3857); cbn [negb warn warned];
    destruct (bool_decide (dt = Np.UInt8)) eqn:Hd; cbn [negb warned].
  all: try (subst stats; reflexivity).
  all: destruct Hstats as ([mx mn] & -> & Hget); unfold warn; rewrite Hget; reflexivity.
Qed.

(** X2.  A zoom level below 0 or above 25 among integer zoom levels
    makes the constructor raise [ValueError], whatever the pixel size
    and the resampling method are, before any warning is issued. *)
Theorem init_rejects_zoom (d : Rio.DatasetReader) (c : Rio.CRS) (zs px rs : pyobj)
    (z : Z) (w : World) :
  Rio.crs d = Some c ->
  is_sequence zs = true ->
  forallb is_int (seq_items zs) = true ->
  In (PyInt z) (seq_items zs) ->
  z < 0 \/ 25 < z ->
  __init__ (Dataset d) zs px rs w = (Raise ValueError, w).
Proof.
  intros Hcrs Hseq Hints Hin Hz.
  assert (Hrange : forallb (fun z => (int_value z <=? 25) && (int_value z >=? 0))
                           (seq_items zs) = false).
  { apply not_true_is_false. intros Hall. rewrite forallb_forall in Hall.
    specialize (Hall _ Hin). simpl in Hall. lia. }
  unfold __init__, mbind, M_bind, mret, M_ret, raise, lift.
  rewrite Hcrs, Hseq, Hints, Hrange. reflexivity.
Qed.

(** X3.  Whether it returns or raises, the constructor leaves the file
    system as it is, and the only warnings it can issue are one on the
    reference system of the source and then one on its sample type. *)
Theorem init_leaves_files (image : object) (zs px rs : pyobj) (w : World) :
  filesystem (snd (__init__ image zs px rs w)) = filesystem w /\
  exists c1 c2 dt,
    snd (__init__ image zs px rs w)
      = warned c2 (SourceDtypeWarning dt) (warned c1 SourceCRSWarning w).
Proof.
  destruct (__init__ image zs px rs w) as [r w'] eqn:Hrun.
  exact (init_effect _ _ _ _ _ _ _ Hrun).
Qed.

(** X4.  Planning a zoom level leaves the file system as it is and
    issues at most one warning, on the resolution at that level.  When
    the plan is returned, the warning is issued exactly when the size of
    a tile divided by the number of pixels is below the first
    coefficient of the transform of the image. *)
Theorem build_zoom_warns_when_finer (self : Tiles) (z : Z) (w : World) :
  filesystem (snd (_build_zoom self z w)) = filesystem w /\
  (snd (_build_zoom self z w) = w \/
   snd (_build_zoom self z w) = warned true (TileResolutionWarning z) w) /\
  forall zp, fst (_build_zoom self z w) = Return zp ->
    exists fp, float_of_int (pixels self) = Return fp /\
      snd (_build_zoom self z w)
        = warned (flt (fdiv_raw (tile_dims zp) fp)
                      (Rio.af_a (ip_transform (_img_properties self))))
                 (TileResolutionWarning z) w.
Proof.
  destruct (_build_zoom self z w) as [r w'] eqn:Hrun.
  exact (build_zoom_effect _ _ _ _ _ Hrun).
Qed.

End Effects.

Section EffectsExamples.
Local Existing Instances Double.platform Double.rasterio Double.warp.

(** X1, witness: the 16-bit image, in EPSG:3857, gives the warning on
    the sample type alone and the statistics 4 and 0. *)
Lemma init_returns_witness :
  exists self w',
    __init__ (Dataset Double.quarter_image) (PyList [PyInt 0; PyInt 25]) (PyInt 512)
      (PyStr "cubic") Double.empty_world = (Return self, w') /\
    warnings w' = [SourceDtypeWarning Np.UInt16] /\
    resampling self = 2 /\ _tile_bands self = 3 /\
    _img_max self = Some (Double.f64 4) /\ _img_min self = Some (Double.f64 0).
Proof.
  eexists. eexists. split.
  - eapply (init_returns Double.quarter_image 3857 (PyList [PyInt 0; PyInt 25]) 512
             "cubic" 2 _ Np.UInt16 (Some (Double.f64 4, Double.f64 0)));
      try reflexivity.
    + right. reflexivity.
    + simpl. eexists. split; [reflexivity | vm_compute; reflexivity].
  - repeat split; reflexivity.
Defined.

(** X2, witness: zoom level 26, with a pixel size and a method that are
    not valid either. *)
Lemma init_rejects_zoom_witness :
  __init__ (Dataset (Double.byte_image Double.fixture_bounds))
    (PyTuple [PyInt 3; PyInt 26]) (PyInt 100) PyNone Double.empty_world
  = (Raise ValueError, Double.empty_world).
Proof.
  apply (init_rejects_zoom (Double.byte_image Double.fixture_bounds) 3857
           (PyTuple [PyInt 3; PyInt 26]) (PyInt 100) PyNone 26);
    try reflexivity.
  - right. left. reflexivity.
  - right. lia.
Defined.

End EffectsExamples.

(** ** The states of the generator *)

Section Generator.
Context {PL : Np.Platform} {RR : Rio.Rasterio} {RW : @Rio.Warp RR}.

Lemma build_tile_fields (self : Tiles) (z c r : Z) (dims : float) (tile : _Tile) :
  _build_tile self z c r dims = Return tile ->
  zoom tile = z /\ column tile = c /\ row tile = r.
Proof.
  intros Hrun. apply build_tile_inv in Hrun
    as (fc & fr & af & win & raw & _ & _ & _ & _ & _ & _ & ->).
  auto.
Qed.

Lemma resume_zooms_within (self : Tiles) (zs : list Z) :
  forall (before : list Z) (w w' : World) (r : outcome (option _Tile)) (g : generator),
    List.map int_value (seq_items (zooms self)) = before ++ zs ->
    resume_zooms self zs w = (r, g, w') ->
    within_plan self g /\ forall tile, r = Return (Some tile) -> in_plan self tile.
Proof.
  induction zs as [|z zs IH]; intros before w w' r g Hconf Hrun; simpl in Hrun.
  - injection Hrun as <- <- <-. split; [exact I | discriminate].
  - destruct (_build_zoom self z w) as [[zp|e] w1] eqn:Hzoom.
    + destruct (tile_indices zp) as [|[c r0] rest] eqn:Hidx.
      * apply (IH (before ++ [z]) w1 w' r g); [|exact Hrun].
        rewrite <- app_assoc. exact Hconf.
      * destruct (_build_tile self z c r0 (tile_dims zp)) as [tile|e] eqn:Htile.
        -- injection Hrun as <- <- <-. split.
           ++ split; [exists before; exact Hconf|].
              exists w, w1, zp, [(c, r0)]. auto.
           ++ intros t Ht. injection Ht as <-.
              destruct (build_tile_fields _ _ _ _ _ _ Htile) as (Hz & Hc & Hr).
              split.
              ** rewrite Hz, Hconf. apply in_or_app. right. left. reflexivity.
              ** exists w, w1, zp. rewrite Hz, Hc, Hr, Hidx.
                 split; [exact Hzoom|]. split; [left; reflexivity | exact Htile].
        -- injection Hrun as <- <- <-. split; [exact I | discriminate].
    + injection Hrun as <- <- <-. split; [exact I | discriminate].
Qed.

Lemma next_within (self : Tiles) (g g' : generator) (w w' : World)
    (r : outcome (option _Tile)) :
  within_plan self g ->
  next self g w = (r, g', w') ->
  within_plan self g' /\ forall tile, r = Return (Some tile) -> in_plan self tile.
Proof.
  intros Hg Hrun. destruct g as [|zs z dims indices|]; simpl in Hrun.
  - exact (resume_zooms_within self _ [] _ _ _ _ eq_refl Hrun).
  - destruct Hg as [[before Hconf] (w0 & w1 & zp & done & Hzoom & -> & Hidx)].
    destruct indices as [|[c r0] rest].
    + apply (resume_zooms_within self zs (before ++ [z]) w w' r g'); [|exact Hrun].
      rewrite <- app_assoc. exact Hconf.
    + destruct (_build_tile self z c r0 (tile_dims zp)) as [tile|e] eqn:Htile.
      * injection Hrun as <- <- <-. split.
        -- split; [exists before; exact Hconf|].
           exists w0, w1, zp, (done ++ [(c, r0)]).
           rewrite <- app_assoc. auto.
        -- intros t Ht. injection Ht as <-.
           destruct (build_tile_fields _ _ _ _ _ _ Htile) as (Hz & Hc & Hr).
           split.
           ++ rewrite Hz, Hconf. apply in_or_app. right. left. reflexivity.
           ++ exists w0, w1, zp. rewrite Hz, Hc, Hr, Hidx.
              split; [exact Hzoom|]. split; [|exact Htile].
              apply in_or_app. right. left. reflexivity.
      * injection Hrun as <- <- <-. split; [exact I | discriminate].
  - injection Hrun as <- <- <-. split; [exact I | discriminate].
Qed.

Lemma reachable_within (self : Tiles) (g : generator) :
  reachable self g -> within_plan self g.
Proof.
  induction 1 as [|g g' w w' r _ IH Hnext]; [exact I|].
  exact (proj1 (next_within _ _ _ _ _ _ IH Hnext)).
Qed.

(** X6.  Whatever calls of [next] came before, a tile the generator
    yields is a tile of the plan: its zoom level is one of the
    configured ones, its column and row are a pair of the indices
    [_build_zoom] gives for that level, and it is what [_build_tile]
    returns for them with the tile size of the level. *)
Theorem yielded_tile_is_planned (self : Tiles) (g g' : generator) (w w' : World)
    (tile : _Tile) :
  reachable self g ->
  next self g w = (Return (Some tile), g', w') ->
  In (zoom tile) (List.map int_value (seq_items (zooms self))) /\
  exists w0 w1 zp,
    _build_zoom self (zoom tile) w0 = (Return zp, w1) /\
    In (column tile, row tile) (tile_indices zp) /\
    _build_tile self (zoom tile) (column tile) (row tile) (tile_dims zp) = Return tile.
Proof.
  intros Hreach Hnext.
  exact (proj2 (next_within _ _ _ _ _ _ (reachable_within _ _ Hreach) Hnext) _ eq_refl).
Qed.

Lemma resume_zooms_raise (self : Tiles) (zs : list Z) :
  forall (w w' : World) (e : exn) (g : generator),
    resume_zooms self zs w = (Raise e, g, w') -> g = GenFinished.
Proof.
  induction zs as [|z zs IH]; intros w w' e g Hrun; simpl in Hrun; [discriminate|].
  destruct (_build_zoom self z w) as [[zp|e'] w1].
  - destruct (tile_indices zp) as [|[c r0] rest]; [exact (IH _ _ _ _ Hrun)|].
    destruct (_build_tile self z c r0 (tile_dims zp)); [discriminate|].
    injection Hrun as _ <- _. reflexivity.
  - injection Hrun as _ <- _. reflexivity.
Qed.

(** X7.  An exception that [next] raises, from planning a zoom level
    or from building a tile, ends the generator: every later [next]
    reports the end of the iteration and changes nothing, so the tiles
    that were still to come are not produced. *)
Theorem exception_ends_stream (self : Tiles) (g g' : generator) (w w' : World)
    (e : exn) :
  next self g w = (Raise e, g', w') ->
  g' = GenFinished /\
  forall w2, next self g' w2 = (Return None, GenFinished, w2).
Proof.
  intros Hrun.
  assert (Hfin : g' = GenFinished).
  { destruct g as [|zs z dims [|[c r0] rest]|]; simpl in Hrun.
    - exact (resume_zooms_raise _ _ _ _ _ _ Hrun).
    - exact (resume_zooms_raise _ _ _ _ _ _ Hrun).
    - destruct (_build_tile self z c r0 dims); [discriminate|].
      injection Hrun as _ <- _. reflexivity.
    - discriminate. }
  subst g'. split; [reflexivity|]. intros w2. reflexivity.
Qed.

End Generator.

Section GeneratorExamples.
Local Existing Instances Double.platform Double.rasterio Double.warp.

(** X6, witness: the second tile of zoom level 10 of the fixture. *)
Lemma yielded_tile_is_planned_witness :
  let self := Double.instance (Double.byte_image Double.fixture_bounds) [10] in
  exists g tile g' w',
    reachable self g /\
    next self g Double.empty_world = (Return (Some tile), g', w') /\
    (zoom tile, column tile, row tile) = (10, 505, 344) /\
    In (zoom tile) (List.map int_value (seq_items (zooms self))).
Proof.
  intros self.
  set (g1 := snd (fst (next self GenCreated Double.empty_world))).
  assert (Hreach : reachable self g1).
  { apply (reach_next self GenCreated g1 Double.empty_world
             (snd (next self GenCreated Double.empty_world))
             (fst (fst (next self GenCreated Double.empty_world))));
      [apply reach_created|].
    unfold g1. destruct (next self GenCreated Double.empty_world) as [[r1 g] w1].
    reflexivity. }
  assert (Hobs : match fst (fst (next self g1 Double.empty_world)) with
                 | Return (Some t) =>
                     bool_decide ((zoom t, column t, row t) = (10, 505, 344))
                 | _ => false
                 end = true) by (vm_compute; reflexivity).
  destruct (next self g1 Double.empty_world) as [[r g'] w'] eqn:Hnext.
  destruct r as [[tile|]|e]; try discriminate Hobs.
  apply bool_decide_eq_true in Hobs.
  exists g1, tile, g', w'. split; [exact Hreach|]. split; [exact Hnext|].
  split; [exact Hobs|].
  exact (proj1 (yielded_tile_is_planned _ _ _ _ _ _ Hreach Hnext)).
Defined.

(** An image of no width in EPSG:3857: its transform has a zero
    first coefficient. *)
Lemma exception_ends_stream_witness :
  let flat := Rio.MkBoundingBox (Double.f64 0) (Double.f64 0) (Double.f64 0) (Double.f64 9) in
  let self := Double.instance (Double.byte_image flat) [3; 4] in
  exists g' w',
    next self (tiles self) Double.empty_world = (Raise ZeroDivisionError, g', w') /\
    g' = GenFinished /\
    next self g' w' = (Return None, GenFinished, w').
Proof.
  intros flat self.
  assert (Hobs : match fst (fst (next self (tiles self) Double.empty_world)) with
                 | Raise ZeroDivisionError => true
                 | _ => false
                 end = true) by (vm_compute; reflexivity).
  destruct (next self (tiles self) Double.empty_world) as [[r g'] w'] eqn:Hnext.
  destruct r as [t|e]; try discriminate Hobs.
  destruct e; try discriminate Hobs.
  destruct (exception_ends_stream _ _ _ _ _ _ Hnext) as [Hfin Hlater].
  exists g', w'. split; [reflexivity|]. split; [exact Hfin | exact (Hlater w')].
Defined.

End GeneratorExamples.

(** ** What [write] does to the world *)

Section WriteFrame.
Context {PL : Np.Platform} {RR : Rio.Rasterio} {RW : @Rio.Warp RR}.

Lemma for_indices_invariant (self : Tiles) (body : _Tile -> M unit)
    (P : World -> Prop) (k : World -> loop_result) (zs : list Z) (z : Z)
    (dims : float) (indices : list (Z * Z)) :
  (forall c r0 tile w r w',
     _build_tile self z c r0 dims = Return tile -> body tile w = (r, w') -> P w -> P w') ->
  (forall w r g w', k w = (r, g, w') -> P w -> P w') ->
  forall w r g w',
    for_indices self body k zs z dims indices w = (r, g, w') -> P w -> P w'.
Proof.
  intros Hbody Hk.
  induction indices as [|[c r0] rest IH]; intros w r g w' Hrun HP; simpl in Hrun.
  - exact (Hk _ _ _ _ Hrun HP).
  - destruct (_build_tile self z c r0 dims) as [tile|e] eqn:Htile.
    + destruct (body tile w) as [[u|e] w1] eqn:Hb.
      * exact (IH _ _ _ _ Hrun (Hbody _ _ _ _ _ _ Htile Hb HP)).
      * injection Hrun as _ _ <-. exact (Hbody _ _ _ _ _ _ Htile Hb HP).
    + injection Hrun as _ _ <-. exact HP.
Qed.

Lemma for_zooms_invariant (self : Tiles) (body : _Tile -> M unit)
    (P : World -> Prop) (zs : list Z) :
  (forall z w r w', In z zs -> _build_zoom self z w = (r, w') -> P w -> P w') ->
  (forall z c r0 dims tile w r w',
     _build_tile self z c r0 dims = Return tile -> body tile w = (r, w') -> P w -> P w') ->
  forall w r g w', for_zooms self body zs w = (r, g, w') -> P w -> P w'.
Proof.
  intros Hzoom Hbody.
  induction zs as [|z zs IH]; intros w r g w' Hrun HP; simpl in Hrun.
  - injection Hrun as _ _ <-. exact HP.
  - destruct (_build_zoom self z w) as [[zp|e] w1] eqn:Hz.
    + apply (for_indices_invariant self body P _ _ _ _ _ (fun c r0 => Hbody z c r0 _)
               (IH (fun z' w r w' Hin => Hzoom z' w r w' (or_intror Hin)))
               _ _ _ _ Hrun).
      exact (Hzoom _ _ _ _ (or_introl eq_refl) Hz HP).
    + injection Hrun as _ _ <-. exact (Hzoom _ _ _ _ (or_introl eq_refl) Hz HP).
Qed.

Lemma for_each_invariant (self : Tiles) (body : _Tile -> M unit) (P : World -> Prop) :
  (forall z w r w', _build_zoom self z w = (r, w') -> P w -> P w') ->
  (forall z c r0 dims tile w r w',
     _build_tile self z c r0 dims = Return tile -> body tile w = (r, w') -> P w -> P w') ->
  forall g w r g' w', for_each self body g w = (r, g', w') -> P w -> P w'.
Proof.
  intros Hzoom Hbody g w r g' w' Hrun HP.
  destruct g as [|zs z dims indices|]; simpl in Hrun.
  - exact (for_zooms_invariant self body P _ (fun z w r w' _ => Hzoom z w r w') Hbody
             _ _ _ _ Hrun HP).
  - exact (for_indices_invariant self body P _ _ _ _ _ (fun c r0 => Hbody z c r0 _)
             (for_zooms_invariant self body P zs (fun z w r w' _ => Hzoom z w r w') Hbody)
             _ _ _ _ Hrun HP).
  - injection Hrun as _ _ <-. exact HP.
Qed.

(** The directories [mkdir] makes for a tile under an existing
    directory. *)
Lemma mkdir_tile_dir (out_dir : Fs.path) (a b : string) (s s' : Fs.fs) :
  Fs.is_dir out_dir s = true ->
  Fs.mkdir_parents (out_dir ++ [a; b]) s = Return s' ->
  forall q, q ∈ Fs.dirs s' ->
    q ∈ Fs.dirs s \/ q = out_dir ++ [a] \/ q = out_dir ++ [a; b].
Proof.
  intros Hout Hrun q Hq. unfold Fs.mkdir_parents in Hrun.
  replace (length (out_dir ++ [a; b])) with (S (S (length out_dir))) in Hrun
    by (rewrite length_app; simpl; lia).
  assert (Hparent : removelast (out_dir ++ [a; b]) = out_dir ++ [a]).
  { change [a; b] with ([a] ++ [b]). rewrite app_assoc. apply removelast_last. }
  cbn [Fs.mkdir_rec] in Hrun. rewrite Hparent, removelast_last, Hout in Hrun.
  destruct (Fs.is_dir (out_dir ++ [a; b]) s).
  { injection Hrun as <-. left. exact Hq. }
  destruct (Fs.is_file (out_dir ++ [a; b]) s); [discriminate|].
  destruct (Fs.is_dir (out_dir ++ [a]) s).
  { injection Hrun as <-. simpl in Hq. set_solver. }
  destruct (Fs.is_file (out_dir ++ [a]) s); [discriminate|].
  simpl in Hrun. injection Hrun as <-. simpl in Hq. set_solver.
Qed.

Lemma tiles_added_refl (self : Tiles) (out_dir : Fs.path) (driver : string) (s : Fs.fs) :
  tiles_added self out_dir driver s s.
Proof. unfold tiles_added. split_and!; auto. Qed.

Lemma write_tile_adds (self : Tiles) (out_dir : Fs.path) (driver : string)
    (s0 : Fs.fs) (z c r0 : Z) (dims : float) (tile : _Tile) (w w' : World)
    (r : outcome unit) :
  _build_tile self z c r0 dims = Return tile ->
  write_tile self out_dir driver tile w = (r, w') ->
  Fs.is_dir out_dir (filesystem w) = true /\ tiles_added self out_dir driver s0 (filesystem w) ->
  Fs.is_dir out_dir (filesystem w') = true /\ tiles_added self out_dir driver s0 (filesystem w').
Proof.
  intros Htile Hrun [Hout (Hdirs & Hnew & Hkept & Hfiles)].
  destruct (build_tile_fields _ _ _ _ _ _ Htile) as (Hz & Hc & Hr).
  unfold write_tile, mbind, M_bind, mkdir, lift in Hrun.
  destruct (Fs.mkdir_parents _ (filesystem w)) as [s1|e] eqn:Hmk.
  2:{ injection Hrun as _ <-. unfold tiles_added. auto. }
  pose proof (mkdir_tile_dir _ _ _ _ _ Hout Hmk) as Hmade.
  apply mkdir_rec_spec in Hmk as (_ & Hsame & Hsub & _ & _).
  assert (Hout1 : Fs.is_dir out_dir s1 = true).
  { unfold Fs.is_dir in *. apply orb_true_iff in Hout as [H|H]; apply orb_true_iff;
      [left; exact H | right].
    apply bool_decide_eq_true in H. apply bool_decide_eq_true. set_solver. }
  assert (Hadded1 : tiles_added self out_dir driver s0 s1).
  { unfold tiles_added. rewrite Hsame. split_and!; auto.
    - set_solver.
    - intros q Hq. destruct (Hmade q Hq) as [Hold|[->| ->]]; [auto| |].
      + right. exists (zoom tile), (column tile). left. reflexivity.
      + right. exists (zoom tile), (column tile). right. reflexivity. }
  cbn [filesystem warnings] in Hrun.
  destruct (Np.last_item (Np.nd_data (data tile))) as [alpha|e].
  2:{ injection Hrun as _ <-. auto. }
  destruct (feq (Np.mean alpha) (IEEE.of_Z IEEE.binary64 0)).
  { injection Hrun as _ <-. auto. }
  unfold write_dataset in Hrun. destruct (Rio.write_error _).
  { injection Hrun as _ <-. auto. }
  injection Hrun as _ <-. cbn [filesystem].
  destruct Hadded1 as (Hdirs1 & Hnew1 & Hkept1 & Hfiles1).
  split; [exact Hout1|]. unfold tiles_added, Fs.put_file. cbn [Fs.dirs Fs.files].
  split_and!; auto.
  - intros p Hp. destruct (decide (p = Fs.joinpath
                             (Fs.joinpath out_dir [str_of_int (zoom tile);
                                                   str_of_int (column tile)])
                             [str_of_int (row tile) +:+ "." +:+ driver])) as [->|Hne].
    + rewrite lookup_insert_eq. eauto.
    + rewrite lookup_insert_ne by congruence. auto.
  - intros p f Hp.
    destruct (decide (p = Fs.joinpath
                             (Fs.joinpath out_dir [str_of_int (zoom tile);
                                                   str_of_int (column tile)])
                             [str_of_int (row tile) +:+ "." +:+ driver])) as [->|Hne].
    + rewrite lookup_insert_eq in Hp. injection Hp as <-. right.
      exists tile, dims. rewrite Hz, Hc, Hr. split; [exact Htile|]. split; reflexivity.
    + rewrite lookup_insert_ne in Hp by congruence. auto.
Qed.

(** X8.  When the checks of [write] pass, whatever then happens (the
    loop running to its end or an exception stopping it), no directory
    and no file is removed; a new directory is [{out_dir}/{zoom}] or
    [{out_dir}/{zoom}/{column}]; and a file that is new, or whose
    content has changed, is [{out_dir}/{zoom}/{column}/{row}.{driver}]
    for a tile that [_build_tile] returned, and holds its data as an
    8-bit image of [pixels] by [pixels]. *)
Theorem write_only_adds_tiles (self : Tiles) (directory driver : pyobj)
    (out_dir : Fs.path) (drv : string) (w : World) :
  write_checks directory driver w = Return (out_dir, drv) ->
  let s := filesystem w in
  let s' := filesystem (snd (write self directory driver w)) in
  Fs.dirs s ⊆ Fs.dirs s' /\
  (forall q, q ∈ Fs.dirs s' ->
     q ∈ Fs.dirs s \/
     exists z c, q = Fs.joinpath out_dir [str_of_int z] \/ q = tile_dir out_dir z c) /\
  (forall p, is_Some (Fs.files s !! p) -> is_Some (Fs.files s' !! p)) /\
  (forall p f, Fs.files s' !! p = Some f ->
     Fs.files s !! p = Some f \/
     exists tile dims,
       _build_tile self (zoom tile) (column tile) (row tile) dims = Return tile /\
       p = tile_path out_dir drv (zoom tile) (column tile) (row tile) /\
       f = {| Fs.rf_driver := drv; Fs.rf_width := pixels self;
              Fs.rf_height := pixels self;
              Fs.rf_count := Z.of_nat (length (Np.nd_data (data tile)));
              Fs.rf_dtype := Np.UInt8; Fs.rf_data := data tile |}).
Proof.
  intros Hchecks s s'. subst s s'. unfold write. rewrite Hchecks.
  destruct (for_each self (write_tile self out_dir drv) (tiles self) w)
    as [[r g] w'] eqn:Hloop.
  cbn [snd].
  assert (Hout : Fs.is_dir out_dir (filesystem w) = true).
  { unfold write_checks in Hchecks.
    destruct driver; try discriminate. cbn [mbind outcome_bind] in Hchecks.
    destruct (negb (bool_decide _)); [discriminate|]. cbn [mbind outcome_bind] in Hchecks.
    destruct directory; try discriminate; cbn [mbind outcome_bind] in Hchecks.
    all: destruct (negb (Fs.exists_ _ _) || negb (Fs.is_dir _ _)) eqn:Hc; [discriminate|].
    all: injection Hchecks as <- _.
    all: apply orb_false_iff in Hc as [_ Hc]; apply negb_false_iff in Hc; exact Hc. }
  apply (for_each_invariant self (write_tile self out_dir drv)
           (fun w1 => Fs.is_dir out_dir (filesystem w1) = true /\
                      tiles_added self out_dir drv (filesystem w) (filesystem w1)))
    in Hloop.
  - exact (proj2 Hloop).
  - intros z w1 r1 w2 Hz. apply build_zoom_effect in Hz as [-> _]. auto.
  - intros z c r0 dims tile w1 r1 w2 Htile Hbody.
    exact (write_tile_adds _ _ _ _ _ _ _ _ _ _ _ _ Htile Hbody).
  - split; [exact Hout | apply tiles_added_refl].
Qed.

(** X9.  The only warnings [write] issues are warnings on the
    resolution of the zoom levels it plans, and on a zoom level among
    those the instance was made with when the generator is not yet
    started. *)
Theorem write_warns_on_resolution_only (self : Tiles) (directory driver : pyobj)
    (w : World) :
  exists zs,
    warnings (snd (write self directory driver w))
      = warnings w ++ List.map TileResolutionWarning zs /\
    (tiles self = GenCreated ->
     forall z, In z zs -> In z (List.map int_value (seq_items (zooms self)))).
Proof.
  unfold write. destruct (write_checks directory driver w) as [[out_dir drv]|e].
  2:{ exists []. rewrite app_nil_r. split; [reflexivity | intros _ z []]. }
  destruct (for_each self (write_tile self out_dir drv) (tiles self) w)
    as [[r g] w'] eqn:Hloop.
  cbn [snd].
  set (P := fun (ok : Z -> Prop) (w1 : World) =>
              exists zs, warnings w1 = warnings w ++ List.map TileResolutionWarning zs /\
                         forall z, In z zs -> ok z).
  assert (Hbody : forall ok z c r0 dims tile w1 r1 w2,
             _build_tile self z c r0 dims = Return tile ->
             write_tile self out_dir drv tile w1 = (r1, w2) -> P ok w1 -> P ok w2).
  { intros ok z c r0 dims tile w1 r1 w2 _ Hrun HP.
    enough (Hsame : warnings w2 = warnings w1) by (unfold P; rewrite Hsame; exact HP).
    unfold write_tile, mbind, M_bind, mkdir, lift in Hrun.
    destruct (Fs.mkdir_parents _ (filesystem w1)); [|injection Hrun as _ <-; reflexivity].
    destruct (Np.last_item _); [|injection Hrun as _ <-; reflexivity].
    destruct (feq _ _); [injection Hrun as _ <-; reflexivity|].
    unfold write_dataset in Hrun. destruct (Rio.write_error _);
      injection Hrun as _ <-; reflexivity. }
  assert (Hzoom : forall (ok : Z -> Prop) z w1 r1 w2,
             ok z -> _build_zoom self z w1 = (r1, w2) -> P ok w1 -> P ok w2).
  { intros ok z w1 r1 w2 Hok Hrun (zs & Hw & Hzs).
    apply build_zoom_effect in Hrun as (_ & [-> | ->] & _).
    - exists zs. auto.
    - exists (zs ++ [z]). simpl. rewrite Hw, List.map_app, app_assoc.
      split; [reflexivity|]. intros z' Hin. apply in_app_iff in Hin as [Hin|[<-|[]]]; auto. }
  assert (Hstart : forall ok, P ok w).
  { intros ok. exists []. rewrite app_nil_r. split; [reflexivity | intros z []]. }
  destruct (tiles self) as [|zs0 z0 dims0 idx0|] eqn:Hg.
  - simpl in Hloop.
    apply (for_zooms_invariant self _
             (P (fun z => In z (List.map int_value (seq_items (zooms self)))))) in Hloop.
    + destruct Hloop as (zs & Hw & Hzs). exists zs. auto.
    + intros z w1 r1 w2 Hin. apply Hzoom. exact Hin.
    + apply Hbody.
    + apply Hstart.
  - apply (for_each_invariant self _ (P (fun _ => True))) in Hloop.
    + destruct Hloop as (zs & Hw & _). exists zs. split; [exact Hw | discriminate].
    + intros z w1 r1 w2. apply Hzoom. exact I.
    + apply Hbody.
    + apply Hstart.
  - simpl in Hloop. injection Hloop as _ _ <-. destruct (Hstart (fun _ => True)) as (zs & Hw & _).
    exists zs. split; [exact Hw | discriminate].
Qed.

(** X10.  [write] checks the driver before it looks at the directory,
    and makes both checks before it pulls a tile: a driver that is not
    PNG or JPEG, in any case of letters, gives [ValueError] whatever the
    directory is; with a valid driver, a directory that does not exist,
    or is a file, gives [FileNotFoundError]; in both cases the
    instance, with its generator, and the world are left as they are. *)
Theorem write_checks_come_first (self : Tiles) (directory : pyobj) (drv : string)
    (w : World) :
  (upper drv <> "PNG"%string -> upper drv <> "JPEG"%string ->
   write self directory (PyStr drv) w = (Raise ValueError, self, w)) /\
  (upper drv = "PNG"%string \/ upper drv = "JPEG"%string ->
   forall p : Fs.path,
     directory = PyPath p \/ (exists s, directory = PyStr s /\ Fs.path_of_str s = p) ->
     Fs.is_dir p (filesystem w) = false ->
     write self directory (PyStr drv) w = (Raise FileNotFoundError, self, w)).
Proof.
  split.
  - intros Hpng Hjpeg. unfold write, write_checks. cbn [mbind outcome_bind].
    rewrite bool_decide_eq_false_2; [reflexivity|].
    intros Hin. apply list_elem_of_In in Hin. destruct Hin as [H|[H|[]]]; congruence.
  - intros Hdrv p Hdir Hmissing. unfold write, write_checks. cbn [mbind outcome_bind].
    rewrite bool_decide_eq_true_2
      by (apply list_elem_of_In; destruct Hdrv as [-> | ->]; simpl; auto).
    cbn [negb mbind outcome_bind].
    destruct Hdir as [-> | (s & -> & <-)]; cbn [mbind outcome_bind];
      rewrite Hmissing, orb_true_r; reflexivity.
Qed.

(** X11.  With no zoom level there is nothing to write: when its
    checks pass, [write] on a new instance returns at once, leaves the
    world as it is, and leaves the generator finished. *)
Theorem write_without_zooms (self : Tiles) (directory driver : pyobj) (w : World)
    (out_dir : Fs.path) (drv : string) :
  tiles self = GenCreated ->
  seq_items (zooms self) = [] ->
  write_checks directory driver w = Return (out_dir, drv) ->
  write self directory driver w = (Return tt, set_tiles self GenFinished, w).
Proof.
  intros Hg Hzs Hchecks. unfold write. rewrite Hchecks, Hg. simpl. rewrite Hzs.
  reflexivity.
Qed.

(** X12.  Equality does not look at the generator: whatever [write]
    did, the instance it leaves compares with any object as the
    instance did before, on either side of [==]. *)
Theorem eq_unchanged_by_write (self other : Tiles) (directory driver : pyobj)
    (w : World) (o : object) :
  let self' := snd (fst (write self directory driver w)) in
  __eq__ self' o = __eq__ self o /\
  __eq__ other (Instance self') = __eq__ other (Instance self).
Proof.
  assert (Hset : exists g, snd (fst (write self directory driver w)) = set_tiles self g).
  { unfold write. destruct (write_checks directory driver w) as [[out_dir drv]|e].
    - destruct (for_each self (write_tile self out_dir drv) (tiles self) w) as [[r g] w'].
      exists g. reflexivity.
    - exists (tiles self). symmetry. apply set_tiles_same. reflexivity. }
  destruct Hset as [g Hset]. cbv zeta. rewrite Hset.
  split; [destruct o; reflexivity | reflexivity].
Qed.

End WriteFrame.

Section WriteFrameExamples.
Local Existing Instances Double.platform Double.rasterio Double.warp.

(** X8, witness: writing zoom level 0 of the fixture into the
    directory [out], which holds nothing. *)
Lemma write_only_adds_tiles_witness :
  let self := Double.instance (Double.byte_image Double.fixture_bounds) [0] in
  let s' := filesystem (snd (write self (PyStr "out") (PyStr "PNG") Double.empty_world)) in
  write_checks (PyStr "out") (PyStr "PNG") Double.empty_world = Return (["out"], "PNG") /\
  ["out"] ∈ Fs.dirs s' /\
  forall p f, Fs.files s' !! p = Some f ->
    exists tile, p = tile_path ["out"] "PNG" (zoom tile) (column tile) (row tile) /\
                 Fs.rf_data f = data tile /\ Fs.rf_dtype f = Np.UInt8.
Proof.
  intros self s'.
  assert (Hchecks : write_checks (PyStr "out") (PyStr "PNG") Double.empty_world
                    = Return (["out"], "PNG")) by (vm_compute; reflexivity).
  destruct (write_only_adds_tiles self _ _ _ _ _ Hchecks) as (Hdirs & _ & _ & Hfiles).
  split; [exact Hchecks|]. split.
  - apply Hdirs. simpl. set_solver.
  - intros p f Hp. destruct (Hfiles p f Hp) as [Hold | (tile & dims & _ & -> & ->)].
    + simpl in Hold. rewrite lookup_empty in Hold. discriminate.
    + exists tile. auto.
Defined.

(** X10, witness: the driver is refused before the directory, which
    is no path at all, is looked at; and a directory that does not exist
    is refused. *)
Lemma write_checks_come_first_witness :
  let self := Double.instance (Double.byte_image Double.fixture_bounds) [0] in
  write self PyNone (PyStr "tif") Double.empty_world
    = (Raise ValueError, self, Double.empty_world) /\
  write self (PyStr "nowhere") (PyStr "jpeg") Double.empty_world
    = (Raise FileNotFoundError, self, Double.empty_world).
Proof.
  intros self. split.
  - apply (proj1 (write_checks_come_first self PyNone "tif" Double.empty_world));
      vm_compute; discriminate.
  - apply (proj2 (write_checks_come_first self (PyStr "nowhere") "jpeg"
                    Double.empty_world)
             (or_intror eq_refl) ["nowhere"]).
    + right. exists "nowhere"%string. split; reflexivity.
    + vm_compute. reflexivity.
Defined.

(** X11, witness: an instance made with the empty list of zoom
    levels. *)
Lemma write_without_zooms_witness :
  let self := Double.instance (Double.byte_image Double.fixture_bounds) [] in
  write self (PyStr "out") (PyStr "PNG") Double.empty_world
    = (Return tt, set_tiles self GenFinished, Double.empty_world).
Proof.
  intros self.
  apply (write_without_zooms self (PyStr "out") (PyStr "PNG") Double.empty_world
           ["out"] "PNG"); [reflexivity | reflexivity | vm_compute; reflexivity].
Defined.

End WriteFrameExamples.

(** ** The data of a tile *)

Section TileData.
Context {PL : Np.Platform} {RR : Rio.Rasterio} {RW : @Rio.Warp RR}.

Lemma skeleton_map3 {A B} (f : A -> B) (xs : list (list (list A))) :
  Np.skeleton (Np.map3 f xs) = Np.skeleton xs.
Proof.
  unfold Np.skeleton, Np.map3. rewrite List.map_map. apply List.map_ext. intros band.
  rewrite List.map_map. apply List.map_ext. intros row. apply length_map.
Qed.

Lemma skeleton_app {A} (xs ys : list (list (list A))) :
  Np.skeleton (xs ++ ys) = Np.skeleton xs ++ Np.skeleton ys.
Proof. apply List.map_app. Qed.

(** X13.  [_array_to_uint8] keeps the shape of the array it is given:
    the result has the same bands, with the same rows of the same
    lengths, and its samples are 8-bit. *)
Theorem array_to_uint8_keeps_shape (self : Tiles) (a out : Np.ndarray) :
  _array_to_uint8 self a = Return out ->
  Np.nd_dtype out = Np.UInt8 /\
  Np.skeleton (Np.nd_data out) = Np.skeleton (Np.nd_data a).
Proof.
  intros Hrun. apply array_to_uint8_inv in Hrun as (mx & mn & _ & _ & ->).
  split; [reflexivity|]. cbn [Np.nd_data].
  rewrite skeleton_app, !skeleton_map3, <- skeleton_app, all_but_last_last_slice.
  reflexivity.
Qed.

Lemma init_uint8_unset (image : object) (zs px rs : pyobj) (w w' : World)
    (self : Tiles) :
  __init__ image zs px rs w = (Return self, w') ->
  _img_dtype self = Np.UInt8 ->
  _img_max self = None /\ _img_min self = None.
Proof.
  unfold __init__, mbind, M_bind, mret, M_ret, raise, lift. intros Hrun.
  repeat (let E := fresh "E" in
          match type of Hrun with
          | context [let '(_, _) := ?o in _] => is_var o; destruct o
          | context [match ?o with Return _ => _ | Raise _ => _ end] =>
              destruct o eqn:E
          | context [match ?o with Some _ => _ | None => _ end] =>
              destruct o eqn:E
          | context [match ?o with Value _ => _ | _ => _ end] => destruct o eqn:E
          | context [match ?o with PyInt _ => _ | _ => _ end] => destruct o eqn:E
          | context [match ?o with PyStr _ => _ | _ => _ end] => destruct o eqn:E
          | context [if ?b then _ else _] => destruct b eqn:E
          end; cbn [warn negb] in Hrun).
  all: try discriminate Hrun.
  all: injection Hrun as <- <-; cbn [_img_dtype _img_max _img_min fst snd].
  all: intros Hd; try (split; reflexivity).
  all: match goal with
       | E : negb (bool_decide _) = true |- _ =>
           apply negb_true_iff, bool_decide_eq_false in E; contradiction
       end.
Qed.

(** X14.  For a source whose first band is 8-bit the constructor
    leaves the two statistics unset, so that [_array_to_uint8] on the
    instance it returns raises [AttributeError], whatever the array. *)
Theorem uint8_source_has_no_statistics (image : object) (zs px rs : pyobj)
    (w w' : World) (self : Tiles) (a : Np.ndarray) :
  __init__ image zs px rs w = (Return self, w') ->
  _img_dtype self = Np.UInt8 ->
  _img_max self = None /\ _img_min self = None /\
  _array_to_uint8 self a = Raise AttributeError.
Proof.
  intros Hinit Hd. destruct (init_uint8_unset _ _ _ _ _ _ _ Hinit Hd) as [Hmax Hmin].
  split; [exact Hmax|]. split; [exact Hmin|].
  unfold _array_to_uint8. rewrite Hmin. reflexivity.
Qed.

Lemma chunks_concat {A} (n : nat) (rows : list (list A)) :
  Forall (fun row => length row = n) rows ->
  Np.chunks n (length rows) (concat rows) = rows.
Proof.
  induction 1 as [|row rows Hrow _ IH]; [reflexivity|].
  simpl. subst n. rewrite take_app_length, drop_app_length, IH. reflexivity.
Qed.

Lemma last_item_snoc {A} (xs : list A) (x : A) : Np.last_item (xs ++ [x]) = Return x.
Proof. unfold Np.last_item. rewrite rev_app_distr. reflexivity. Qed.

Lemma read_tile_data_reads (self : Tiles) (win : Rio.Window) (raw : Np.ndarray) :
  _read_tile_data self win = Return raw ->
  exists ma,
    Rio.read (img self) (_tile_bands self, pixels self, pixels self) win (resampling self)
      = Return ma.
Proof.
  unfold _read_tile_data. intros Hrun.
  apply outcome_bind_return in Hrun as (ma & Hma & _). exists ma. exact Hma.
Qed.

(** X15.  The last band of what [_read_tile_data] returns is the alpha
    channel: for a mask of [pixels] rows of [pixels] columns, its sample
    at a pixel is 0 where the first band of the window is masked and 255
    where it is not, converted to the sample type of the image and then
    to that of the result, which is the type the array read and the
    image promote to.  For an 8-bit image read as 8-bit the samples are
    0 and 255 themselves. *)
Theorem read_tile_alpha (self : Tiles) (win : Rio.Window) (ma : Np.MaskedArray)
    (mask0 : list (list bool)) (raw : Np.ndarray) :
  Rio.read (img self) (_tile_bands self, pixels self, pixels self) win (resampling self)
    = Return ma ->
  Np.first_item (Np.ma_mask ma) = Return mask0 ->
  length mask0 = Z.to_nat (pixels self) ->
  Forall (fun row => length row = Z.to_nat (pixels self)) mask0 ->
  _read_tile_data self win = Return raw ->
  Np.nd_dtype raw = Np.promote (Np.nd_dtype (Np.ma_array ma)) (_img_dtype self) /\
  Np.last_item (Np.nd_data raw) =
    Return (List.map (List.map (fun m : bool =>
              Np.cast (Np.nd_dtype raw)
                (Np.cast (_img_dtype self) (Np.SInt (if m then 0 else 255))))) mask0) /\
  (Np.nd_dtype (Np.ma_array ma) = Np.UInt8 -> _img_dtype self = Np.UInt8 ->
   Np.last_item (Np.nd_data raw) =
     Return (List.map (List.map (fun m : bool => Np.SInt (if m then 0 else 255))) mask0)).
Proof.
  intros Hread Hmask Hrows Hcols Hrun. unfold _read_tile_data in Hrun.
  rewrite Hread in Hrun. cbn [mbind outcome_bind] in Hrun.
  rewrite Hmask in Hrun. cbn [mbind outcome_bind] in Hrun.
  unfold Np.where_0_255_reshape in Hrun.
  destruct (_ && _) in Hrun; [|discriminate]. cbn [mbind outcome_bind] in Hrun.
  unfold Np.append0 in Hrun.
  destruct (Np.shape3 (Np.nd_data (Np.ma_array ma))) as [[[n1 h1] w1]|]; [|discriminate].
  destruct (Np.shape3 _) as [[[n2 h2] w2]|] in Hrun; [|discriminate].
  destruct (_ && _) in Hrun; [|discriminate]. injection Hrun as <-.
  cbn [Np.nd_dtype Np.nd_data Np.astype].
  assert (Halpha : Np.chunks (Z.to_nat (pixels self)) (Z.to_nat (pixels self))
                     (List.map (fun m : bool => Np.SInt (if m then 0 else 255))
                        (concat mask0))
                   = List.map (List.map (fun m : bool => Np.SInt (if m then 0 else 255)))
                       mask0).
  { rewrite concat_map. rewrite <- Hrows at 2.
    rewrite <- (length_map (List.map (fun m : bool => Np.SInt (if m then 0 else 255)))).
    apply chunks_concat. apply List.Forall_map.
    eapply List.Forall_impl; [|exact Hcols]. intros row Hrow. simpl.
    rewrite length_map. exact Hrow. }
  rewrite Halpha.
  assert (Hlast : forall d,
            Np.last_item
              (Np.map3 (Np.cast d) (Np.nd_data (Np.ma_array ma)) ++
               Np.map3 (Np.cast d)
                 (Np.map3 (Np.cast (_img_dtype self))
                    [List.map (List.map (fun m : bool => Np.SInt (if m then 0 else 255)))
                       mask0]))
            = Return (List.map (List.map (fun m : bool =>
                        Np.cast d (Np.cast (_img_dtype self)
                                     (Np.SInt (if m then 0 else 255))))) mask0)).
  { intros d. unfold Np.map3 at 2 3. cbn [List.map]. rewrite last_item_snoc.
    f_equal. rewrite !List.map_map. apply List.map_ext. intros row.
    rewrite !List.map_map. reflexivity. }
  split; [reflexivity|]. split; [apply Hlast|].
  intros Hd1 Hd2. rewrite Hlast, Hd1, Hd2. f_equal. apply List.map_ext. intros row.
  apply List.map_ext. intros [|]; reflexivity.
Qed.

End TileData.

Section TileDataExamples.
Local Existing Instances Double.platform Double.rasterio Double.warp.

(** X13, witness: a 16-bit buffer of one band and an alpha band, of two
    rows of three samples. *)
Lemma array_to_uint8_keeps_shape_witness :
  let self := Double.instance Double.quarter_image [0] in
  let buffer :=
    Np.NdArray Np.UInt16
      [ [[Np.SInt 0; Np.SInt 1; Np.SInt 2]; [Np.SInt 3; Np.SInt 4; Np.SInt 5]];
        [[Np.SInt 255; Np.SInt 255; Np.SInt 0]; [Np.SInt 0; Np.SInt 255; Np.SInt 255]] ] in
  exists out,
    _array_to_uint8 self buffer = Return out /\
    Np.nd_dtype out = Np.UInt8 /\
    Np.skeleton (Np.nd_data out) = [[3; 3]; [3; 3]]%nat.
Proof.
  intros self buffer.
  assert (Hobs : match _array_to_uint8 self buffer with
                 | Return _ => true
                 | Raise _ => false
                 end = true) by (vm_compute; reflexivity).
  destruct (_array_to_uint8 self buffer) as [out|e] eqn:Hrun; [|discriminate].
  destruct (array_to_uint8_keeps_shape _ _ _ Hrun) as [Hd Hshape].
  exists out. split; [reflexivity|]. split; [exact Hd|].
  rewrite Hshape. vm_compute. reflexivity.
Defined.

(** X14, witness: the 8-bit image of the fixture. *)
Lemma uint8_source_has_no_statistics_witness :
  let ds := Double.byte_image Double.fixture_bounds in
  let self := Double.instance ds [0] in
  __init__ (Dataset ds) (PyList [PyInt 0]) (PyInt 256) (PyStr "nearest")
    Double.empty_world = (Return self, Double.empty_world) /\
  _img_max self = None /\ _img_min self = None /\
  _array_to_uint8 self (Double.constant_buffer Np.UInt16 3 (Np.SInt 1) (Np.SInt 255))
    = Raise AttributeError.
Proof.
  intros ds self.
  assert (Hinit : __init__ (Dataset ds) (PyList [PyInt 0]) (PyInt 256) (PyStr "nearest")
                    Double.empty_world = (Return self, Double.empty_world))
    by reflexivity.
  split; [exact Hinit|].
  exact (uint8_source_has_no_statistics _ _ _ _ _ _ _ _ Hinit eq_refl).
Defined.

(** X15, witness: a window inside the 8-bit image of the fixture, where
    nothing is masked. *)
Lemma read_tile_alpha_witness :
  let self := Double.instance (Double.byte_image Double.fixture_bounds) [0] in
  let win := Rio.MkWindow (Double.f64 0) (Double.f64 0) (Double.f64 256) (Double.f64 256) in
  exists raw,
    _read_tile_data self win = Return raw /\
    Np.nd_dtype raw = Np.UInt8 /\
    Np.last_item (Np.nd_data raw)
      = Return (List.repeat (List.repeat (Np.SInt 255) 256) 256).
Proof.
  intros self win.
  set (mask0 := List.repeat (List.repeat false 256) 256).
  assert (Hobs : match _read_tile_data self win with
                 | Return _ => true
                 | Raise _ => false
                 end = true) by (vm_compute; reflexivity).
  destruct (_read_tile_data self win) as [raw|e] eqn:Hrun; [|discriminate].
  destruct (read_tile_data_reads _ _ _ Hrun) as [ma Hread].
  assert (Hma : (Np.nd_dtype (Np.ma_array ma), Np.first_item (Np.ma_mask ma))
                = (Np.UInt8, Return mask0)).
  { assert (Hboth : (ma' ← Rio.read (img self)
                              (_tile_bands self, pixels self, pixels self) win
                              (resampling self);
                     Return (Np.nd_dtype (Np.ma_array ma'),
                             Np.first_item (Np.ma_mask ma')))
                    = Return (Np.UInt8, Return mask0)) by (vm_compute; reflexivity).
    rewrite Hread in Hboth. cbn [mbind outcome_bind] in Hboth.
    injection Hboth as -> ->. reflexivity. }
  injection Hma as Hd Hmask.
  assert (Hcols : Forall (fun row : list bool => length row = Z.to_nat (pixels self)) mask0).
  { apply List.Forall_forall. intros row Hin. apply repeat_spec in Hin. subst row.
    reflexivity. }
  destruct (read_tile_alpha self win ma mask0 raw Hread Hmask eq_refl Hcols Hrun)
    as (Hraw & _ & Halpha).
  exists raw. split; [reflexivity|]. split.
  - rewrite Hraw, Hd. reflexivity.
  - rewrite (Halpha Hd eq_refl). vm_compute. reflexivity.
Defined.

End TileDataExamples.

(** ** Attributes, representation and paths *)

Section Attributes.
Context {PL : Np.Platform} {RR : Rio.Rasterio} {RW : @Rio.Warp RR}.

Lemma resampling_name_of_code (name : string) (code : Z) :
  dict_get _valid_resampling name = Some code ->
  list_item (List.map fst _valid_resampling) code = Return name.
Proof.
  unfold _valid_resampling, dict_get. intros Hget.
  repeat case_decide; try discriminate; injection Hget as <-; subst name; reflexivity.
Qed.

(** X16.  The representation names the resampling method the instance
    was made with: the name [__repr__] finds by the code, in the order
    of the table, is the name that was given to the constructor, between
    quotes. *)
Theorem repr_names_resampling (image : object) (zs px : pyobj) (name : string)
    (w w' : World) (self : Tiles) :
  __init__ image zs px (PyStr name) w = (Return self, w') ->
  resampling_str self = Return ("'" +:+ name +:+ "'").
Proof.
  intros Hinit.
  apply init_inv in Hinit
    as (d & p & name' & code & _ & _ & Hname & _ & Hcode & _ & _ & _ & _ & _ & _ & Hres & _).
  injection Hname as <-. unfold resampling_str.
  rewrite Hres, (resampling_name_of_code _ _ Hcode). reflexivity.
Qed.

Lemma setattr_accepts (self self' : Tiles) (name : string) (value : float) :
  __setattr__ self name value = Return self' ->
  (name = "_img_max"%string /\ _img_max self = None /\
   _img_max self' = Some value /\ _img_min self' = _img_min self) \/
  (name = "_img_min"%string /\ _img_min self = None /\
   _img_min self' = Some value /\ _img_max self' = _img_max self).
Proof.
  unfold __setattr__. intros Hset.
  destruct (bool_decide (name = "_img_max")) eqn:Hmax.
  - apply bool_decide_eq_true in Hmax.
    destruct (_img_max self) eqn:Hunset; [discriminate|]. injection Hset as <-.
    left. auto.
  - destruct (bool_decide (name = "_img_min")) eqn:Hmin; [|discriminate].
    apply bool_decide_eq_true in Hmin.
    destruct (_img_min self) eqn:Hunset; [discriminate|]. injection Hset as <-.
    right. auto.
Qed.

Lemma assigned_keeps (self self' : Tiles) :
  assigned self self' ->
  (forall x, _img_max self = Some x -> _img_max self' = Some x) /\
  (forall x, _img_min self = Some x -> _img_min self' = Some x).
Proof.
  induction 1 as [|self1 self2 name value _ [IHmax IHmin] Hset]; [auto|].
  apply setattr_accepts in Hset
    as [(_ & Hunset & _ & Hmin) | (_ & Hunset & _ & Hmax)].
  - split.
    + intros x Hx. rewrite (IHmax x Hx) in Hunset. discriminate.
    + intros x Hx. rewrite Hmin. auto.
  - split.
    + intros x Hx. rewrite Hmax. auto.
    + intros x Hx. rewrite (IHmin x Hx) in Hunset. discriminate.
Qed.

(** X17.  As long as no attribute is deleted, an attribute is assigned
    at most once: after an assignment that [__setattr__] accepted, and
    after any number of later accepted assignments, to whatever names,
    the attribute still holds the value it was given and every
    assignment to its name raises [AttributeError]. *)
Theorem setattr_write_once (self self1 self2 : Tiles) (name : string)
    (value value' : float) :
  __setattr__ self name value = Return self1 ->
  assigned self1 self2 ->
  __setattr__ self2 name value' = Raise AttributeError /\
  (name = "_img_max"%string -> _img_max self2 = Some value) /\
  (name = "_img_min"%string -> _img_min self2 = Some value).
Proof.
  intros Hset Hlater. destruct (assigned_keeps _ _ Hlater) as [Hmax Hmin].
  apply setattr_accepts in Hset as [(-> & _ & Hv & _) | (-> & _ & Hv & _)].
  - split; [|split; [auto | discriminate]].
    unfold __setattr__. rewrite (Hmax _ Hv). reflexivity.
  - split; [|split; [discriminate | auto]].
    unfold __setattr__. rewrite (Hmin _ Hv). reflexivity.
Qed.

(** X18.  An instance made for a source that is not 8-bit is read
    only: every assignment to one of its attributes, and to any other
    name, raises [AttributeError]. *)
Theorem constructed_is_read_only (image : object) (zs px rs : pyobj) (w w' : World)
    (self : Tiles) (name : string) (value : float) :
  __init__ image zs px rs w = (Return self, w') ->
  _img_dtype self <> Np.UInt8 ->
  __setattr__ self name value = Raise AttributeError.
Proof.
  intros Hinit Hd.
  apply init_inv in Hinit
    as (d & p & name' & code & _ & _ & _ & _ & _ & _ & _ & _ & _ & _ & _ & _ & _ & _ & _
        & Hstats).
  destruct (Hstats Hd) as (mx & mn & _ & Hmax & Hmin).
  unfold __setattr__. rewrite Hmax, Hmin.
  destruct (bool_decide _); [reflexivity|]. destruct (bool_decide _); reflexivity.
Qed.

End Attributes.

Lemma string_app_length (s t : string) :
  String.length (s +:+ t) = (String.length s + String.length t)%nat.
Proof. induction s as [|c s IH]; simpl; [reflexivity | rewrite IH; reflexivity]. Qed.

Lemma string_app_inv_tail (s1 s2 t : string) : s1 +:+ t = s2 +:+ t -> s1 = s2.
Proof.
  revert s2. induction s1 as [|c s1 IH]; intros [|c' s2] Heq; simpl in Heq.
  - reflexivity.
  - apply (f_equal String.length) in Heq.
    rewrite !string_app_length in Heq. simpl in Heq. lia.
  - apply (f_equal String.length) in Heq.
    rewrite !string_app_length in Heq. simpl in Heq. lia.
  - injection Heq as -> Heq. f_equal. apply IH. exact Heq.
Qed.

Lemma tile_path_inj (out_dir : Fs.path) (driver : string) (z c r z' c' r' : Z) :
  tile_path out_dir driver z c r = tile_path out_dir driver z' c' r' ->
  z = z' /\ c = c' /\ r = r'.
Proof.
  unfold tile_path, tile_dir, Fs.joinpath. rewrite <- !app_assoc. intros Heq.
  apply app_inv_head in Heq. simpl in Heq. injection Heq as Hz Hc Hr.
  apply string_app_inv_tail in Hr.
  unfold str_of_int in *.
  split; [|split]; apply (inj pretty); assumption.
Qed.

(** X19.  Tiles do not share a file: under one output directory and
    one driver, the paths of two tiles are the same exactly when the
    tiles have the same zoom level, column and row. *)
Theorem tile_path_injective (out_dir : Fs.path) (driver : string)
    (z c r z' c' r' : Z) :
  tile_path out_dir driver z c r = tile_path out_dir driver z' c' r' <->
  z = z' /\ c = c' /\ r = r'.
Proof.
  split; [apply tile_path_inj|]. intros (-> & -> & ->). reflexivity.
Qed.

Section AttributesExamples.
Local Existing Instances Double.platform Double.rasterio Double.warp.

(** X16, witness: an instance made with the method [lanczos]. *)
Lemma repr_names_resampling_witness :
  exists self w',
    __init__ (Dataset (Double.byte_image Double.fixture_bounds)) (PyList [PyInt 0])
      (PyInt 256) (PyStr "lanczos") Double.empty_world = (Return self, w') /\
    resampling self = 4 /\
    resampling_str self = Return "'lanczos'"%string.
Proof.
  assert (Hobs : match fst (__init__ (Dataset (Double.byte_image Double.fixture_bounds))
                              (PyList [PyInt 0]) (PyInt 256) (PyStr "lanczos")
                              Double.empty_world) with
                 | Return t => resampling t =? 4
                 | Raise _ => false
                 end = true) by reflexivity.
  destruct (__init__ (Dataset (Double.byte_image Double.fixture_bounds))
              (PyList [PyInt 0]) (PyInt 256) (PyStr "lanczos") Double.empty_world)
    as [r w'] eqn:Hinit.
  destruct r as [self|e]; [|discriminate Hobs].
  simpl in Hobs.
  exists self, w'. split; [reflexivity|]. split; [lia|].
  exact (repr_names_resampling _ _ _ _ _ _ _ Hinit).
Defined.

(** X17, witness: on the instance for an 8-bit image, whose statistics
    are unset, the maximum is assigned, then the minimum; the maximum
    cannot be assigned again. *)
Lemma setattr_write_once_witness :
  let self := Double.instance (Double.byte_image Double.fixture_bounds) [0] in
  exists self1 self2,
    __setattr__ self "_img_max" (Double.f64 9) = Return self1 /\
    __setattr__ self1 "_img_min" (Double.f64 3) = Return self2 /\
    _img_max self2 = Some (Double.f64 9) /\
    __setattr__ self2 "_img_max" (Double.f64 7) = Raise AttributeError.
Proof.
  intros self.
  assert (Hobs : match __setattr__ self "_img_max" (Double.f64 9) with
                 | Return t => match __setattr__ t "_img_min" (Double.f64 3) with
                               | Return _ => true
                               | Raise _ => false
                               end
                 | Raise _ => false
                 end = true) by reflexivity.
  destruct (__setattr__ self "_img_max" (Double.f64 9)) as [self1|e] eqn:Hfirst;
    [|discriminate].
  destruct (__setattr__ self1 "_img_min" (Double.f64 3)) as [self2|e] eqn:Hsecond;
    [|discriminate].
  destruct (setattr_write_once self self1 self2 "_img_max" (Double.f64 9) (Double.f64 7)
              Hfirst
              (assigned_more _ _ _ _ _ (assigned_none _) Hsecond))
    as (Hrefused & Hkept & _).
  exists self1, self2. split; [reflexivity|]. split; [exact Hsecond|].
  split; [exact (Hkept eq_refl) | exact Hrefused].
Defined.

(** X18, witness: the instance for the 16-bit image. *)
Lemma constructed_is_read_only_witness :
  let self := Double.instance Double.quarter_image [0] in
  __setattr__ self "_img_max" (Double.f64 9) = Raise AttributeError /\
  __setattr__ self "pixels" (Double.f64 512) = Raise AttributeError.
Proof.
  intros self.
  assert (Hinit : __init__ (Dataset Double.quarter_image) (PyList (List.map PyInt [0]))
                    (PyInt 256) (PyStr "nearest") Double.empty_world
                  = (Return self, Double.constructed_world Double.quarter_image [0]))
    by reflexivity.
  assert (Hd : _img_dtype self <> Np.UInt8) by (vm_compute; discriminate).
  split; exact (constructed_is_read_only _ _ _ _ _ _ _ _ _ Hinit Hd).
Defined.

End AttributesExamples.

(** ** A [write] that returns has written every tile *)

Section WriteAll.
Context {PL : Np.Platform} {RR : Rio.Rasterio} {RW : @Rio.Warp RR}.

(** The plan of a zoom level does not depend on the world. *)
Lemma build_zoom_pure (self : Tiles) (z : Z) (w0 w1 : World) :
  fst (_build_zoom self z w0) = fst (_build_zoom self z w1).
Proof.
  unfold _build_zoom, mbind, M_bind, mret, M_ret, lift.
  repeat match goal with
         | |- context [match ?o with Return _ => _ | Raise _ => _ end] => destruct o
         | |- context [if ?b then _ else _] => destruct b
         end; reflexivity.
Qed.

Lemma write_tile_returns (self : Tiles) (out_dir : Fs.path) (driver : string)
    (tile : _Tile) (w w' : World) (u : unit) :
  write_tile self out_dir driver tile w = (Return u, w') ->
  exists alpha,
    Np.last_item (Np.nd_data (data tile)) = Return alpha /\
    Fs.files (filesystem w') =
      if feq (Np.mean alpha) (IEEE.of_Z IEEE.binary64 0)
      then Fs.files (filesystem w)
      else <[ tile_path out_dir driver (zoom tile) (column tile) (row tile)
              := tile_file self driver tile ]> (Fs.files (filesystem w)).
Proof.
  unfold write_tile, mbind, M_bind, mkdir, lift. intros Hrun.
  destruct (Fs.mkdir_parents _ (filesystem w)) as [s1|e] eqn:Hmk; [|discriminate].
  apply mkdir_rec_spec in Hmk as (_ & Hsame & _).
  destruct (Np.last_item (Np.nd_data (data tile))) as [alpha|e]; [|discriminate].
  exists alpha. split; [reflexivity|].
  destruct (feq (Np.mean alpha) (IEEE.of_Z IEEE.binary64 0)).
  - injection Hrun as _ <-. exact Hsame.
  - unfold write_dataset in Hrun. destruct (Rio.write_error _); [discriminate|].
    injection Hrun as _ <-. cbn [filesystem Fs.put_file Fs.files]. rewrite Hsame.
    reflexivity.
Qed.

Lemma write_tile_keeps (self : Tiles) (out_dir : Fs.path) (driver : string)
    (z c r : Z) (zp : _Zoom) (w0 w1 : World) (tile : _Tile) (w w' : World) (u : unit) :
  _build_zoom self z w0 = (Return zp, w1) ->
  _build_tile self z c r (tile_dims zp) = Return tile ->
  write_tile self out_dir driver tile w = (Return u, w') ->
  tile_written self out_dir driver (filesystem w') z c r (tile_dims zp) /\
  keeps_tiles self out_dir driver (filesystem w) (filesystem w').
Proof.
  intros Hzoom Htile Hrun.
  destruct (build_tile_fields _ _ _ _ _ _ Htile) as (Hz & Hc & Hr).
  apply write_tile_returns in Hrun as (alpha & Halpha & Hfiles).
  rewrite Hz, Hc, Hr in Hfiles.
  split.
  - exists tile, alpha. split; [exact Htile|]. split; [exact Halpha|].
    intros Hne. rewrite Hfiles, Hne. apply lookup_insert_eq.
  - intros z' c' r' zp' w0' w1' Hzoom' (tile' & alpha' & Htile' & Halpha' & Hfile').
    exists tile', alpha'. split; [exact Htile'|]. split; [exact Halpha'|].
    intros Hne'. rewrite Hfiles.
    destruct (feq (Np.mean alpha) (IEEE.of_Z IEEE.binary64 0)); [auto|].
    destruct (decide (tile_path out_dir driver z c r = tile_path out_dir driver z' c' r'))
      as [Heq|Hneq].
    + apply tile_path_inj in Heq as (<- & <- & <-).
      assert (Hzp : zp' = zp).
      { pose proof (build_zoom_pure self z w0 w0') as Hpure.
        rewrite Hzoom, Hzoom' in Hpure. simpl in Hpure. congruence. }
      subst zp'. rewrite Htile in Htile'. injection Htile' as <-.
      apply lookup_insert_eq.
    + rewrite lookup_insert_ne by exact Hneq. auto.
Qed.

Lemma for_indices_returns (self : Tiles) (out_dir : Fs.path) (driver : string)
    (k : World -> loop_result) (zs : list Z) (z : Z) (zp : _Zoom) (w0 w1 : World)
    (indices : list (Z * Z)) :
  _build_zoom self z w0 = (Return zp, w1) ->
  forall w g w',
    for_indices self (write_tile self out_dir driver) k zs z (tile_dims zp) indices w
      = (Return tt, g, w') ->
    exists wm,
      k wm = (Return tt, g, w') /\
      keeps_tiles self out_dir driver (filesystem w) (filesystem wm) /\
      forall c r, In (c, r) indices ->
        tile_written self out_dir driver (filesystem wm) z c r (tile_dims zp).
Proof.
  intros Hzoom.
  induction indices as [|[c r0] rest IH]; intros w g w' Hrun; simpl in Hrun.
  - exists w. split; [exact Hrun|]. split; [|intros c r []].
    intros z' c' r' zp' w0' w1' _ H. exact H.
  - destruct (_build_tile self z c r0 (tile_dims zp)) as [tile|e] eqn:Htile;
      [|discriminate].
    destruct (write_tile self out_dir driver tile w) as [[u|e] wa] eqn:Hbody;
      [|discriminate].
    destruct (write_tile_keeps _ _ _ _ _ _ _ _ _ _ _ _ _ Hzoom Htile Hbody)
      as [Hthis Hkeep].
    destruct (IH _ _ _ Hrun) as (wm & Hk & Hkeep' & Hrest).
    exists wm. split; [exact Hk|]. split.
    + intros z' c' r' zp' w0' w1' Hz' H.
      exact (Hkeep' _ _ _ _ _ _ Hz' (Hkeep _ _ _ _ _ _ Hz' H)).
    + intros c' r' [Heq|Hin].
      * injection Heq as <- <-. exact (Hkeep' _ _ _ _ _ _ Hzoom Hthis).
      * exact (Hrest _ _ Hin).
Qed.

Lemma for_zooms_returns (self : Tiles) (out_dir : Fs.path) (driver : string)
    (zs : list Z) :
  forall w g w',
    for_zooms self (write_tile self out_dir driver) zs w = (Return tt, g, w') ->
    keeps_tiles self out_dir driver (filesystem w) (filesystem w') /\
    forall z, In z zs ->
      exists zp wa wb,
        _build_zoom self z wa = (Return zp, wb) /\
        forall c r, In (c, r) (tile_indices zp) ->
          tile_written self out_dir driver (filesystem w') z c r (tile_dims zp).
Proof.
  induction zs as [|z zs IH]; intros w g w' Hrun; simpl in Hrun.
  - injection Hrun as _ <-. split; [|intros z []].
    intros z' c' r' zp' w0' w1' _ H. exact H.
  - destruct (_build_zoom self z w) as [[zp|e] wa] eqn:Hzoom; [|discriminate].
    destruct (for_indices_returns _ _ _ _ _ _ _ _ _ _ Hzoom _ _ _ Hrun)
      as (wm & Hk & Hkeep & Hidx).
    destruct (IH _ _ _ Hk) as [Hkeep' Hzs].
    pose proof (build_zoom_effect _ _ _ _ _ Hzoom) as [Hfs _].
    split.
    + intros z' c' r' zp' w0' w1' Hz' H. apply (Hkeep' _ _ _ _ _ _ Hz').
      apply (Hkeep _ _ _ _ _ _ Hz'). rewrite Hfs. exact H.
    + intros z' [<-|Hin].
      * exists zp, w, wa. split; [exact Hzoom|]. intros c r Hcr.
        exact (Hkeep' _ _ _ _ _ _ Hzoom (Hidx _ _ Hcr)).
      * exact (Hzs _ Hin).
Qed.

(** X20.  When [write] on a new instance returns, every tile of the
    plan has been built and written: each configured zoom level has a
    plan, the same in every world, and for each pair of indices of the
    plan the tile was built and, unless the mean of its alpha band is
    zero, the file [{out_dir}/{zoom}/{column}/{row}.{driver}] holds its
    data as an 8-bit image of [pixels] by [pixels] when [write]
    returns. *)
Theorem write_writes_every_tile (self self' : Tiles) (directory driver : pyobj)
    (out_dir : Fs.path) (drv : string) (w w' : World) :
  tiles self = GenCreated ->
  write_checks directory driver w = Return (out_dir, drv) ->
  write self directory driver w = (Return tt, self', w') ->
  forall z, In z (List.map int_value (seq_items (zooms self))) ->
  forall w0, exists zp w1,
    _build_zoom self z w0 = (Return zp, w1) /\
    forall c r, In (c, r) (tile_indices zp) ->
      exists tile alpha,
        _build_tile self z c r (tile_dims zp) = Return tile /\
        Np.last_item (Np.nd_data (data tile)) = Return alpha /\
        (feq (Np.mean alpha) (IEEE.of_Z IEEE.binary64 0) = false ->
         Fs.files (filesystem w') !! tile_path out_dir drv z c r =
           Some {| Fs.rf_driver := drv; Fs.rf_width := pixels self;
                   Fs.rf_height := pixels self;
                   Fs.rf_count := Z.of_nat (length (Np.nd_data (data tile)));
                   Fs.rf_dtype := Np.UInt8; Fs.rf_data := data tile |}).
Proof.
  intros Hg Hchecks Hrun z Hz w0. unfold write in Hrun. rewrite Hchecks, Hg in Hrun.
  simpl in Hrun.
  destruct (for_zooms self (write_tile self out_dir drv)
              (List.map int_value (seq_items (zooms self))) w) as [[r g] w2] eqn:Hloop.
  injection Hrun as -> _ <-.
  apply for_zooms_returns in Hloop as [_ Hall].
  destruct (Hall z Hz) as (zp & wa & wb & Hzoom & Hidx).
  pose proof (build_zoom_pure self z w0 wa) as Hpure. rewrite Hzoom in Hpure.
  destruct (_build_zoom self z w0) as [r0 w1] eqn:Hzoom0. simpl in Hpure. subst r0.
  exists zp, w1. split; [reflexivity|]. exact Hidx.
Qed.

End WriteAll.

Section WriteAllExamples.
Local Existing Instances Double.platform Double.rasterio Double.warp.

(** X20, witness: zoom level 0 of the fixture has one tile, and its
    file is written. *)
Lemma write_writes_every_tile_witness :
  let self := Double.instance (Double.byte_image Double.fixture_bounds) [0] in
  exists self' w',
    write self (PyStr "out") (PyStr "PNG") Double.empty_world = (Return tt, self', w') /\
    fst (_build_zoom self 0 Double.empty_world)
      = Return (Build_Zoom 0 (S754_finite false 5378777689100435 (-27)) [(0, 0)]) /\
    exists f, Fs.files (filesystem w') !! ["out"; "0"; "0"; "0.PNG"] = Some f /\
              Fs.rf_count f = 4 /\ Fs.rf_width f = 256.
Proof.
  intros self.
  assert (Hr : fst (fst (write self (PyStr "out") (PyStr "PNG") Double.empty_world))
               = Return tt) by (vm_compute; reflexivity).
  destruct (write self (PyStr "out") (PyStr "PNG") Double.empty_world)
    as [[r self'] w'] eqn:Hw.
  simpl in Hr. subst r.
  assert (Hchecks : write_checks (PyStr "out") (PyStr "PNG") Double.empty_world
                    = Return (["out"], "PNG")) by (vm_compute; reflexivity).
  assert (Hplan : fst (_build_zoom self 0 Double.empty_world)
                  = Return (Build_Zoom 0 (S754_finite false 5378777689100435 (-27))
                              [(0, 0)])) by (vm_compute; reflexivity).
  destruct (write_writes_every_tile self self' _ _ _ _ _ _ eq_refl Hchecks Hw 0
              (or_introl eq_refl) Double.empty_world) as (zp & w1 & Hzoom & Hall).
  pose proof Hplan as Hzp. rewrite Hzoom in Hzp. simpl in Hzp. injection Hzp as ->.
  destruct (Hall 0 0 (or_introl eq_refl)) as (tile & alpha & Htile & Halpha & Hfile).
  assert (Hobs : (t ← _build_tile self 0 0 0 (S754_finite false 5378777689100435 (-27));
                  a ← Np.last_item (Np.nd_data (data t));
                  Return (feq (Np.mean a) (IEEE.of_Z IEEE.binary64 0),
                          length (Np.nd_data (data t))))
                 = Return (false, 4%nat)) by (vm_compute; reflexivity).
  cbn [tile_dims] in Htile. rewrite Htile in Hobs. cbn [mbind outcome_bind] in Hobs.
  rewrite Halpha in Hobs. cbn [mbind outcome_bind] in Hobs.
  injection Hobs as Hne Hlen.
  exists self', w'. split; [reflexivity|]. split; [exact Hplan|].
  eexists. split; [exact (Hfile Hne)|]. cbn [Fs.rf_count Fs.rf_width].
  rewrite Hlen. split; reflexivity.
Defined.

End WriteAllExamples.

(** ** The checks of the constructor *)

Section Validation.
Context {PL : Np.Platform} {RR : Rio.Rasterio} {RW : @Rio.Warp RR}.

(** X21.  The constructor checks its arguments before it does anything
    else: unless the image is a dataset with a coordinate reference
    system, the zoom levels a sequence of integers between 0 and 25, the
    pixel size the integer 256 or 512 and the resampling a name of the
    table, it raises [TypeError], [CRSError] or [ValueError] and no
    warning has been issued. *)
Theorem init_checks_arguments_first (image : object) (zs px rs : pyobj) (w : World) :
  ~ (exists d c p name code,
       image = Dataset d /\ Rio.crs d = Some c /\
       is_sequence zs = true /\
       forallb is_int (seq_items zs) = true /\
       forallb (fun z => (int_value z <=? 25) && (int_value z >=? 0)) (seq_items zs)
         = true /\
       px = PyInt p /\ (p = 256 \/ p = 512) /\
       rs = PyStr name /\ dict_get _valid_resampling name = Some code) ->
  exists e,
    __init__ image zs px rs w = (Raise e, w) /\
    (e = TypeError \/ e = CRSError \/ e = ValueError).
Proof.
  intros Hinvalid.
  unfold __init__, mbind, M_bind, mret, M_ret, raise.
  destruct image as [v|d|t];
    [eexists; split; [reflexivity | auto] | | eexists; split; [reflexivity | auto]].
  destruct (Rio.crs d) as [c|] eqn:Hcrs; [|eexists; split; [reflexivity | auto]].
  destruct (is_sequence zs) eqn:Hseq; cbn [negb];
    [|eexists; split; [reflexivity | auto]].
  destruct (forallb is_int (seq_items zs)) eqn:Hints; cbn [negb];
    [|eexists; split; [reflexivity | auto]].
  destruct (forallb (fun z => (int_value z <=? 25) && (int_value z >=? 0))
             (seq_items zs)) eqn:Hrange; cbn [negb];
    [|eexists; split; [reflexivity | auto]].
  destruct px as [|p| | | | | |]; try (eexists; split; [reflexivity | auto]).
  destruct ((p =? 256) || (p =? 512)) eqn:Hp; [|eexists; split; [reflexivity | auto]].
  destruct rs as [| | |name| | | |]; try (eexists; split; [reflexivity | auto]).
  destruct (dict_get _valid_resampling name) as [code|] eqn:Hname;
    [|eexists; split; [reflexivity | auto]].
  exfalso. apply Hinvalid. exists d, c, p, name, code.
  split_and!; try reflexivity; try assumption.
  apply orb_true_iff in Hp. lia.
Qed.

End Validation.

Section ValidationExamples.
Local Existing Instances Double.platform Double.rasterio Double.warp.

(** X21, witness: 128 pixels. *)
Lemma init_checks_arguments_first_witness :
  exists e,
    __init__ (Dataset Double.quarter_image) (PyList [PyInt 0]) (PyInt 128)
      (PyStr "nearest") Double.empty_world = (Raise e, Double.empty_world) /\
    (e = TypeError \/ e = CRSError \/ e = ValueError).
Proof.
  apply init_checks_arguments_first.
  intros (d & c & p & name & code & _ & _ & _ & _ & _ & Hpx & Hp & _).
  injection Hpx as <-. lia.
Defined.

End ValidationExamples.
